(** * msi-cooler-booster-manager: a shallow embedding of [main.py] and
    [manager.py]

    [main.py] is the command line tool over the msi-ec sysfs files,
    [manager.py] the thermal monitor that runs it as a subprocess, parses what
    it prints and switches the cooler boost.

    Data is modelled as the code has it.  A Python [str] is a [string] of the
    bytes of its UTF-8 encoding, and the content of a file is a [string] of
    its bytes, which reading in text mode decodes; a Python [float] is an
    IEEE 754 binary64 value ([spec_float] at precision 53 and maximal
    exponent 1024); a Python [int] is a [Z].  Code that raises returns a sum
    whose left side is the exception.  The interpreter is CPython 3.11 with
    its defaults, in a UTF-8 locale. *)

From Stdlib Require Import ZArith Lia Bool List String Ascii.
From Stdlib Require Import Decimal DecimalString DecimalZ DecimalPos DecimalN.
From Stdlib Require Import SpecFloat.
Import ListNotations.

#[local] Open Scope string_scope.
#[local] Open Scope Z_scope.

(** ** The operations of [str] the two scripts use *)

Module PyStr.

(** *** Characters

    A character below U+0080 is one byte.  Every other one is a lead byte
    (0xC2 to 0xF4) and one to three continuation bytes (0x80 to 0xBF), which
    carry six bits of the code point each. *)

Definition byte (c : ascii) : N := N_of_ascii c.

Definition one (a : ascii) : bool := (byte a <? 0x80)%N.

Definition continuation (c : ascii) : bool :=
  ((0x80 <=? byte c) && (byte c <? 0xC0))%N.

Definition two (a b : ascii) : bool :=
  ((0xC2 <=? byte a) && (byte a <? 0xE0))%N && continuation b.

Definition three (a b c : ascii) : bool :=
  ((0xE0 <=? byte a) && (byte a <? 0xF0))%N && continuation b && continuation c.

Definition four (a b c d : ascii) : bool :=
  ((0xF0 <=? byte a) && (byte a <? 0xF5))%N
  && continuation b && continuation c && continuation d.

(** The code point of a character of two, three and four bytes. *)
Definition point2 (a b : ascii) : N :=
  ((byte a - 0xC0) * 64 + (byte b - 0x80))%N.

Definition point3 (a b c : ascii) : N :=
  (((byte a - 0xE0) * 64 + (byte b - 0x80)) * 64 + (byte c - 0x80))%N.

Definition point4 (a b c d : ascii) : N :=
  ((((byte a - 0xF0) * 64 + (byte b - 0x80)) * 64 + (byte c - 0x80)) * 64
   + (byte d - 0x80))%N.

(** [c.isspace()], by code point: the white space [str.strip], [int] and
    [float] know. *)
Definition isspace (p : N) : bool :=
  ((9 <=? p) && (p <=? 13) || (28 <=? p) && (p <=? 32)
   || (p =? 0x85) || (p =? 0xA0) || (p =? 0x1680)
   || (0x2000 <=? p) && (p <=? 0x200A)
   || (p =? 0x2028) || (p =? 0x2029) || (p =? 0x202F) || (p =? 0x205F)
   || (p =? 0x3000))%N.

(** The code points of the digits zero of Unicode 14.0, the version of Python
    3.11; the nine code points after each are its digits one to nine. *)
Definition zeros : list N :=
  [0x30; 0x660; 0x6F0; 0x7C0; 0x966; 0x9E6; 0xA66; 0xAE6; 0xB66; 0xBE6; 0xC66;
   0xCE6; 0xD66; 0xDE6; 0xE50; 0xED0; 0xF20; 0x1040; 0x1090; 0x17E0; 0x1810;
   0x1946; 0x19D0; 0x1A80; 0x1A90; 0x1B50; 0x1BB0; 0x1C40; 0x1C50; 0xA620;
   0xA8D0; 0xA900; 0xA9D0; 0xA9F0; 0xAA50; 0xABF0; 0xFF10; 0x104A0; 0x10D30;
   0x11066; 0x110F0; 0x11136; 0x111D0; 0x112F0; 0x11450; 0x114D0; 0x11650;
   0x116C0; 0x11730; 0x118E0; 0x11950; 0x11C50; 0x11D50; 0x11DA0; 0x16A60;
   0x16AC0; 0x16B50; 0x1D7CE; 0x1D7D8; 0x1D7E2; 0x1D7EC; 0x1D7F6; 0x1E140;
   0x1E2F0; 0x1E950; 0x1FBF0]%N.

(** The value of a decimal digit, [None] for every other character. *)
Definition decimal (p : N) : option N :=
  match find (fun z => (z <=? p) && (p <? z + 10))%N zeros with
  | Some z => Some (p - z)%N
  | None => None
  end.

(** *** Stripping *)

Fixpoint lstrip (s : string) : string :=
  match s with
  | EmptyString => EmptyString
  | String a t =>
      if one a && isspace (byte a) then lstrip t
      else
        match t with
        | EmptyString => s
        | String b u =>
            if two a b && isspace (point2 a b) then lstrip u
            else
              match u with
              | EmptyString => s
              | String c v =>
                  if three a b c && isspace (point3 a b c) then lstrip v else s
              end
        end
  end.

(** No white space takes four bytes.  The text is read from its end: what
    is left of the tail is empty, or the last bytes of a character that is
    white space or not, or longer. *)
Fixpoint rstrip (s : string) : string :=
  match s with
  | EmptyString => EmptyString
  | String a t =>
      match rstrip t with
      | EmptyString =>
          if one a && isspace (byte a) then EmptyString else String a EmptyString
      | String b EmptyString as r =>
          if two a b && isspace (point2 a b) then EmptyString else String a r
      | String b (String c EmptyString) as r =>
          if three a b c && isspace (point3 a b c) then EmptyString else String a r
      | r => String a r
      end
  end.

(** [s.strip()] *)
Definition strip (s : string) : string := rstrip (lstrip s).

(** *** Splitting and replacing *)

(** [s.split(sep)] for a non-empty [sep]: the pieces between the
    occurrences of [sep], found left to right without overlap.  [skip]
    counts the characters of a matched separator still to pass over.  The
    result is never empty; its head is the piece being read. *)
Fixpoint split_from (sep : string) (skip : nat) (s : string) : list string :=
  match s with
  | EmptyString => [EmptyString]
  | String c s' =>
      match skip with
      | S k => split_from sep k s'
      | O =>
          if prefix sep s
          then EmptyString :: split_from sep (pred (length sep)) s'
          else match split_from sep O s' with
               | piece :: pieces => String c piece :: pieces
               | [] => [String c EmptyString]
               end
      end
  end.

Definition split (sep s : string) : list string := split_from sep O s.

(** [s.replace(old, new)] for a non-empty [old]. *)
Fixpoint replace_from (old new : string) (skip : nat) (s : string) : string :=
  match s with
  | EmptyString => EmptyString
  | String c s' =>
      match skip with
      | S k => replace_from old new k s'
      | O =>
          if prefix old s
          then new ++ replace_from old new (pred (length old)) s'
          else String c (replace_from old new O s')
      end
  end.

Definition replace (old new s : string) : string := replace_from old new O s.

(** *** Reading text

    Text that is read, from a file opened in text mode or from the pipe of a
    subprocess run with [text=True], is decoded as UTF-8, the encoding of the
    locale, and has its line ends made [\n]. *)

Inductive reason : Type := InvalidStart | InvalidContinuation | UnexpectedEnd.

(** A [UnicodeDecodeError]: the byte decoding stops at, its position, the
    position of the last byte it complains of, and why. *)
Record UnicodeDecodeError : Type :=
  { object : ascii; start : N; last : N; why : reason }.

(** The second byte of a character of three bytes: a continuation byte, that
    does not make the code point one that two bytes encode nor a surrogate. *)
Definition second3 (a b : ascii) : bool :=
  continuation b
  && (if (byte a =? 0xE0)%N then (0xA0 <=? byte b)%N else true)
  && (if (byte a =? 0xED)%N then (byte b <? 0xA0)%N else true).

(** The second byte of a character of four bytes: a continuation byte, that
    does not make the code point one that three bytes encode nor one past
    U+10FFFF. *)
Definition second4 (a b : ascii) : bool :=
  continuation b
  && (if (byte a =? 0xF0)%N then (0x90 <=? byte b)%N else true)
  && (if (byte a =? 0xF4)%N then (byte b <? 0x90)%N else true).

(** The first error in the bytes from position [pos] on, if any. *)
Fixpoint decode_from (pos : N) (s : string) : option UnicodeDecodeError :=
  let fails more r a :=
    Some {| object := a; start := pos; last := (pos + more)%N; why := r |} in
  match s with
  | EmptyString => None
  | String a t =>
      if one a then decode_from (pos + 1) t
      else if (byte a <? 0xC2)%N then fails 0%N InvalidStart a
      else if (byte a <? 0xE0)%N then
        match t with
        | EmptyString => fails 0%N UnexpectedEnd a
        | String b u =>
            if continuation b then decode_from (pos + 2) u
            else fails 0%N InvalidContinuation a
        end
      else if (byte a <? 0xF0)%N then
        match t with
        | EmptyString => fails 0%N UnexpectedEnd a
        | String b u =>
            if negb (second3 a b) then fails 0%N InvalidContinuation a
            else
              match u with
              | EmptyString => fails 1%N UnexpectedEnd a
              | String c v =>
                  if continuation c then decode_from (pos + 3) v
                  else fails 1%N InvalidContinuation a
              end
        end
      else if (byte a <? 0xF5)%N then
        match t with
        | EmptyString => fails 0%N UnexpectedEnd a
        | String b u =>
            if negb (second4 a b) then fails 0%N InvalidContinuation a
            else
              match u with
              | EmptyString => fails 1%N UnexpectedEnd a
              | String c v =>
                  if negb (continuation c) then fails 1%N InvalidContinuation a
                  else
                    match v with
                    | EmptyString => fails 2%N UnexpectedEnd a
                    | String d x =>
                        if continuation d then decode_from (pos + 4) x
                        else fails 2%N InvalidContinuation a
                    end
              end
        end
      else fails 0%N InvalidStart a
  end.

(** [b.decode()]: the bytes themselves when they are the encoding of a
    text. *)
Definition decode (b : string) : UnicodeDecodeError + string :=
  match decode_from 0 b with
  | Some e => inl e
  | None => inr b
  end.

(** [str(n)] for a position. *)
Definition of_N (n : N) : string := NilEmpty.string_of_uint (N.to_uint n).

Definition hex (n : N) : ascii :=
  if (n <? 10)%N then ascii_of_N (48 + n) else ascii_of_N (87 + n).

(** [str(e)] for a [UnicodeDecodeError]. *)
Definition str_error (e : UnicodeDecodeError) : string :=
  let because :=
    match why e with
    | InvalidStart => "invalid start byte"
    | InvalidContinuation => "invalid continuation byte"
    | UnexpectedEnd => "unexpected end of data"
    end in
  if (start e =? last e)%N
  then "'utf-8' codec can't decode byte 0x"
       ++ String (hex (byte (object e) / 16))
            (String (hex (byte (object e) mod 16)) EmptyString)
       ++ " in position " ++ of_N (start e) ++ ": " ++ because
  else "'utf-8' codec can't decode bytes in position "
       ++ of_N (start e) ++ "-" ++ of_N (last e) ++ ": " ++ because.

(** Universal newlines: [\r\n] and [\r] become [\n]. *)
Fixpoint newlines (s : string) : string :=
  match s with
  | EmptyString => EmptyString
  | String a t =>
      if Ascii.eqb a "013" then
        match t with
        | String b u =>
            if Ascii.eqb b "010" then String "010" (newlines u)
            else String "010" (newlines t)
        | EmptyString => String "010" EmptyString
        end
      else String a (newlines t)
  end.

(** *** Numbers *)

(** The digits of ASCII. *)
Definition isdigit (c : ascii) : bool :=
  let n := nat_of_ascii c in ((48 <=? n) && (n <=? 57))%nat.

(** [all(p(c) for c in s)], byte by byte. *)
Fixpoint every (p : ascii -> bool) (s : string) : bool :=
  match s with
  | EmptyString => true
  | String c s' => p c && every p s'
  end.

(** The decimal text of an integer. *)
Definition of_int (n : Z) : string := NilEmpty.string_of_int (Z.to_int n).

(** The digits [int] and [str] convert at most
    ([sys.get_int_max_str_digits()]). *)
Definition MAX_STR_DIGITS : nat := 4300.

(** [str(n)] and [f"{n}"] for an [int]: its decimal text; [None] is the
    [ValueError] of an integer of too many digits. *)
Definition format_int (n : Z) : option string :=
  if (MAX_STR_DIGITS <? length (of_int (Z.abs n)))%nat then None
  else Some (of_int n).

(** What [int] and [float] make of a character past ASCII before they
    parse: a space of white space, its ASCII digit of a decimal digit, a
    question mark, which no literal has, of any other. *)
Definition ascii_of (p : N) : ascii :=
  if isspace p then " "%char
  else match decimal p with
       | Some d => ascii_of_N (48 + d)
       | None => "?"%char
       end.

Fixpoint ascii_form (s : string) : string :=
  match s with
  | EmptyString => EmptyString
  | String a t =>
      if one a then String a (ascii_form t)
      else
        match t with
        | EmptyString => "?"
        | String b u =>
            if two a b then String (ascii_of (point2 a b)) (ascii_form u)
            else
              match u with
              | EmptyString => "?"
              | String c v =>
                  if three a b c
                  then String (ascii_of (point3 a b c)) (ascii_form v)
                  else
                    match v with
                    | EmptyString => "?"
                    | String d x =>
                        if four a b c d
                        then String (ascii_of (point4 a b c d)) (ascii_form x)
                        else "?"
                    end
              end
        end
  end.

(** The white space the parsers of [int] and [float] skip around an ASCII
    literal. *)
Definition Py_ISSPACE (c : ascii) : bool :=
  ((9 <=? byte c) && (byte c <=? 13) || (byte c =? 32))%N.

Fixpoint ltrim (s : string) : string :=
  match s with
  | EmptyString => EmptyString
  | String c s' => if Py_ISSPACE c then ltrim s' else s
  end.

Fixpoint rtrim (s : string) : string :=
  match s with
  | EmptyString => EmptyString
  | String c s' =>
      match rtrim s' with
      | EmptyString => if Py_ISSPACE c then EmptyString else String c EmptyString
      | r => String c r
      end
  end.

(** A literal without its underscores, each of which has to stand between
    two digits; [None] when one does not.  [prev] is the character before. *)
Fixpoint without_underscores (prev : ascii) (s : string) : option string :=
  match s with
  | EmptyString => if Ascii.eqb prev "_" then None else Some EmptyString
  | String c t =>
      if Ascii.eqb c "_"
      then if isdigit prev then without_underscores c t else None
      else if Ascii.eqb prev "_" && negb (isdigit c) then None
           else option_map (String c) (without_underscores c t)
  end.

(** The number a run of ASCII digits writes, [None] when the run is empty or
    holds another character. *)
Definition digits (s : string) : option Z :=
  match s with
  | EmptyString => None
  | _ => option_map Z.of_uint (NilEmpty.uint_of_string s)
  end.

(** An optional sign, then the rest. *)
Definition sign (s : string) : bool * string :=
  match s with
  | String "-" r => (true, r)
  | String "+" r => (false, r)
  | _ => (false, s)
  end.

(** [int(s)]: white space around, an optional sign, then decimal digits,
    single underscores between them allowed, [MAX_STR_DIGITS] of them at
    most.  [None] is Python's [ValueError]. *)
Definition to_int (s : string) : option Z :=
  let (neg, body) := sign (rtrim (ltrim (ascii_form s))) in
  match without_underscores Ascii.zero body with
  | Some D =>
      if (MAX_STR_DIGITS <? length D)%nat then None
      else option_map (fun m => if neg then - m else m) (digits D)
  | None => None
  end.

(** [s.lower()] on ASCII letters, as the parser of [float] compares. *)
Definition tolower (c : ascii) : ascii :=
  if ((65 <=? byte c) && (byte c <=? 90))%N then ascii_of_N (byte c + 32) else c.

Fixpoint lower (s : string) : string :=
  match s with
  | EmptyString => EmptyString
  | String c t => String (tolower c) (lower t)
  end.

End PyStr.

(** ** Python's [float]: IEEE 754 binary64 *)

Module PyFloat.

Definition prec : Z := 53.
Definition emax : Z := 1024.

Definition float : Type := spec_float.

(** The binary64 nearest to [num / den] (ties to even) with sign [neg]. *)
Definition of_ratio (neg : bool) (num den : positive) : float :=
  let '(q, e, l) := SFdiv_core_binary prec emax (Zpos num) 0 (Zpos den) 0 in
  binary_round_aux prec emax neg q e l.

(** The binary64 nearest to [m * 10 ^ e10], for a decimal literal with
    digits [m] and decimal exponent [e10]. *)
Definition of_decimal (neg : bool) (m : Z) (e10 : Z) : float :=
  match m with
  | Zpos p =>
      of_ratio neg (p * Z.to_pos (10 ^ Z.max e10 0)) (Z.to_pos (10 ^ Z.max (- e10) 0))
  | _ => S754_zero neg
  end.

(** [float(n)] for an [int] n (the conversion [float - int] applies to its
    right operand). *)
Definition of_int (n : Z) : float := binary_normalize prec emax n 0 false.

(** Splitting a literal at its first point: the digits before, the digits
    after. *)
Fixpoint cut_point (s : string) : string * option string :=
  match s with
  | EmptyString => (EmptyString, None)
  | String c s' =>
      if Ascii.eqb c "." then (EmptyString, Some s')
      else let (a, b) := cut_point s' in (String c a, b)
  end.

(** Splitting a literal at its exponent mark. *)
Fixpoint cut_exp (s : string) : string * option string :=
  match s with
  | EmptyString => (EmptyString, None)
  | String c s' =>
      if Ascii.eqb c "e" || Ascii.eqb c "E" then (EmptyString, Some s')
      else let (a, b) := cut_exp s' in (String c a, b)
  end.

Definition opt_digits (s : string) : option Z :=
  match s with
  | EmptyString => Some 0
  | _ => PyStr.digits s
  end.

(** The digits the parser takes at most. *)
Definition MAX_DIGITS : N := 1000000000.

(** The digits from the first that is not a zero. *)
Fixpoint significant (s : string) : string :=
  match s with
  | String "0" t => significant t
  | _ => s
  end.

(** Whether a mantissa is refused for its length: more than [MAX_DIGITS]
    significant digits, or as many after the point. *)
Definition too_long (ip fp : string) : bool :=
  ((MAX_DIGITS <? N.of_nat (length (significant (ip ++ fp))))
   || (MAX_DIGITS <? N.of_nat (length fp)))%N.

(** The mantissa of a literal: digits, optionally a point and more digits,
    at least one digit in all.  The result is the digits read as one number
    and how many of them follow the point. *)
Definition mantissa (s : string) : option (Z * Z) :=
  match cut_point s with
  | (ip, None) =>
      if too_long ip EmptyString then None
      else option_map (fun m => (m, 0)) (PyStr.digits ip)
  | (ip, Some fp) =>
      match ip, fp with
      | EmptyString, EmptyString => None
      | _, _ =>
          match opt_digits ip, opt_digits fp with
          | Some a, Some b =>
              if too_long ip fp then None
              else Some (a * 10 ^ Z.of_nat (length fp) + b, Z.of_nat (length fp))
          | _, _ => None
          end
      end
  end.

Definition exponent (s : option string) : option Z :=
  match s with
  | None => Some 0
  | Some t =>
      let (neg, body) := PyStr.sign t in
      option_map (fun x => if neg then - x else x) (PyStr.digits body)
  end.

(** [float(s)] for a [str]: white space around, then, with single
    underscores between digits allowed, an optional sign and [inf],
    [infinity] or [nan] in any case of the letters, or a decimal literal with
    an optional exponent.  [None] is Python's [ValueError]. *)
Definition of_string (s : string) : option float :=
  match PyStr.without_underscores Ascii.zero
          (PyStr.rtrim (PyStr.ltrim (PyStr.ascii_form s))) with
  | None => None
  | Some literal =>
      let (neg, body) := PyStr.sign literal in
      let word := PyStr.lower body in
      if String.eqb word "inf" || String.eqb word "infinity"
      then Some (S754_infinity neg)
      else if String.eqb word "nan" then Some S754_nan
      else
        let (ms, es) := cut_exp body in
        match mantissa ms, exponent es with
        | Some (m, k), Some x => Some (of_decimal neg m (x - k))
        | _, _ => None
        end
  end.

(** [x - y] on floats. *)
Definition sub (x y : float) : float := SFsub prec emax x y.

(** The comparison of a [float] with an [int], which Python makes on the
    exact values; [None] when the float is a NaN (every comparison with it
    is false). *)
Definition compare_int (x : float) (n : Z) : option comparison :=
  match x with
  | S754_nan => None
  | S754_infinity s => Some (if s then Lt else Gt)
  | S754_zero _ => Some (0 ?= n)
  | S754_finite s m e =>
      let v := cond_Zopp s (Zpos m) in
      Some (if 0 <=? e then (v * 2 ^ e ?= n) else (v ?= n * 2 ^ (- e)))
  end.

(** [x > n] *)
Definition gt_int (x : float) (n : Z) : bool :=
  match compare_int x n with Some Gt => true | _ => false end.

(** [x < n] *)
Definition lt_int (x : float) (n : Z) : bool :=
  match compare_int x n with Some Lt => true | _ => false end.

(** [x <= n] *)
Definition le_int (x : float) (n : Z) : bool :=
  match compare_int x n with Some (Lt | Eq) => true | _ => false end.

(** [x == n] *)
Definition eq_int (x : float) (n : Z) : bool :=
  match compare_int x n with Some Eq => true | _ => false end.

End PyFloat.

(** ** [main.py]: the command line tool over the msi-ec sysfs files *)

Module Cli.

(** The exceptions [main.py] raises and tells apart; [Exception] stands for
    every other subclass of Python's [Exception]. *)
Inductive exn : Type :=
| FileNotFoundError (msg : string)
| PermissionError (msg : string)
| ValueError (msg : string)
| Exception (msg : string).

(** [str(e)] *)
Definition str (e : exn) : string :=
  match e with
  | FileNotFoundError m | PermissionError m | ValueError m | Exception m => m
  end.

(** How [open] ends on an entry that exists. *)
Inductive access : Type :=
| Granted
| Refused
| Failing (why : string).

(** A file: how opening it ends, and the bytes it holds. *)
Record file : Type := { for_reading : access; for_writing : access; content : string }.

Inductive node : Type :=
| NoEntry
| Directory
| File (f : file).

(** The file system the tool sees, by path. *)
Definition sysfs : Type := string -> node.

Definition store (fs : sysfs) (path : string) (n : node) : sysfs :=
  fun p => if String.eqb p path then n else fs p.

(** [Path.exists] *)
Definition exists_ (fs : sysfs) (path : string) : bool :=
  match fs path with NoEntry => false | _ => true end.

(** [path / name] *)
Definition join (path name : string) : string := path ++ "/" ++ name.

Definition MSI_EC_BASE_PATH : string := "/sys/devices/platform/msi-ec".
Definition base_path : string := MSI_EC_BASE_PATH.

Definition eol : string := String "010" EmptyString.

Definition _check_driver_availability (fs : sysfs) : exn + unit :=
  if negb (exists_ fs base_path)
  then inl (FileNotFoundError
    ("MSI EC driver not found. Please ensure the msi-ec kernel module is loaded." ++ eol
     ++ "Installation: https://github.com/BeardOverflow/msi-ec"))
  else inr tt.

Definition _read_sysfs_file (fs : sysfs) (filepath : string) : exn + string :=
  match fs filepath with
  | NoEntry => inl (FileNotFoundError ("File not found: " ++ filepath))
  | Directory =>
      inl (Exception ("Error reading " ++ filepath
                      ++ ": [Errno 21] Is a directory: '" ++ filepath ++ "'"))
  | File f =>
      match for_reading f with
      | Granted =>
          match PyStr.decode (content f) with
          | inr text => inr (PyStr.strip (PyStr.newlines text))
          | inl e =>
              inl (Exception ("Error reading " ++ filepath ++ ": " ++ PyStr.str_error e))
          end
      | Refused => inl (PermissionError ("Permission denied reading: " ++ filepath))
      | Failing why => inl (Exception ("Error reading " ++ filepath ++ ": " ++ why))
      end
  end.

(** Opening for writing does not create an entry here: sysfs has no file
    creation, the attempt is refused. *)
Definition _write_sysfs_file (fs : sysfs) (filepath value : string) : exn + sysfs :=
  match fs filepath with
  | NoEntry =>
      inl (PermissionError
             ("Permission denied writing to: " ++ filepath ++ ". Try running with sudo."))
  | Directory =>
      inl (Exception ("Error writing to " ++ filepath
                      ++ ": [Errno 21] Is a directory: '" ++ filepath ++ "'"))
  | File f =>
      match for_writing f with
      | Granted =>
          inr (store fs filepath
                 (File {| for_reading := for_reading f;
                          for_writing := for_writing f;
                          content := value |}))
      | Refused =>
          inl (PermissionError
                 ("Permission denied writing to: " ++ filepath ++ ". Try running with sudo."))
      | Failing why => inl (Exception ("Error writing to " ++ filepath ++ ": " ++ why))
      end
  end.

(** The body shared by [get_cpu_temperature] and [get_gpu_temperature],
    which differ in the directory only. *)
Definition get_temperature_of (dir : string) (fs : sysfs) : exn + string :=
  match _check_driver_availability fs with
  | inl e => inl e
  | inr _ =>
      let temp_file := join (join base_path dir) "realtime_temperature" in
      match _read_sysfs_file fs temp_file with
      | inl e => inl e
      | inr temp_raw =>
          match PyStr.to_int temp_raw with
          | Some temp_celsius =>
              match PyStr.format_int temp_celsius with
              | Some text => inr (text ++ ".0°C")
              | None => inl (ValueError ("Invalid temperature value: " ++ temp_raw))
              end
          | None => inl (ValueError ("Invalid temperature value: " ++ temp_raw))
          end
      end
  end.

Definition get_cpu_temperature : sysfs -> exn + string := get_temperature_of "cpu".
Definition get_gpu_temperature : sysfs -> exn + string := get_temperature_of "gpu".

Definition set_cooler_boost (fs : sysfs) (enable : bool) : exn + (string * sysfs) :=
  match _check_driver_availability fs with
  | inl e => inl e
  | inr _ =>
      let cooler_file := join base_path "cooler_boost" in
      let value := if enable then "on" else "off" in
      match _write_sysfs_file fs cooler_file value with
      | inl e => inl e
      | inr fs' =>
          inr ("Cooler boost " ++ (if enable then "enabled" else "disabled"), fs')
      end
  end.

Definition get_cooler_boost_status (fs : sysfs) : exn + bool :=
  match _check_driver_availability fs with
  | inl e => inl e
  | inr _ =>
      let cooler_file := join base_path "cooler_boost" in
      match _read_sysfs_file fs cooler_file with
      | inl e => inl e
      | inr status => inr (String.eqb status "on")
      end
  end.

(** What [parse_args] returns. *)
Record Namespace : Type :=
  { cpu_temp : bool; gpu_temp : bool; cooler_boost : option string; status : bool }.

Definition no_args : Namespace :=
  {| cpu_temp := false; gpu_temp := false; cooler_boost := None; status := false |}.

(** The options as they are declared, each spelled in full; [None] is
    argparse leaving with its usage message. *)
Fixpoint parse_args (argv : list string) (ns : Namespace) : option Namespace :=
  match argv with
  | [] => Some ns
  | a :: rest =>
      if String.eqb a "--cpu-temp" then
        parse_args rest {| cpu_temp := true; gpu_temp := gpu_temp ns;
                           cooler_boost := cooler_boost ns; status := status ns |}
      else if String.eqb a "--gpu-temp" then
        parse_args rest {| cpu_temp := cpu_temp ns; gpu_temp := true;
                           cooler_boost := cooler_boost ns; status := status ns |}
      else if String.eqb a "--status" then
        parse_args rest {| cpu_temp := cpu_temp ns; gpu_temp := gpu_temp ns;
                           cooler_boost := cooler_boost ns; status := true |}
      else if String.eqb a "--cooler-boost" then
        match rest with
        | v :: rest' =>
            if String.eqb v "on" || String.eqb v "off" then
              parse_args rest' {| cpu_temp := cpu_temp ns; gpu_temp := gpu_temp ns;
                                  cooler_boost := Some v; status := status ns |}
            else None
        | [] => None
        end
      else None
  end.

(** A run of the tool: what it printed, its exit status, the files after. *)
Record completed : Type :=
  { returncode : Z; stdout : string; stderr : string; files : sysfs }.

(** The tool's steps: they print, change files, and may raise. *)
Definition step (A : Type) : Type := sysfs -> string -> (exn + A) * sysfs * string.

Definition ret {A} (a : A) : step A := fun fs out => (inr a, fs, out).

Definition bind {A B} (m : step A) (k : A -> step B) : step B :=
  fun fs out =>
    match m fs out with
    | (inr a, fs', out') => k a fs' out'
    | (inl e, fs', out') => (inl e, fs', out')
    end.

Definition print (line : string) : step unit :=
  fun fs out => (inr tt, fs, out ++ line ++ eol).

Definition reading {A} (f : sysfs -> exn + A) : step A :=
  fun fs out => (f fs, fs, out).

Definition when (b : bool) (m : step unit) : step unit := if b then m else ret tt.

(** [try: m except Exception as e: h e] *)
Definition try {A} (m : step A) (h : exn -> step A) : step A :=
  fun fs out =>
    match m fs out with
    | (inl e, fs', out') => h e fs' out'
    | r => r
    end.

(** What [print_help] prints, cut to its first line. *)
Definition help_text : string := "usage: main.py [-h] [--cpu-temp] [--gpu-temp] [--cooler-boost {on,off}] [--status]".

#[local] Notation "x <- m ;; k" := (bind m (fun x => k))
  (at level 61, m at next level, right associativity).
#[local] Notation "m ;;; k" := (bind m (fun _ => k))
  (at level 61, right associativity).

(** The [try] block of [main], lines 141 to 175. *)
Definition requests (args : Namespace) : step unit :=
  when (cpu_temp args)
    (temp <- reading get_cpu_temperature ;; print ("CPU Temperature: " ++ temp)) ;;;
  when (gpu_temp args)
    (temp <- reading get_gpu_temperature ;; print ("GPU Temperature: " ++ temp)) ;;;
  match cooler_boost args with
  | Some v =>
      let enable := String.eqb v "on" in
      fun fs out =>
        match set_cooler_boost fs enable with
        | inl e => (inl e, fs, out)
        | inr (result, fs') => print result fs' out
        end
  | None => ret tt
  end ;;;
  when (status args)
    (print "=== MSI EC Status ===" ;;;
     try (cpu_temp <- reading get_cpu_temperature ;;
          print ("CPU Temperature: " ++ cpu_temp))
         (fun e => print ("CPU Temperature: Error - " ++ str e)) ;;;
     try (gpu_temp <- reading get_gpu_temperature ;;
          print ("GPU Temperature: " ++ gpu_temp))
         (fun e => print ("GPU Temperature: Error - " ++ str e)) ;;;
     try (cooler_status <- reading get_cooler_boost_status ;;
          print ("Cooler Boost: " ++ (if cooler_status then "Enabled" else "Disabled")))
         (fun e => print ("Cooler Boost: Error - " ++ str e))).

(** [main], after [parse_args]. *)
Definition main (args : Namespace) (fs : sysfs) : completed :=
  if negb (cpu_temp args || gpu_temp args
           || match cooler_boost args with Some v => negb (String.eqb v EmptyString) | None => false end
           || status args)
  then {| returncode := 1; stdout := help_text ++ eol; stderr := EmptyString; files := fs |}
  else
    match requests args fs EmptyString with
    | (inr _, fs', out) =>
        {| returncode := 0; stdout := out; stderr := EmptyString; files := fs' |}
    | (inl (PermissionError m), fs', out) =>
        {| returncode := 1; stdout := out;
           stderr := "Error: " ++ m ++ eol
                     ++ "Tip: Try running with sudo for write operations" ++ eol;
           files := fs' |}
    | (inl e, fs', out) =>
        {| returncode := 1; stdout := out;
           stderr := "Error: " ++ str e ++ eol; files := fs' |}
    end.

(** The script run on a command line. *)
Definition run (argv : list string) (fs : sysfs) : completed :=
  match parse_args argv no_args with
  | Some args => main args fs
  | None => {| returncode := 2; stdout := EmptyString; stderr := help_text ++ eol; files := fs |}
  end.

End Cli.

(** ** [manager.py]: the thermal monitor *)

Module Manager.

Import PyFloat.

#[local] Open Scope list_scope.

Definition CPU_TEMP_THRESHOLD : Z := 60.
Definition GPU_TEMP_THRESHOLD : Z := 60.
Definition DISABLE_COOLER_BOOST_ON_EXIT : bool := false.
Definition TEMP_OSCILLATION_FIX : Z := 5.
Definition TIME_OSCILLATION_FIX : Z := 60.
Definition CHECK_INTERVAL : Z := 3.
Definition MAIN_SCRIPT : string := "main.py".

Definition eol : string := String "010" EmptyString.

(** The subclasses of Python's [Exception] the monitor meets; [Other] is
    every one it does not name. *)
Inductive exception : Type :=
| FileNotFoundError (msg : string)
| PermissionError (msg : string)
| TimeoutExpired
| IndexError
| ValueError
| Other (msg : string).

(** What a [raise] carries: an [Exception], or the [SystemExit] of
    [sys.exit], which [except Exception] lets through. *)
Inductive raised : Type :=
| Exc (e : exception)
| SystemExit (code : Z).

(** The attributes of a [ThermalMonitor] object ([logger] apart, whose
    lines are events below).  [monitor_thread] tells whether the attribute of
    that name is set.  [last_coolerboost_enabled_at] starts as the [int] 0,
    which the one expression that reads it,
    [time.time() - last_coolerboost_enabled_at], converts to the float kept
    here. *)
Record ThermalMonitor : Type :=
  { running : bool;
    cooler_boost_enabled : bool;
    main_script_path : string;
    last_coolerboost_enabled_at : float;
    monitor_thread : bool }.

(** [ThermalMonitor()] in the working directory [cwd]. *)
Definition init (cwd : string) : ThermalMonitor :=
  {| running := false;
     cooler_boost_enabled := false;
     main_script_path := (cwd ++ "/" ++ MAIN_SCRIPT)%string;
     last_coolerboost_enabled_at := S754_zero false;
     monitor_thread := false |}.

(** How [subprocess.run] ends: the process completed, the timeout of ten
    seconds expired, or the call raised something else. *)
Inductive process : Type :=
| Completed (returncode : Z) (stdout stderr : string)
| TimedOut
| Crashed (why : string).

(** What is outside the monitor object during one call: the working
    directory, whether the file at [main_script_path] exists and can be read,
    the processes the script is run as (by its arguments; the interpreter and
    the path of the script come first on every command line), the clock, and
    [fault], an exception that none of the handlers inside a poll cycle
    catches.  No statement of [check_temperatures] raises one by itself, so
    it is taken as raised on entry. *)
Record world : Type :=
  { getcwd : string;
    script_exists : bool;
    script_readable : bool;
    subprocess_run : list string -> process;
    time_time : float;
    fault : option exception }.

Inductive level : Type := DEBUG | INFO | WARNING | ERROR.

Inductive sensor : Type := CPU | GPU.

(** The log lines, with the values they are formatted from. *)
Inductive message : Type :=
| MainScriptFailed (stderr : string)
| MainScriptTimedOut
| ErrorRunningMainScript (e : exception)
| FailedToParse (output : string)
| CoolerBoostSet (enable : bool)
| FailedToSetCoolerBoost (enable : bool)
| FailedToReadBoth
| Temperatures (info : list (sensor * float))
| KeepingEnabled
| EnablingCoolerBoost (temp_reasons : list (sensor * float))
| DisablingCoolerBoost (disable_reasons : list (sensor * float))
| StartingMonitoring
| Thresholds
| Intervals
| ErrorInLoop (e : exception)
| AlreadyRunning
| StartupError (e : exception)
| MonitorStarted
| StoppingMonitor
| DisablingBeforeExit
| MonitorStopped.

(** What the monitor does to the outside, in order. *)
Inductive event : Type :=
| Ran (args : list string)
| Logged (lvl : level) (msg : message)
| Slept (seconds : Z)
| ThreadStarted
| ThreadJoined (timeout : Z).

(** A method of the monitor: it reads the world, changes the object, leaves
    events, and returns or raises. *)
Definition M (A : Type) : Type :=
  world -> ThermalMonitor -> (raised + A) * ThermalMonitor * list event.

Definition ret {A} (a : A) : M A := fun _ self => (inr a, self, []).

Definition raise {A} (r : raised) : M A := fun _ self => (inl r, self, []).

Definition bind {A B} (m : M A) (k : A -> M B) : M B :=
  fun w self =>
    match m w self with
    | (inr a, self', t) =>
        let '(r, self'', t') := k a w self' in (r, self'', t ++ t')
    | (inl r, self', t) => (inl r, self', t)
    end.

(** [try: m except ...: h], where [h] tells which exceptions it catches by
    answering [Some]. *)
Definition try {A} (m : M A) (h : raised -> option (M A)) : M A :=
  fun w self =>
    match m w self with
    | (inl r, self', t) =>
        match h r with
        | Some k => let '(r', self'', t') := k w self' in (r', self'', t ++ t')
        | None => (inl r, self', t)
        end
    | done => done
    end.

Definition get : M ThermalMonitor := fun _ self => (inr self, self, []).
Definition put (self : ThermalMonitor) : M unit := fun _ _ => (inr tt, self, []).
Definition ask : M world := fun w self => (inr w, self, []).
Definition emit (e : event) : M unit := fun _ self => (inr tt, self, [e]).
Definition log (lvl : level) (msg : message) : M unit := emit (Logged lvl msg).
Definition sleep (seconds : Z) : M unit := emit (Slept seconds).

Definition set_running (b : bool) (self : ThermalMonitor) : ThermalMonitor :=
  {| running := b;
     cooler_boost_enabled := cooler_boost_enabled self;
     main_script_path := main_script_path self;
     last_coolerboost_enabled_at := last_coolerboost_enabled_at self;
     monitor_thread := monitor_thread self |}.

Definition set_cooler_boost_enabled (b : bool) (self : ThermalMonitor) : ThermalMonitor :=
  {| running := running self;
     cooler_boost_enabled := b;
     main_script_path := main_script_path self;
     last_coolerboost_enabled_at := last_coolerboost_enabled_at self;
     monitor_thread := monitor_thread self |}.

Definition set_last_coolerboost_enabled_at (t : float) (self : ThermalMonitor)
  : ThermalMonitor :=
  {| running := running self;
     cooler_boost_enabled := cooler_boost_enabled self;
     main_script_path := main_script_path self;
     last_coolerboost_enabled_at := t;
     monitor_thread := monitor_thread self |}.

Definition set_monitor_thread (self : ThermalMonitor) : ThermalMonitor :=
  {| running := running self;
     cooler_boost_enabled := cooler_boost_enabled self;
     main_script_path := main_script_path self;
     last_coolerboost_enabled_at := last_coolerboost_enabled_at self;
     monitor_thread := true |}.

Definition modify (f : ThermalMonitor -> ThermalMonitor) : M unit :=
  fun _ self => (inr tt, f self, []).

Notation "x <- m ;; k" := (bind m (fun x => k))
  (at level 61, m at next level, right associativity).
Notation "m ;;; k" := (bind m (fun _ => k))
  (at level 61, right associativity).

Definition check_main_script : M unit :=
  w <- ask ;;
  self <- get ;;
  if negb (script_exists w) then
    raise (Exc (FileNotFoundError
                  ("Main script not found: " ++ main_script_path self ++ eol
                   ++ "Please ensure '" ++ MAIN_SCRIPT
                   ++ "' is in the current directory: " ++ getcwd w)%string))
  else if negb (script_readable w) then
    raise (Exc (PermissionError ("Cannot read " ++ main_script_path self)%string))
  else ret tt.

(** [subprocess.run(cmd, capture_output=True, text=True, timeout=10)] *)
Definition run_process (args : list string) : M (Z * string * string) :=
  w <- ask ;;
  emit (Ran args) ;;;
  match subprocess_run w args with
  | Completed returncode stdout stderr => ret (returncode, stdout, stderr)
  | TimedOut => raise (Exc TimeoutExpired)
  | Crashed why => raise (Exc (Other why))
  end.

Definition run_main_script (args : list string) : M (option string) :=
  try (result <- run_process args ;;
       let '(returncode, stdout, stderr) := result in
       if negb (returncode =? 0) then
         log ERROR (MainScriptFailed stderr) ;;; ret None
       else ret (Some (PyStr.strip stdout)))
      (fun r =>
         match r with
         | Exc TimeoutExpired => Some (log ERROR MainScriptTimedOut ;;; ret None)
         | Exc e => Some (log ERROR (ErrorRunningMainScript e) ;;; ret None)
         | SystemExit _ => None
         end).

(** [xs[i]] *)
Definition item {A} (xs : list A) (i : nat) : M A :=
  match nth_error xs i with
  | Some x => ret x
  | None => raise (Exc IndexError)
  end.

(** [float(s)] *)
Definition to_float (s : string) : M float :=
  match of_string s with
  | Some x => ret x
  | None => raise (Exc ValueError)
  end.

Definition get_temperature (temp_type : string) : M (option float) :=
  output <-
    (if String.eqb temp_type "cpu" then
       o <- run_main_script ["--cpu-temp"] ;; ret (Some o)
     else if String.eqb temp_type "gpu" then
       o <- run_main_script ["--gpu-temp"] ;; ret (Some o)
     else ret None) ;;
  match output with
  | None => ret None
  | Some None => ret None
  | Some (Some output) =>
      try (temp_str <- item (PyStr.split ": " output) 1 ;;
           temp_value <- to_float (PyStr.replace "°C" EmptyString temp_str) ;;
           ret (Some temp_value))
          (fun r =>
             match r with
             | Exc IndexError | Exc ValueError =>
                 Some (log ERROR (FailedToParse output) ;;; ret None)
             | _ => None
             end)
  end.

Definition set_cooler_boost (enable : bool) : M bool :=
  let state := if enable then "on" else "off" in
  output <- run_main_script ["--cooler-boost"; state] ;;
  match output with
  | Some _ =>
      modify (set_cooler_boost_enabled enable) ;;;
      log INFO (CoolerBoostSet enable) ;;;
      ret true
  | None =>
      log ERROR (FailedToSetCoolerBoost enable) ;;;
      ret false
  end.

(** [[(tag, x)] if x is not None else []] *)
Definition present (tag : sensor) (x : option float) : list (sensor * float) :=
  match x with Some v => [(tag, v)] | None => [] end.

(** [x is not None and x > threshold] *)
Definition above (x : option float) (threshold : Z) : bool :=
  match x with Some v => gt_int v threshold | None => false end.

(** [x is None or x < bound] *)
Definition safe (x : option float) (bound : Z) : bool :=
  match x with Some v => lt_int v bound | None => true end.

Definition check_temperatures : M unit :=
  w <- ask ;;
  match fault w with Some e => raise (Exc e) | None => ret tt end ;;;
  cpu_temp <- get_temperature "cpu" ;;
  gpu_temp <- get_temperature "gpu" ;;
  match cpu_temp, gpu_temp with
  | None, None => log ERROR FailedToReadBoth
  | _, _ =>
      let temp_info := present CPU cpu_temp ++ present GPU gpu_temp in
      log DEBUG (Temperatures temp_info) ;;;
      let should_enable := false in
      let temp_reasons := [] in
      let '(should_enable, temp_reasons) :=
        if above cpu_temp CPU_TEMP_THRESHOLD
        then (true, temp_reasons ++ present CPU cpu_temp)
        else (should_enable, temp_reasons) in
      let '(should_enable, temp_reasons) :=
        if above gpu_temp GPU_TEMP_THRESHOLD
        then (true, temp_reasons ++ present GPU gpu_temp)
        else (should_enable, temp_reasons) in
      self <- get ;;
      should_enable <-
        (if cooler_boost_enabled self && negb should_enable then
           let cpu_safe := safe cpu_temp (CPU_TEMP_THRESHOLD - TEMP_OSCILLATION_FIX) in
           let gpu_safe := safe gpu_temp (GPU_TEMP_THRESHOLD - TEMP_OSCILLATION_FIX) in
           if negb (cpu_safe && gpu_safe) then
             log DEBUG KeepingEnabled ;;; ret true
           else ret should_enable
         else ret should_enable) ;;
      if should_enable && negb (cooler_boost_enabled self) then
        log INFO (EnablingCoolerBoost temp_reasons) ;;;
        set_cooler_boost true ;;;
        modify (set_last_coolerboost_enabled_at (time_time w))
      else if negb should_enable && cooler_boost_enabled self
              && gt_int (sub (time_time w) (last_coolerboost_enabled_at self))
                        TIME_OSCILLATION_FIX then
        let disable_reasons := present CPU cpu_temp ++ present GPU gpu_temp in
        log INFO (DisablingCoolerBoost disable_reasons) ;;;
        set_cooler_boost false ;;;
        ret tt
      else ret tt
  end.

(** One turn of the [while] of [monitor_loop]: the [try] and its handler. *)
Definition poll : M unit :=
  try (check_temperatures ;;; sleep CHECK_INTERVAL)
      (fun r =>
         match r with
         | Exc e => Some (log ERROR (ErrorInLoop e) ;;; sleep CHECK_INTERVAL)
         | SystemExit _ => None
         end).

(** The monitor thread meets the rest of the program at the test of its
    [while]: a turn comes with the world of that turn and with whether
    [stop], on the main thread, has cleared [running] since the turn
    before. *)
Record turn : Type := { stopped : bool; outside : world }.

(** How far [monitor_loop] got on the turns given: it returned, a raise
    left it, or it is still looping. *)
Inductive progress : Type :=
| Returned
| Left (r : raised)
| Looping.

Fixpoint while_running (turns : list turn) (self : ThermalMonitor)
  : progress * ThermalMonitor * list event :=
  match turns with
  | [] => (if running self then Looping else Returned, self, [])
  | t :: rest =>
      let self := if stopped t then set_running false self else self in
      if running self then
        match poll (outside t) self with
        | (inr _, self', tr) =>
            let '(p, self'', tr') := while_running rest self' in
            (p, self'', tr ++ tr')
        | (inl r, self', tr) => (Left r, self', tr)
        end
      else (Returned, self, [])
  end.

Definition monitor_loop (turns : list turn) (self : ThermalMonitor)
  : progress * ThermalMonitor * list event :=
  let '(p, self', tr) := while_running turns self in
  (p, self',
   [Logged INFO StartingMonitoring; Logged INFO Thresholds; Logged INFO Intervals] ++ tr).

(** [start]: the value returned is [None], [False] or [True]. *)
Definition start : M (option bool) :=
  self <- get ;;
  if running self then
    log WARNING AlreadyRunning ;;; ret None
  else
    checked <-
      try (check_main_script ;;; ret true)
          (fun r =>
             match r with
             | Exc (FileNotFoundError m as e) | Exc (PermissionError m as e) =>
                 Some (log ERROR (StartupError e) ;;; ret false)
             | _ => None
             end) ;;
    if negb checked then ret (Some false)
    else
      modify (set_running true) ;;;
      modify set_monitor_thread ;;;
      emit ThreadStarted ;;;
      log INFO MonitorStarted ;;;
      ret (Some true).

Definition stop : M unit :=
  self <- get ;;
  if negb (running self) then ret tt
  else
    log INFO StoppingMonitor ;;;
    modify (set_running false) ;;;
    (if monitor_thread self then emit (ThreadJoined 5) else ret tt) ;;;
    (if DISABLE_COOLER_BOOST_ON_EXIT then
       self <- get ;;
       if cooler_boost_enabled self then
         log INFO DisablingBeforeExit ;;; set_cooler_boost false ;;; ret tt
       else ret tt
     else ret tt) ;;;
    log INFO MonitorStopped ;;;
    raise (SystemExit 0).

(** *** What a run shows *)

(** The cooler boost writes asked for, in order. *)
Definition boost_write (e : event) : list bool :=
  match e with
  | Ran [flag; state] =>
      if String.eqb flag "--cooler-boost" then [String.eqb state "on"] else []
  | _ => []
  end.

Definition boost_writes (tr : list event) : list bool := flat_map boost_write tr.

(** How many times a run slept. *)
Definition slept (e : event) : bool :=
  match e with Slept _ => true | _ => false end.

Definition naps (tr : list event) : nat := List.length (filter slept tr).

(** A stretch of a run with no cooler boost write and no sleep in it. *)
Definition quiet (tr : list event) : Prop := boost_writes tr = [] /\ naps tr = 0%nat.

(** [stop] has not been called before this turn. *)
Definition unstopped (t : turn) : Prop := stopped t = false.

(** The decision of a poll cycle: the state it asked the gateway for, or
    the state it found when it asked for none. *)
Definition decision (self : ThermalMonitor) (tr : list event) : bool :=
  match boost_writes tr with
  | b :: _ => b
  | [] => cooler_boost_enabled self
  end.

(** The main script as the process behind [subprocess.run], which reads
    what the script wrote as text. *)
Definition script (fs : Cli.sysfs) (args : list string) : process :=
  let c := Cli.run args fs in
  Completed (Cli.returncode c) (PyStr.newlines (Cli.stdout c))
    (PyStr.newlines (Cli.stderr c)).

(** What [run_main_script] returns in a world. *)
Definition output_of (w : world) (args : list string) : option string :=
  match subprocess_run w args with
  | Completed returncode stdout _ =>
      if returncode =? 0 then Some (PyStr.strip stdout) else None
  | _ => None
  end.

(** What the [try] of [get_temperature] makes of an output. *)
Definition parse_temperature (output : string) : option float :=
  match nth_error (PyStr.split ": " output) 1 with
  | Some temp_str => of_string (PyStr.replace "°C" EmptyString temp_str)
  | None => None
  end.

(** The reading of a poll cycle: what [get_temperature] returns. *)
Definition reading (w : world) (temp_type : string) : option float :=
  if String.eqb temp_type "cpu" then
    match output_of w ["--cpu-temp"] with
    | Some output => parse_temperature output
    | None => None
    end
  else if String.eqb temp_type "gpu" then
    match output_of w ["--gpu-temp"] with
    | Some output => parse_temperature output
    | None => None
    end
  else None.

(** Whether a cooler boost write succeeds in a world. *)
Definition write_succeeds (w : world) (enable : bool) : bool :=
  match output_of w ["--cooler-boost"; if enable then "on" else "off"] with
  | Some _ => true
  | None => false
  end.

(** [x is not None and x == n] *)
Definition equals (x : option float) (n : Z) : bool :=
  match x with Some v => eq_int v n | None => false end.

(** The value [should_enable] has when lines 130 to 148 are through. *)
Definition should_enable (w : world) (self : ThermalMonitor) : bool :=
  let cpu_temp := reading w "cpu" in
  let gpu_temp := reading w "gpu" in
  above cpu_temp CPU_TEMP_THRESHOLD || above gpu_temp GPU_TEMP_THRESHOLD
  || (cooler_boost_enabled self
      && negb (safe cpu_temp (CPU_TEMP_THRESHOLD - TEMP_OSCILLATION_FIX)
               && safe gpu_temp (GPU_TEMP_THRESHOLD - TEMP_OSCILLATION_FIX))).

(** The test of line 156 on the clock. *)
Definition long_enough (w : world) (self : ThermalMonitor) : bool :=
  gt_int (sub (time_time w) (last_coolerboost_enabled_at self)) TIME_OSCILLATION_FIX.

(** The branch lines 150 to 164 take: the write they ask for, if any. *)
Definition asked (w : world) (self : ThermalMonitor) : option bool :=
  match reading w "cpu", reading w "gpu" with
  | None, None => None
  | _, _ =>
      if should_enable w self && negb (cooler_boost_enabled self) then Some true
      else if negb (should_enable w self) && cooler_boost_enabled self
              && long_enough w self then Some false
      else None
  end.

(** The object a poll cycle leaves. *)
Definition after (w : world) (self : ThermalMonitor) : ThermalMonitor :=
  match asked w self with
  | Some true =>
      set_last_coolerboost_enabled_at (time_time w)
        (if write_succeeds w true then set_cooler_boost_enabled true self else self)
  | Some false =>
      if write_succeeds w false then set_cooler_boost_enabled false self else self
  | None => self
  end.

End Manager.

(** ** Concrete machines, for running the definitions *)

Module Sample.

Import Manager.

(** A sysfs attribute everyone reads and, when [writable], writes. *)
Definition attribute (text : string) (writable : bool) : Cli.node :=
  Cli.File {| Cli.for_reading := Cli.Granted;
              Cli.for_writing := if writable then Cli.Granted else Cli.Refused;
              Cli.content := text |}.

(** The msi-ec directory with the two temperature files and the cooler
    boost file. *)
Definition laptop (cpu gpu boost : string) (writable : bool) : Cli.sysfs :=
  fun path =>
    if String.eqb path "/sys/devices/platform/msi-ec" then Cli.Directory
    else if String.eqb path "/sys/devices/platform/msi-ec/cpu/realtime_temperature"
    then attribute (cpu ++ Cli.eol) false
    else if String.eqb path "/sys/devices/platform/msi-ec/gpu/realtime_temperature"
    then attribute (gpu ++ Cli.eol) false
    else if String.eqb path "/sys/devices/platform/msi-ec/cooler_boost"
    then attribute (boost ++ Cli.eol) writable
    else Cli.NoEntry.

(** The world in which the main script is in place and runs on [fs]. *)
Definition around (fs : Cli.sysfs) (clock : PyFloat.float) : world :=
  {| getcwd := "/opt/msi";
     script_exists := true;
     script_readable := true;
     subprocess_run := script fs;
     time_time := clock;
     fault := None |}.

(** The world in which every run of the main script times out. *)
Definition silent (clock : PyFloat.float) : world :=
  {| getcwd := "/opt/msi";
     script_exists := true;
     script_readable := true;
     subprocess_run := fun _ => TimedOut;
     time_time := clock;
     fault := None |}.

(** The world in which the poll cycle raises [e]. *)
Definition faulty (e : exception) : world :=
  {| getcwd := "/opt/msi";
     script_exists := true;
     script_readable := true;
     subprocess_run := fun _ => TimedOut;
     time_time := S754_zero false;
     fault := Some e |}.

(** The world in which the main script is not there. *)
Definition scriptless : world :=
  {| getcwd := "/opt/msi";
     script_exists := false;
     script_readable := false;
     subprocess_run := fun _ => Crashed "No such file or directory";
     time_time := S754_zero false;
     fault := None |}.

(** A monitor with the boost on since [since]. *)
Definition boosting (since : PyFloat.float) : ThermalMonitor :=
  {| running := true;
     cooler_boost_enabled := true;
     main_script_path := "/opt/msi/main.py";
     last_coolerboost_enabled_at := since;
     monitor_thread := true |}.

(** A monitor with the boost off. *)
Definition idle : ThermalMonitor :=
  {| running := true;
     cooler_boost_enabled := false;
     main_script_path := "/opt/msi/main.py";
     last_coolerboost_enabled_at := S754_zero false;
     monitor_thread := true |}.

End Sample.

(** ** What a monitor has been through *)

Module History.

Import Manager.

(** The boost, if on, was enabled by one of [turns]: a cycle that ran, whose
    write [on] succeeded, and whose clock is the time kept in
    [last_coolerboost_enabled_at]. *)
Definition stamped (turns : list turn) (self : ThermalMonitor) : Prop :=
  cooler_boost_enabled self = true ->
  exists t,
    In t turns
    /\ fault (outside t) = None
    /\ write_succeeds (outside t) true = true
    /\ last_coolerboost_enabled_at self = time_time (outside t).

End History.

(** ** Texts of ASCII *)

Module Text.

(** A character of a number printed in ASCII: a digit, the minus sign, the
    point. *)
Definition numeric (c : ascii) : bool :=
  PyStr.isdigit c || Ascii.eqb c "-" || Ascii.eqb c ".".

(** [n * c] *)
Fixpoint copies (n : nat) (c : ascii) : string :=
  match n with
  | O => EmptyString
  | S k => String c (copies k c)
  end.

(** The last character is one of ASCII that is not white space. *)
Fixpoint closed (s : string) : bool :=
  match s with
  | EmptyString => false
  | String c EmptyString => PyStr.one c && negb (PyStr.isspace (PyStr.byte c))
  | String _ t => closed t
  end.

End Text.

(** * Properties *)

Import Manager PyFloat.

#[local] Open Scope list_scope.

(** ** Runs of the monitor's methods *)

(** Unfolding the plumbing of [M]. *)
Ltac run_M :=
  cbv beta iota zeta delta
    [bind try ret raise ask get put emit log sleep modify item to_float].

Lemma triple_eta {A B C} (x : A * B * C) : x = (fst (fst x), snd (fst x), snd x).
Proof. destruct x as [[a b] c]. reflexivity. Qed.

Lemma boost_writes_app (a b : list event) :
  boost_writes (a ++ b) = boost_writes a ++ boost_writes b.
Proof. unfold boost_writes. apply flat_map_app. Qed.

Lemma bind_run {A B} (m : M A) (k : A -> M B) w self a self' t :
  m w self = (inr a, self', t) ->
  bind m k w self = let '(r, self'', t') := k a w self' in (r, self'', t ++ t').
Proof. intros E. unfold bind. rewrite E. reflexivity. Qed.

Lemma naps_app (a b : list event) : naps (a ++ b) = (naps a + naps b)%nat.
Proof. unfold naps. rewrite filter_app, length_app. reflexivity. Qed.

Lemma quiet_app (a b : list event) : quiet a -> quiet b -> quiet (a ++ b).
Proof.
  intros [Wa Na] [Wb Nb]. split.
  - rewrite boost_writes_app, Wa, Wb. reflexivity.
  - rewrite naps_app, Na, Nb. reflexivity.
Qed.

(** [run_main_script] never raises and never touches the object. *)
Lemma run_main_script_run (args : list string) w self :
  exists tr,
    run_main_script args w self = (inr (output_of w args), self, Ran args :: tr)
    /\ quiet tr.
Proof.
  unfold run_main_script, run_process, output_of. run_M.
  destruct (subprocess_run w args) as [rc out err | | why]; simpl.
  - destruct (rc =? 0); simpl; eexists; split; try reflexivity; split; reflexivity.
  - eexists; split; try reflexivity; split; reflexivity.
  - eexists; split; try reflexivity; split; reflexivity.
Qed.

Lemma parse_run (output : string) w self :
  exists tr,
    try (temp_str <- item (PyStr.split ": " output) 1 ;;
         temp_value <- to_float (PyStr.replace "°C" EmptyString temp_str) ;;
         ret (Some temp_value))
        (fun r =>
           match r with
           | Exc IndexError | Exc ValueError =>
               Some (log ERROR (FailedToParse output) ;;; ret None)
           | _ => None
           end) w self
    = (inr (parse_temperature output), self, tr)
    /\ quiet tr.
Proof.
  unfold parse_temperature. run_M.
  destruct (nth_error (PyStr.split ": " output) 1) as [temp_str|]; simpl.
  - destruct (of_string (PyStr.replace "°C" EmptyString temp_str)); simpl;
      eexists; split; try reflexivity; split; reflexivity.
  - eexists; split; try reflexivity; split; reflexivity.
Qed.

(** [get_temperature] never raises and never touches the object. *)
Lemma get_temperature_run (temp_type : string) w self :
  exists tr,
    get_temperature temp_type w self = (inr (reading w temp_type), self, tr)
    /\ quiet tr.
Proof.
  assert (Hflag : forall flag,
             exists tr,
               (output <- (o <- run_main_script [flag] ;; ret (Some o)) ;;
                match output with
                | None => ret None
                | Some None => ret None
                | Some (Some output) =>
                    try (temp_str <- item (PyStr.split ": " output) 1 ;;
                         temp_value <- to_float (PyStr.replace "°C" EmptyString temp_str) ;;
                         ret (Some temp_value))
                        (fun r =>
                           match r with
                           | Exc IndexError | Exc ValueError =>
                               Some (log ERROR (FailedToParse output) ;;; ret None)
                           | _ => None
                           end)
                end) w self
               = (inr match output_of w [flag] with
                      | Some output => parse_temperature output
                      | None => None
                      end, self, tr)
               /\ quiet tr).
  { intros flag.
    destruct (run_main_script_run [flag] w self) as (tr & E & Hq).
    rewrite (bind_run _ _ w self (Some (output_of w [flag])) self (Ran [flag] :: tr)).
    2:{ rewrite (bind_run _ _ _ _ _ _ _ E). unfold ret. rewrite app_nil_r. reflexivity. }
    assert (Hq' : quiet (Ran [flag] :: tr)).
    { destruct Hq as [Hw Hn]. split.
      - change (boost_writes (Ran [flag] :: tr)) with (boost_writes tr). exact Hw.
      - exact Hn. }
    destruct (output_of w [flag]) as [output|].
    - destruct (parse_run output w self) as (tr' & E' & Hw'). rewrite E'.
      eexists; split; [reflexivity|]. now apply quiet_app.
    - eexists; split; [reflexivity|]. unfold ret. rewrite app_nil_r. exact Hq'. }
  unfold get_temperature, reading.
  destruct (String.eqb temp_type "cpu"); [apply Hflag|].
  destruct (String.eqb temp_type "gpu"); [apply Hflag|].
  run_M. eexists; split; [reflexivity|]. split; reflexivity.
Qed.

(** [set_cooler_boost] asks for one write, and sets the flag when and only
    when the script answered. *)
Lemma set_cooler_boost_run (enable : bool) w self :
  exists tr,
    set_cooler_boost enable w self
    = (inr (write_succeeds w enable),
       if write_succeeds w enable then set_cooler_boost_enabled enable self else self,
       tr)
    /\ boost_writes tr = [enable] /\ naps tr = 0%nat.
Proof.
  unfold set_cooler_boost, write_succeeds.
  set (state := if enable then "on" else "off").
  destruct (run_main_script_run ["--cooler-boost"; state] w self) as (tr & E & Hw & Hn).
  rewrite (bind_run _ _ _ _ _ _ _ E).
  assert (Hb : boost_writes (Ran ["--cooler-boost"; state] :: tr) = [enable]).
  { change (boost_writes (Ran ["--cooler-boost"; state] :: tr))
      with (String.eqb state "on" :: boost_writes tr).
    rewrite Hw. subst state. destruct enable; reflexivity. }
  assert (Hn' : naps (Ran ["--cooler-boost"; state] :: tr) = 0%nat) by exact Hn.
  destruct (output_of w ["--cooler-boost"; state]); run_M;
    eexists; (split; [reflexivity|]);
    rewrite boost_writes_app, naps_app, Hb, Hn'; split; reflexivity.
Qed.

(** A poll cycle that no fault interrupts returns, leaves the object [after]
    describes, asks for the write [asked] names, once, and does not sleep. *)
Lemma check_temperatures_run w self :
  fault w = None ->
  exists tr,
    check_temperatures w self = (inr tt, after w self, tr)
    /\ boost_writes tr = match asked w self with Some b => [b] | None => [] end
    /\ naps tr = 0%nat.
Proof.
  intros Hf.
  destruct (get_temperature_run "cpu" w self) as (t1 & E1 & W1 & N1).
  destruct (get_temperature_run "gpu" w self) as (t2 & E2 & W2 & N2).
  destruct (set_cooler_boost_run true w self) as (t3 & E3 & W3 & N3).
  destruct (set_cooler_boost_run false w self) as (t4 & E4 & W4 & N4).
  unfold check_temperatures. run_M. rewrite Hf. cbv beta iota.
  rewrite E1. cbv beta iota. rewrite E2. cbv beta iota.
  unfold after, asked, should_enable, long_enough.
  destruct (reading w "cpu") as [c|], (reading w "gpu") as [g|];
    cbv beta iota zeta.
  4:{ eexists; split; [reflexivity|].
      rewrite !boost_writes_app, !naps_app, W1, W2, N1, N2. split; reflexivity. }
  all: destruct (above _ CPU_TEMP_THRESHOLD), (above _ GPU_TEMP_THRESHOLD),
         (cooler_boost_enabled self) eqn:En;
       repeat match goal with
         | |- context [safe ?x ?b] => destruct (safe x b)
         | |- context [gt_int ?x ?b] => destruct (gt_int x b)
         end;
       cbn [andb orb negb]; cbv beta iota zeta;
       rewrite ?E3, ?E4; cbv beta iota zeta;
       eexists; (split; [reflexivity|]);
       rewrite ?boost_writes_app, ?naps_app, ?W1, ?W2, ?W3, ?W4, ?N1, ?N2, ?N3, ?N4;
       split; reflexivity.
Qed.

(** ** The decision of a poll cycle *)

Lemma le_int_not_gt (x : float) (n : Z) : le_int x n = true -> gt_int x n = false.
Proof. unfold le_int, gt_int. destruct (compare_int x n) as [[ | | ]|]; easy. Qed.

Lemma eq_int_not_gt (x : float) (n : Z) : eq_int x n = true -> gt_int x n = false.
Proof. unfold eq_int, gt_int. destruct (compare_int x n) as [[ | | ]|]; easy. Qed.

Lemma eq_int_not_lt (x : float) (n : Z) : eq_int x n = true -> lt_int x n = false.
Proof. unfold eq_int, lt_int. destruct (compare_int x n) as [[ | | ]|]; easy. Qed.

(** What a cycle's trace tells of its decision, from the write it asked. *)
Lemma decision_of_writes self tr (a : option bool) :
  boost_writes tr = match a with Some b => [b] | None => [] end ->
  decision self tr = match a with Some b => b | None => cooler_boost_enabled self end.
Proof. unfold decision. intros ->. destruct a; reflexivity. Qed.

(** C1: in a poll cycle where a present reading is over its threshold, the
    decision is to enable the boost, whatever the object held before (the
    flag, the time of the last enabling) and whatever the clock shows: the
    cycle returns, asks for the write [on] when the boost was off and for no
    write when it was on. *)
Theorem over_threshold_enables w self :
  fault w = None ->
  above (reading w "cpu") CPU_TEMP_THRESHOLD = true
  \/ above (reading w "gpu") GPU_TEMP_THRESHOLD = true ->
  forall r self' tr,
    check_temperatures w self = (r, self', tr) ->
    r = inr tt
    /\ decision self tr = true
    /\ boost_writes tr = (if cooler_boost_enabled self then [] else [true]).
Proof.
  intros Hf Hover r self' tr E.
  destruct (check_temperatures_run w self Hf) as (tr0 & E0 & W0 & _).
  rewrite E0 in E. injection E as <- <- <-.
  assert (Ha : asked w self = if cooler_boost_enabled self then None else Some true).
  { unfold asked, should_enable.
    destruct (reading w "cpu") as [c|], (reading w "gpu") as [g|];
      simpl in Hover |- *; destruct Hover as [H|H]; try discriminate H;
      rewrite H; destruct (cooler_boost_enabled self);
      rewrite ?orb_true_r; reflexivity. }
  split; [reflexivity|]. split.
  - rewrite (decision_of_writes _ _ _ W0), Ha.
    destruct (cooler_boost_enabled self); reflexivity.
  - rewrite W0, Ha. destruct (cooler_boost_enabled self); reflexivity.
Qed.

(** Scenario A of the specification: boost off, CPU at 61, GPU at 50. *)
Lemma over_threshold_enables_witness :
  let w := Sample.around (Sample.laptop "61" "50" "off" true) (of_int 1000) in
  above (reading w "cpu") CPU_TEMP_THRESHOLD = true
  /\ decision Sample.idle (snd (check_temperatures w Sample.idle)) = true.
Proof.
  intros w. split; [reflexivity|].
  destruct (check_temperatures w Sample.idle) as [[r self'] tr] eqn:E.
  apply (over_threshold_enables w Sample.idle eq_refl (or_introl eq_refl) r self' tr E).
Defined.

(** C2, as the code has it: in a poll cycle with the boost on and no present
    reading over its threshold, (1) if at least one reading is present, every
    present reading is strictly below its threshold less
    [TEMP_OSCILLATION_FIX] and [time.time() - last_coolerboost_enabled_at >
    TIME_OSCILLATION_FIX], the decision is to disable: the cycle asks for the
    write [off]; (2) if [time.time() - last_coolerboost_enabled_at <=
    TIME_OSCILLATION_FIX], the boost stays on whatever the readings: the
    cycle asks for no write and leaves the object as it was. *)
Theorem hysteresis_guards_disabling w self :
  fault w = None ->
  cooler_boost_enabled self = true ->
  above (reading w "cpu") CPU_TEMP_THRESHOLD = false ->
  above (reading w "gpu") GPU_TEMP_THRESHOLD = false ->
  forall r self' tr,
    check_temperatures w self = (r, self', tr) ->
    ((reading w "cpu" <> None \/ reading w "gpu" <> None) ->
     safe (reading w "cpu") (CPU_TEMP_THRESHOLD - TEMP_OSCILLATION_FIX) = true ->
     safe (reading w "gpu") (GPU_TEMP_THRESHOLD - TEMP_OSCILLATION_FIX) = true ->
     gt_int (sub (time_time w) (last_coolerboost_enabled_at self))
            TIME_OSCILLATION_FIX = true ->
     decision self tr = false /\ boost_writes tr = [false])
    /\ (le_int (sub (time_time w) (last_coolerboost_enabled_at self))
               TIME_OSCILLATION_FIX = true ->
        decision self tr = true /\ boost_writes tr = [] /\ self' = self).
Proof.
  intros Hf En Hc Hg r self' tr E.
  destruct (check_temperatures_run w self Hf) as (tr0 & E0 & W0 & _).
  rewrite E0 in E. injection E as <- <- <-.
  split.
  - intros Hp Sc Sg Ht.
    assert (Ha : asked w self = Some false).
    { unfold asked, should_enable, long_enough. rewrite Hc, Hg, En, Sc, Sg, Ht.
      destruct (reading w "cpu"), (reading w "gpu"); try reflexivity.
      destruct Hp as [Hp|Hp]; now contradiction Hp. }
    rewrite (decision_of_writes _ _ _ W0), W0, Ha. split; reflexivity.
  - intros Ht. apply le_int_not_gt in Ht.
    assert (Ha : asked w self = None).
    { unfold asked, should_enable, long_enough. rewrite Hc, Hg, En, Ht.
      destruct (reading w "cpu"), (reading w "gpu"); try reflexivity;
        cbn [orb andb negb];
        match goal with |- context [negb ?b] => destruct b end; reflexivity. }
    rewrite (decision_of_writes _ _ _ W0), W0. unfold after. rewrite Ha.
    repeat split. exact En.
Qed.

(** Scenarios B and C of the specification: boost on, CPU at 54, GPU at 50,
    seventy seconds and ten seconds after the enabling. *)
Lemma hysteresis_guards_disabling_witness :
  let fs := Sample.laptop "54" "50" "on" true in
  let self := Sample.boosting (of_int 1000) in
  boost_writes (snd (check_temperatures (Sample.around fs (of_int 1070)) self)) = [false]
  /\ boost_writes (snd (check_temperatures (Sample.around fs (of_int 1010)) self)) = [].
Proof.
  intros fs self. split.
  - destruct (check_temperatures (Sample.around fs (of_int 1070)) self)
      as [[r self'] tr] eqn:E.
    apply (proj1 (hysteresis_guards_disabling (Sample.around fs (of_int 1070)) self
                    eq_refl eq_refl eq_refl eq_refl r self' tr E)).
    + left. discriminate.
    + reflexivity.
    + reflexivity.
    + reflexivity.
  - destruct (check_temperatures (Sample.around fs (of_int 1010)) self)
      as [[r self'] tr] eqn:E.
    apply (proj2 (hysteresis_guards_disabling (Sample.around fs (of_int 1010)) self
                    eq_refl eq_refl eq_refl eq_refl r self' tr E)).
    reflexivity.
Defined.

(** Without a reading present the disabling does not follow: when both
    reads fail, no present reading is over its threshold, every present
    reading (there is none) is below the margin and the time margin has
    passed, yet the cycle returns at line 119 and the boost stays on. *)
Lemma hysteresis_guards_disabling_counterexample :
  let w := Sample.silent (of_int 1000) in
  let self := Sample.boosting (S754_zero false) in
  fault w = None
  /\ cooler_boost_enabled self = true
  /\ above (reading w "cpu") CPU_TEMP_THRESHOLD = false
  /\ above (reading w "gpu") GPU_TEMP_THRESHOLD = false
  /\ safe (reading w "cpu") (CPU_TEMP_THRESHOLD - TEMP_OSCILLATION_FIX) = true
  /\ safe (reading w "gpu") (GPU_TEMP_THRESHOLD - TEMP_OSCILLATION_FIX) = true
  /\ gt_int (sub (time_time w) (last_coolerboost_enabled_at self))
            TIME_OSCILLATION_FIX = true
  /\ decision self (snd (check_temperatures w self)) = true
  /\ boost_writes (snd (check_temperatures w self)) = [].
Proof. vm_compute. repeat split. Qed.

(** C3: in a poll cycle where both reads fail, the cycle returns with the
    object as it found it, asks for no cooler boost write, and its decision
    is the state the boost was in. *)
Theorem no_reading_no_action w self :
  fault w = None ->
  reading w "cpu" = None ->
  reading w "gpu" = None ->
  forall r self' tr,
    check_temperatures w self = (r, self', tr) ->
    r = inr tt
    /\ self' = self
    /\ boost_writes tr = []
    /\ decision self tr = cooler_boost_enabled self.
Proof.
  intros Hf Hc Hg r self' tr E.
  destruct (check_temperatures_run w self Hf) as (tr0 & E0 & W0 & _).
  rewrite E0 in E. injection E as <- <- <-.
  assert (Ha : asked w self = None).
  { unfold asked. rewrite Hc, Hg. reflexivity. }
  rewrite (decision_of_writes _ _ _ W0), W0. unfold after. rewrite Ha.
  repeat split.
Qed.

Lemma no_reading_no_action_witness :
  let w := Sample.silent (of_int 1000) in
  let self := Sample.boosting (of_int 10) in
  reading w "cpu" = None
  /\ reading w "gpu" = None
  /\ boost_writes (snd (check_temperatures w self)) = []
  /\ snd (fst (check_temperatures w self)) = self.
Proof.
  intros w self.
  destruct (check_temperatures w self) as [[r self'] tr] eqn:E.
  destruct (no_reading_no_action w self eq_refl eq_refl eq_refl r self' tr E)
    as (_ & Hs & Hw & _).
  repeat split; assumption.
Defined.

(** The write a cycle asked for is the one [asked] names. *)
Lemma asked_of_writes w self (b : bool) tr :
  boost_writes tr = match asked w self with Some b => [b] | None => [] end ->
  boost_writes tr = [b] -> asked w self = Some b.
Proof.
  intros -> H. destruct (asked w self); [injection H as -> | discriminate H]; reflexivity.
Qed.

(** C4: a cooler boost write that fails (the run of the main script gave no
    output: a non-zero exit status, a timeout, any exception) leaves
    [cooler_boost_enabled] as it was, in [set_cooler_boost] and so in the poll
    cycle that made the attempt; and the next cycle decides anew: on the same
    readings (and, for a disabling, with the time margin still passed) it asks
    for the same write again. *)
Theorem failed_write_keeps_flag w self (b : bool) :
  write_succeeds w b = false ->
  (forall r self' tr,
      set_cooler_boost b w self = (r, self', tr) ->
      r = inr false /\ self' = self /\ boost_writes tr = [b])
  /\ (fault w = None ->
      forall r self' tr,
        check_temperatures w self = (r, self', tr) ->
        boost_writes tr = [b] ->
        cooler_boost_enabled self' = cooler_boost_enabled self
        /\ forall w2,
            fault w2 = None ->
            reading w2 "cpu" = reading w "cpu" ->
            reading w2 "gpu" = reading w "gpu" ->
            (b = false ->
             gt_int (sub (time_time w2) (last_coolerboost_enabled_at self'))
                    TIME_OSCILLATION_FIX = true) ->
            forall r2 self2 tr2,
              check_temperatures w2 self' = (r2, self2, tr2) ->
              boost_writes tr2 = [b]).
Proof.
  intros Hfail. split.
  - intros r self' tr E.
    destruct (set_cooler_boost_run b w self) as (tr0 & E0 & W0 & _).
    rewrite E0, Hfail in E. injection E as <- <- <-. repeat split. exact W0.
  - intros Hf r self' tr E Hw.
    destruct (check_temperatures_run w self Hf) as (tr0 & E0 & W0 & _).
    rewrite E0 in E. injection E as <- <- <-.
    pose proof (asked_of_writes _ _ _ _ W0 Hw) as Ha.
    assert (Hen : cooler_boost_enabled (after w self) = cooler_boost_enabled self).
    { unfold after. rewrite Ha. destruct b; rewrite Hfail; reflexivity. }
    split; [exact Hen|].
    intros w2 Hf2 Rc Rg Ht r2 self2 tr2 E2.
    destruct (check_temperatures_run w2 (after w self) Hf2) as (tr3 & E3 & W3 & _).
    rewrite E3 in E2. injection E2 as <- <- <-.
    rewrite W3.
    assert (Ha2 : asked w2 (after w self) = Some b).
    { revert Ha. unfold asked, should_enable, long_enough.
      rewrite Rc, Rg, Hen.
      destruct b.
      - destruct (reading w "cpu"), (reading w "gpu"); try discriminate;
          destruct (_ && negb _); try reflexivity;
          destruct (_ && _ && _); discriminate.
      - specialize (Ht eq_refl). rewrite Ht.
        destruct (reading w "cpu"), (reading w "gpu"); try discriminate;
          destruct (_ && negb (cooler_boost_enabled self)); try discriminate;
          destruct (negb _ && cooler_boost_enabled self); try discriminate;
          reflexivity. }
    rewrite Ha2. reflexivity.
Qed.

(** The monitor without the rights to write the cooler boost file: the write
    [on] fails with CPU at 61, the flag stays off, and the next cycle asks for
    the write again. *)
Lemma failed_write_keeps_flag_witness :
  let w := Sample.around (Sample.laptop "61" "50" "off" false) (of_int 1000) in
  let w2 := Sample.around (Sample.laptop "61" "50" "off" false) (of_int 1003) in
  let self' := snd (fst (check_temperatures w Sample.idle)) in
  write_succeeds w true = false
  /\ cooler_boost_enabled self' = false
  /\ boost_writes (snd (check_temperatures w2 self')) = [true].
Proof.
  intros w w2 self'. split; [reflexivity|].
  destruct (proj2 (failed_write_keeps_flag w Sample.idle true eq_refl) eq_refl
              _ _ _ (triple_eta (check_temperatures w Sample.idle)) eq_refl)
    as [Hen Hnext].
  split; [exact Hen|].
  apply (Hnext w2 eq_refl eq_refl eq_refl (fun H => ltac:(discriminate H)) _ _ _
           (triple_eta (check_temperatures w2 self'))).
Defined.

(** Where the time of the last enabling can change: only in a cycle that
    found the boost off and asked for the write [on], and then it becomes the
    clock of that cycle, whether the write succeeded or not. *)
Lemma stamp_only_when_enabling w self :
  fault w = None ->
  forall r self' tr,
    check_temperatures w self = (r, self', tr) ->
    last_coolerboost_enabled_at self' = last_coolerboost_enabled_at self
    \/ (cooler_boost_enabled self = false
        /\ boost_writes tr = [true]
        /\ last_coolerboost_enabled_at self' = time_time w).
Proof.
  intros Hf r self' tr E.
  destruct (check_temperatures_run w self Hf) as (tr0 & E0 & W0 & _).
  rewrite E0 in E. injection E as <- <- <-.
  rewrite W0. unfold after.
  destruct (asked w self) as [[|]|] eqn:Ha.
  - right. repeat split.
    revert Ha. unfold asked.
    destruct (reading w "cpu"), (reading w "gpu"); try discriminate;
      destruct (cooler_boost_enabled self); try reflexivity;
      rewrite andb_false_r; destruct (_ && _ && _); discriminate.
  - left. destruct (write_succeeds w false); reflexivity.
  - left. reflexivity.
Qed.

(** The flag changes only by a write that succeeded. *)
Lemma flag_only_by_confirmed_write w self :
  fault w = None ->
  forall r self' tr,
    check_temperatures w self = (r, self', tr) ->
    cooler_boost_enabled self' = cooler_boost_enabled self
    \/ exists b, boost_writes tr = [b] /\ write_succeeds w b = true
                 /\ cooler_boost_enabled self' = b.
Proof.
  intros Hf r self' tr E.
  destruct (check_temperatures_run w self Hf) as (tr0 & E0 & W0 & _).
  rewrite E0 in E. injection E as <- <- <-.
  rewrite W0. unfold after.
  destruct (asked w self) as [b|]; [|left; reflexivity].
  destruct (write_succeeds w b) eqn:Hs.
  - right. exists b. destruct b; rewrite Hs; repeat split.
  - left. destruct b; rewrite Hs; reflexivity.
Qed.

(** C5, where the code departs from it: the monitor without the rights to
    write the cooler boost file, the boost off, CPU at 61.  The write [on]
    fails and the flag stays off, yet line 154 runs all the same and
    [last_coolerboost_enabled_at] moves from 0 to the clock of the cycle. *)
Theorem failed_enable_moves_the_stamp :
  let w := Sample.around (Sample.laptop "61" "50" "off" false) (of_int 1000) in
  let self' := snd (fst (check_temperatures w Sample.idle)) in
  write_succeeds w true = false
  /\ boost_writes (snd (check_temperatures w Sample.idle)) = [true]
  /\ cooler_boost_enabled Sample.idle = false
  /\ cooler_boost_enabled self' = false
  /\ last_coolerboost_enabled_at Sample.idle = S754_zero false
  /\ last_coolerboost_enabled_at self' = of_int 1000.
Proof. vm_compute. repeat split. Qed.

(** C6: the ties.  A present reading equal to its threshold does not
    trigger the enabling: with the boost off and the other reading not over
    its threshold, the cycle asks for no write and the boost stays off.  A
    present reading equal to its threshold less [TEMP_OSCILLATION_FIX] is not
    safe: with the boost on, the cycle asks for no write and the boost stays
    on, whatever the clock. *)
Theorem ties_keep_the_state w self :
  fault w = None ->
  forall r self' tr,
    check_temperatures w self = (r, self', tr) ->
    (cooler_boost_enabled self = false ->
     (equals (reading w "cpu") CPU_TEMP_THRESHOLD = true
      /\ above (reading w "gpu") GPU_TEMP_THRESHOLD = false)
     \/ (equals (reading w "gpu") GPU_TEMP_THRESHOLD = true
         /\ above (reading w "cpu") CPU_TEMP_THRESHOLD = false) ->
     boost_writes tr = [] /\ decision self tr = false /\ self' = self)
    /\ (cooler_boost_enabled self = true ->
        equals (reading w "cpu") (CPU_TEMP_THRESHOLD - TEMP_OSCILLATION_FIX) = true
        \/ equals (reading w "gpu") (GPU_TEMP_THRESHOLD - TEMP_OSCILLATION_FIX) = true ->
        boost_writes tr = [] /\ decision self tr = true /\ self' = self).
Proof.
  intros Hf r self' tr E.
  destruct (check_temperatures_run w self Hf) as (tr0 & E0 & W0 & _).
  rewrite E0 in E. injection E as <- <- <-.
  assert (Hnone : asked w self = None ->
                  boost_writes tr0 = []
                  /\ decision self tr0 = cooler_boost_enabled self
                  /\ after w self = self).
  { intros Ha. rewrite (decision_of_writes _ _ _ W0), W0. unfold after.
    rewrite Ha. repeat split. }
  split.
  - intros En Htie. rewrite <- En. apply Hnone.
    unfold asked, should_enable. rewrite En.
    assert (Hc : above (reading w "cpu") CPU_TEMP_THRESHOLD = false).
    { destruct Htie as [[H _]|[_ H]]; [|exact H].
      destruct (reading w "cpu"); [|reflexivity]. now apply eq_int_not_gt. }
    assert (Hg : above (reading w "gpu") GPU_TEMP_THRESHOLD = false).
    { destruct Htie as [[_ H]|[H _]]; [exact H|].
      destruct (reading w "gpu"); [|reflexivity]. now apply eq_int_not_gt. }
    rewrite Hc, Hg.
    destruct (reading w "cpu"), (reading w "gpu"); reflexivity.
  - intros En Htie. rewrite <- En. apply Hnone.
    unfold asked, should_enable. rewrite En.
    assert (Hs : safe (reading w "cpu") (CPU_TEMP_THRESHOLD - TEMP_OSCILLATION_FIX)
                 && safe (reading w "gpu") (GPU_TEMP_THRESHOLD - TEMP_OSCILLATION_FIX)
                 = false).
    { destruct Htie as [H|H].
      - destruct (reading w "cpu"); [|discriminate H].
        simpl in H |- *. now rewrite (eq_int_not_lt _ _ H).
      - destruct (reading w "gpu"); [|discriminate H].
        simpl in H |- *. rewrite (eq_int_not_lt _ _ H). apply andb_false_r. }
    rewrite Hs. cbn [negb andb]. rewrite !orb_true_r. cbn [negb andb].
    destruct Htie as [H|H];
      destruct (reading w "cpu"), (reading w "gpu"); try reflexivity;
      discriminate H.
Qed.

(** CPU exactly at 60 with the boost off, and CPU exactly at 55 with the
    boost on since long. *)
Lemma ties_keep_the_state_witness :
  let at60 := Sample.around (Sample.laptop "60" "50" "off" true) (of_int 1000) in
  let at55 := Sample.around (Sample.laptop "55" "50" "on" true) (of_int 1000) in
  let on := Sample.boosting (of_int 10) in
  equals (reading at60 "cpu") CPU_TEMP_THRESHOLD = true
  /\ boost_writes (snd (check_temperatures at60 Sample.idle)) = []
  /\ equals (reading at55 "cpu") (CPU_TEMP_THRESHOLD - TEMP_OSCILLATION_FIX) = true
  /\ boost_writes (snd (check_temperatures at55 on)) = [].
Proof.
  intros at60 at55 on.
  split; [reflexivity|]. split; [|split; [reflexivity|]].
  - apply (proj1 (ties_keep_the_state at60 Sample.idle eq_refl _ _ _
                    (triple_eta (check_temperatures at60 Sample.idle)))
             eq_refl (or_introl (conj eq_refl eq_refl))).
  - apply (proj2 (ties_keep_the_state at55 on eq_refl _ _ _
                    (triple_eta (check_temperatures at55 on)))
             eq_refl (or_introl eq_refl)).
Defined.

(** ** The monitor loop and its start *)

Lemma running_after w self : running (after w self) = running self.
Proof.
  unfold after. destruct (asked w self) as [[|]|]; try reflexivity;
    destruct (write_succeeds w _); reflexivity.
Qed.

(** A turn of the loop never raises: it ends in the one sleep it makes, with
    [running] as it was; when the cycle raised, the object is as it was and
    the error was logged. *)
Lemma poll_run w self :
  exists self' tr,
    poll w self = (inr tt, self', tr ++ [Slept CHECK_INTERVAL])
    /\ running self' = running self
    /\ naps tr = 0%nat
    /\ forall e, fault w = Some e ->
                 self' = self /\ tr = [Logged ERROR (ErrorInLoop e)].
Proof.
  destruct (fault w) as [e|] eqn:Hf.
  - exists self, [Logged ERROR (ErrorInLoop e)]. repeat split.
    + unfold poll, check_temperatures. run_M. rewrite Hf. reflexivity.
    + now injection H as <-.
  - destruct (check_temperatures_run w self Hf) as (tr & E & _ & N).
    exists (after w self), tr. split; [|split; [|split]].
    + unfold poll. run_M. rewrite E. reflexivity.
    + apply running_after.
    + exact N.
    + discriminate.
Qed.

(** No raise leaves the loop, and it returns only when [running] was false
    at the start or [stop] cleared it. *)
Lemma while_running_ends (turns : list turn) :
  forall self p self' tr,
    while_running turns self = (p, self', tr) ->
    (forall r, p <> Left r)
    /\ (p = Returned -> running self = false \/ Exists (fun t => stopped t = true) turns).
Proof.
  induction turns as [|t rest IH]; intros self p self' tr; simpl.
  - intros [= <- <- <-]. destruct (running self); split; try discriminate; auto.
  - destruct (stopped t) eqn:St.
    + simpl. intros [= <- <- <-]. split; [discriminate|]. intros _. right.
      apply Exists_cons_hd. exact St.
    + destruct (running self) eqn:Rn.
      * destruct (poll_run (outside t) self) as (s1 & tr1 & E1 & R1 & _).
        rewrite E1.
        destruct (while_running rest s1) as [[p2 s2] tr2] eqn:E2.
        intros [= <- <- <-].
        destruct (IH _ _ _ _ E2) as [Hl Hr]. split; [exact Hl|].
        intros Hp. destruct (Hr Hp) as [H|H].
        -- rewrite R1, Rn in H. discriminate H.
        -- right. apply Exists_cons_tl. exact H.
      * intros [= <- <- <-]. split; [discriminate|]. auto.
Qed.

(** While [stop] is not called the loop goes on, turn after turn, whatever
    the cycles raise. *)
Lemma while_running_goes_on (turns : list turn) :
  forall self,
    running self = true ->
    Forall unstopped turns ->
    exists self' tr,
      while_running turns self = (Looping, self', tr)
      /\ running self' = true
      /\ naps tr = List.length turns
      /\ forall t e, In t turns -> fault (outside t) = Some e ->
                     In (Logged ERROR (ErrorInLoop e)) tr.
Proof.
  induction turns as [|t rest IH]; intros self Rn Hu; simpl.
  - exists self, []. rewrite Rn. repeat split. intros t e [].
  - inversion Hu as [|t' rest' St Hrest]; subst.
    unfold unstopped in St. rewrite St, Rn.
    destruct (poll_run (outside t) self) as (s1 & tr1 & E1 & R1 & N1 & F1).
    rewrite E1.
    destruct (IH s1 (eq_trans R1 Rn) Hrest) as (s2 & tr2 & E2 & R2 & N2 & L2).
    rewrite E2. exists s2, ((tr1 ++ [Slept CHECK_INTERVAL]) ++ tr2).
    split; [reflexivity|]. split; [exact R2|]. split.
    + rewrite !naps_app, N1, N2. reflexivity.
    + intros t0 e [<-|Hin] Hf.
      * destruct (F1 e Hf) as [_ ->]. apply in_or_app. left.
        apply in_or_app. left. left. reflexivity.
      * apply in_or_app. right. exact (L2 t0 e Hin Hf).
Qed.

(** C7: no exception raised within a poll cycle ends the monitor loop or
    changes [running].  A cycle that raises leaves the object as it was, the
    error is logged and the loop sleeps; no raise ever leaves the loop; the
    loop returns only if [running] was false when it started or [stop]
    cleared it; and as long as [stop] is not called the loop is still looping
    after any number of turns, [running] still true, with one sleep a turn
    and the error of every cycle that raised in the log. *)
Theorem loop_survives_cycle_errors (turns : list turn) self :
  (forall w s e,
      fault w = Some e ->
      poll w s = (inr tt, s, [Logged ERROR (ErrorInLoop e); Slept CHECK_INTERVAL]))
  /\ forall p self' tr,
      monitor_loop turns self = (p, self', tr) ->
      (forall r, p <> Left r)
      /\ (p = Returned ->
          running self = false \/ Exists (fun t => stopped t = true) turns)
      /\ (running self = true ->
          Forall unstopped turns ->
          p = Looping
          /\ running self' = true
          /\ naps tr = List.length turns
          /\ forall t e, In t turns -> fault (outside t) = Some e ->
                         In (Logged ERROR (ErrorInLoop e)) tr).
Proof.
  split.
  - intros w s e Hf.
    destruct (poll_run w s) as (s1 & tr1 & E1 & _ & _ & F1).
    destruct (F1 e Hf) as [-> ->]. exact E1.
  - intros p self' tr. unfold monitor_loop.
    destruct (while_running turns self) as [[p0 s0] tr0] eqn:E.
    intros [= <- <- <-].
    destruct (while_running_ends turns _ _ _ _ E) as [Hl Hr].
    split; [exact Hl|]. split; [exact Hr|].
    intros Rn Hu.
    destruct (while_running_goes_on turns self Rn Hu) as (s1 & tr1 & E1 & R1 & N1 & L1).
    rewrite E1 in E. injection E as <- <- <-.
    repeat split; try assumption.
    intros t e Hin Hf. right. right. right. exact (L1 t e Hin Hf).
Qed.

(** Three turns, the second of which raises. *)
Lemma loop_survives_cycle_errors_witness :
  let calm := Sample.around (Sample.laptop "45" "40" "off" true) (of_int 1000) in
  let turns := [ {| stopped := false; outside := calm |};
                 {| stopped := false; outside := Sample.faulty (Other "boom") |};
                 {| stopped := false; outside := calm |} ] in
  fst (fst (monitor_loop turns Sample.idle)) = Looping
  /\ naps (snd (monitor_loop turns Sample.idle)) = 3%nat.
Proof.
  intros calm turns.
  destruct (proj2 (loop_survives_cycle_errors turns Sample.idle) _ _ _
              (triple_eta (monitor_loop turns Sample.idle)))
    as (_ & _ & H).
  destruct (H eq_refl) as (Hp & _ & Hn & _).
  - repeat constructor.
  - split; [exact Hp | exact Hn].
Defined.

(** On a monitor that is running already [start] checks nothing: it logs
    a warning, returns [None] and leaves the object as it is. *)
Lemma start_when_running w self :
  running self = true ->
  start w self = (inr None, self, [Logged WARNING AlreadyRunning]).
Proof. intros Rn. unfold start. run_M. rewrite Rn. reflexivity. Qed.

(** C8: [start] on a monitor that is not running.  If the main script is
    missing or unreadable, [start] returns [False], leaves the object as it
    was ([running] stays false) and starts no thread, its one effect being the
    error it logs; if the script is there and readable, [start] returns
    [True] with [running] true and the thread of the monitor loop started,
    and that loop is polling. *)
Theorem start_checks_the_script w self :
  running self = false ->
  (script_exists w && script_readable w = false ->
   exists e,
     start w self = (inr (Some false), self, [Logged ERROR (StartupError e)]))
  /\ (script_exists w && script_readable w = true ->
      exists self',
        start w self = (inr (Some true), self', [ThreadStarted; Logged INFO MonitorStarted])
        /\ running self' = true
        /\ forall turns, Forall unstopped turns ->
                         fst (fst (monitor_loop turns self')) = Looping).
Proof.
  intros Rn. split.
  - intros Hs. unfold start, check_main_script. run_M. rewrite Rn. cbv beta iota.
    destruct (script_exists w); [destruct (script_readable w); [discriminate Hs|]|];
      cbn [negb]; cbv beta iota; eexists; reflexivity.
  - intros Hs. apply andb_true_iff in Hs as [He Hr].
    exists (set_monitor_thread (set_running true self)). split; [|split].
    + unfold start, check_main_script. run_M. rewrite Rn, He, Hr. reflexivity.
    + reflexivity.
    + intros turns Hu. unfold monitor_loop.
      destruct (while_running_goes_on turns
                  (set_monitor_thread (set_running true self)) eq_refl Hu)
        as (s1 & tr1 & E1 & _).
      rewrite E1. reflexivity.
Qed.

Lemma start_checks_the_script_witness :
  fst (fst (start Sample.scriptless (init "/opt/msi"))) = inr (Some false)
  /\ running (snd (fst (start Sample.scriptless (init "/opt/msi")))) = false
  /\ fst (fst (start (Sample.silent (S754_zero false)) (init "/opt/msi"))) = inr (Some true).
Proof.
  destruct (proj1 (start_checks_the_script Sample.scriptless (init "/opt/msi") eq_refl) eq_refl)
    as [e E].
  destruct (proj2 (start_checks_the_script (Sample.silent (S754_zero false)) (init "/opt/msi") eq_refl)
              eq_refl) as (s & E' & _).
  rewrite E, E'. repeat split.
Defined.

(** ** The binary64 of a decimal literal *)

(** The number of binary digits of a positive number. *)
Lemma digits2_pos_bounds (p : positive) :
  2 ^ (Zpos (digits2_pos p) - 1) <= Zpos p < 2 ^ Zpos (digits2_pos p).
Proof.
  induction p as [p IH | p IH |]; cbn [digits2_pos].
  - rewrite Pos2Z.inj_succ.
    replace (Z.succ (Zpos (digits2_pos p)) - 1) with (Z.succ (Zpos (digits2_pos p) - 1)) by lia.
    rewrite !Z.pow_succ_r by lia. lia.
  - rewrite Pos2Z.inj_succ.
    replace (Z.succ (Zpos (digits2_pos p)) - 1) with (Z.succ (Zpos (digits2_pos p) - 1)) by lia.
    rewrite !Z.pow_succ_r by lia. lia.
  - cbn. lia.
Qed.

Lemma Zdigits2_unique (q k : Z) :
  2 ^ (k - 1) <= q < 2 ^ k -> 1 <= k -> Zdigits2 q = k.
Proof.
  intros [Hlo Hhi] Hk.
  assert (Hq : 0 < q) by (pose proof (Z.pow_pos_nonneg 2 (k - 1)); lia).
  destruct q as [|p|p]; try lia. cbn [Zdigits2].
  pose proof (digits2_pos_bounds p) as [Plo Phi].
  set (d := Zpos (digits2_pos p)) in *.
  assert (k - 1 < d).
  { apply (Z.pow_lt_mono_r_iff 2); lia. }
  assert (d - 1 < k).
  { apply (Z.pow_lt_mono_r_iff 2); lia. }
  lia.
Qed.

Lemma Zdigits2_shift (p : positive) (s : Z) :
  0 <= s -> Zdigits2 (Zpos p * 2 ^ s) = Zpos (digits2_pos p) + s.
Proof.
  intros Hs. pose proof (digits2_pos_bounds p) as [Plo Phi].
  apply Zdigits2_unique; [|lia].
  replace (Zpos (digits2_pos p) + s - 1) with ((Zpos (digits2_pos p) - 1) + s) by lia.
  rewrite !Z.pow_add_r by lia.
  pose proof (Z.pow_pos_nonneg 2 s). nia.
Qed.

(** The binary digits of a product: those of the factors together, or one
    less. *)
Lemma digits2_pos_mul (p d : positive) :
  let x := Zpos (digits2_pos (p * d)) - Zpos (digits2_pos d) in
  x = Zpos (digits2_pos p) - 1 \/ x = Zpos (digits2_pos p).
Proof.
  intros x. subst x.
  pose proof (digits2_pos_bounds p) as [Plo Phi].
  pose proof (digits2_pos_bounds d) as [Dlo Dhi].
  pose proof (digits2_pos_bounds (p * d)) as [Mlo Mhi].
  set (a := Zpos (digits2_pos p)) in *.
  set (b := Zpos (digits2_pos d)) in *.
  set (c := Zpos (digits2_pos (p * d))) in *.
  assert (Ha : 1 <= a) by (subst a; lia).
  assert (Hb : 1 <= b) by (subst b; lia).
  rewrite Pos2Z.inj_mul in Mlo, Mhi.
  assert (H1 : 2 ^ ((a - 1) + (b - 1)) < 2 ^ c).
  { rewrite Z.pow_add_r by lia.
    pose proof (Z.pow_pos_nonneg 2 (a - 1)). pose proof (Z.pow_pos_nonneg 2 (b - 1)). nia. }
  assert (H2 : 2 ^ (c - 1) < 2 ^ (a + b)).
  { rewrite Z.pow_add_r by lia. nia. }
  apply Z.pow_lt_mono_r_iff in H1; [|lia|lia].
  apply Z.pow_lt_mono_r_iff in H2; [|lia|lia].
  lia.
Qed.

(** Rounding a number that needs no rounding. *)
Lemma round_exact_fits (neg : bool) (q e : Z) :
  0 < q ->
  fexp prec emax (Zdigits2 q + e) <= e ->
  e <= emax - prec ->
  binary_round_aux prec emax neg q e loc_Exact = S754_finite neg (Z.to_pos q) e.
Proof.
  intros Hq Hf He.
  unfold binary_round_aux, shr_fexp.
  assert (Hshr : forall mrs, shr mrs e (fexp prec emax (Zdigits2 q + e) - e) = (mrs, e)).
  { intros mrs. unfold shr.
    destruct (fexp prec emax (Zdigits2 q + e) - e) eqn:Hn; try reflexivity. lia. }
  rewrite Hshr. cbn [shr_record_of_loc shr_m loc_of_shr_record round_nearest_even].
  rewrite Hshr. cbn [shr_record_of_loc shr_m].
  destruct q as [|m|m]; try lia.
  apply Z.leb_le in He. rewrite He. reflexivity.
Qed.

(** Rounding a number with one binary digit too many, the last one 0. *)
Lemma round_exact_even (neg : bool) (q e : Z) :
  0 < q ->
  fexp prec emax (Zdigits2 (2 * q) + e) = e + 1 ->
  e + 1 <= emax - prec ->
  binary_round_aux prec emax neg (2 * q) e loc_Exact
  = S754_finite neg (Z.to_pos q) (e + 1).
Proof.
  intros Hq Hf He.
  destruct q as [|m|m]; try lia.
  change (2 * Zpos m) with (Zpos m~0) in *.
  unfold binary_round_aux, shr_fexp.
  rewrite Hf. replace (e + 1 - e) with 1 by lia.
  cbn [shr shr_record_of_loc iter_pos shr_1 orb shr_m loc_of_shr_record round_nearest_even].
  assert (Hd : Zdigits2 (Zpos m) + (e + 1) = Zdigits2 (Zpos m~0) + e).
  { cbn [Zdigits2 digits2_pos]. rewrite Pos2Z.inj_succ. lia. }
  rewrite Hd, Hf. replace (e + 1 - (e + 1)) with 0 by lia.
  cbn [shr shr_m].
  apply Z.leb_le in He. rewrite He. reflexivity.
Qed.

Lemma div_eucl_mul (a b : Z) : 0 < b -> Z.div_eucl (a * b) b = (a, 0).
Proof.
  intros Hb.
  pose proof (Z.div_mul a b ltac:(lia)) as Hq.
  pose proof (Z.mod_mul a b ltac:(lia)) as Hr.
  unfold Z.div, Z.modulo in Hq, Hr.
  destruct (Z.div_eucl (a * b) b) as [q r]. congruence.
Qed.

(** The quotient the division takes when the denominator divides the
    numerator and the result has at most 54 binary digits: the result itself,
    moved left to 53 or 54 digits, and nothing lost. *)
Lemma div_core_exact (p d : positive) :
  Zpos p <= 2 ^ 53 ->
  let s := Z.max 0 (53 - (Zpos (digits2_pos (p * d)) - Zpos (digits2_pos d))) in
  SFdiv_core_binary prec emax (Zpos (p * d)) 0 (Zpos d) 0
  = (Zpos p * 2 ^ s, - s, loc_Exact).
Proof.
  intros Hp s.
  pose proof (digits2_pos_mul p d) as Hx. cbv zeta in Hx.
  set (x := Zpos (digits2_pos (p * d)) - Zpos (digits2_pos d)) in *.
  assert (Hx0 : 0 <= x) by lia.
  unfold SFdiv_core_binary. cbn [Zdigits2]. rewrite !Z.add_0_r.
  fold x.
  assert (He : Z.min (fexp prec emax x) (0 - 0) = - s).
  { unfold fexp, emin, prec, emax. subst s. lia. }
  rewrite He. replace (0 - 0 - - s) with s by lia.
  assert (Hs : 0 <= s) by (subst s; lia).
  assert (Hm : match s with
               | 0 => Zpos (p * d)
               | Zpos _ => Z.shiftl (Zpos (p * d)) s
               | Zneg _ => 0
               end = (Zpos p * 2 ^ s) * Zpos d).
  { destruct s as [|s'|s'] eqn:Es; [| |lia].
    - rewrite Pos2Z.inj_mul, Z.pow_0_r. ring.
    - rewrite Z.shiftl_mul_pow2 by lia. rewrite Pos2Z.inj_mul. ring. }
  rewrite Hm, div_eucl_mul by lia.
  unfold new_location, new_location_even, new_location_odd.
  destruct (Z.even (Zpos d)); reflexivity.
Qed.

(** A literal that denotes a whole number of at most 2^53 is converted to
    that number exactly. *)
Lemma of_ratio_exact (neg : bool) (p d : positive) :
  Zpos p <= 2 ^ 53 ->
  eq_int (of_ratio neg (p * d) d) (cond_Zopp neg (Zpos p)) = true.
Proof.
  intros Hp. unfold of_ratio.
  pose proof (div_core_exact p d Hp) as Hc. cbv zeta in Hc. rewrite Hc. clear Hc.
  pose proof (digits2_pos_mul p d) as Hx. cbv zeta in Hx.
  set (x := Zpos (digits2_pos (p * d)) - Zpos (digits2_pos d)) in *.
  pose proof (digits2_pos_bounds p) as [Plo Phi].
  set (a := Zpos (digits2_pos p)) in *.
  assert (Ha1 : 1 <= a) by (subst a; lia).
  assert (Ha54 : a <= 54).
  { assert (a - 1 < 54); [|lia]. apply (Z.pow_lt_mono_r_iff 2); lia. }
  set (s := Z.max 0 (53 - x)).
  assert (Hs : 0 <= s) by (subst s; lia).
  assert (Hd : Zdigits2 (Zpos p * 2 ^ s) = a + s) by (apply Zdigits2_shift; exact Hs).
  assert (Hpow : 0 < 2 ^ s) by (apply Z.pow_pos_nonneg; lia).
  assert (Hfin : forall m e,
             0 < m ->
             m * 2 ^ (Z.max e 0) = Zpos p * 2 ^ (Z.max (- e) 0) ->
             eq_int (S754_finite neg (Z.to_pos m) e) (cond_Zopp neg (Zpos p)) = true).
  { intros m e Hm Hv. unfold eq_int, compare_int.
    rewrite Z2Pos.id by exact Hm.
    destruct (0 <=? e) eqn:Hle.
    - apply Z.leb_le in Hle.
      replace (Z.max e 0) with e in Hv by lia.
      replace (Z.max (- e) 0) with 0 in Hv by lia.
      rewrite Z.pow_0_r, Z.mul_1_r in Hv.
      replace (cond_Zopp neg m * 2 ^ e) with (cond_Zopp neg (Zpos p)).
      + rewrite Z.compare_refl. reflexivity.
      + rewrite <- Hv. destruct neg; cbn [cond_Zopp]; lia.
    - apply Z.leb_gt in Hle.
      replace (Z.max e 0) with 0 in Hv by lia.
      replace (Z.max (- e) 0) with (- e) in Hv by lia.
      rewrite Z.pow_0_r, Z.mul_1_r in Hv.
      replace (cond_Zopp neg (Zpos p) * 2 ^ (- e)) with (cond_Zopp neg m).
      + rewrite Z.compare_refl. reflexivity.
      + rewrite Hv. destruct neg; cbn [cond_Zopp]; lia. }
  destruct (Z.eq_dec (a + s) 53) as [E53|N53].
  - (* 53 digits: nothing to round *)
    rewrite round_exact_fits.
    + apply Hfin; [lia|].
      replace (Z.max (- s) 0) with 0 by lia.
      replace (Z.max (- - s) 0) with s by lia. lia.
    + lia.
    + rewrite Hd. unfold fexp, emin, prec, emax. lia.
    + unfold prec, emax. lia.
  - (* 54 digits, the last one 0 *)
    assert (E54 : a + s = 54) by (subst s; lia).
    assert (Hev : exists h, 0 < h /\ Zpos p * 2 ^ s = 2 * h).
    { destruct (Z.eq_dec s 0) as [S0|S0].
      - exists (2 ^ 52). split; [lia|].
        rewrite S0, Z.pow_0_r, Z.mul_1_r.
        assert (a = 54) by lia.
        assert (2 ^ 53 <= Zpos p).
        { replace 53 with (a - 1) by lia. exact Plo. }
        change (2 * 2 ^ 52) with (2 ^ 53). lia.
      - exists (Zpos p * 2 ^ (s - 1)). split.
        + pose proof (Z.pow_pos_nonneg 2 (s - 1)). nia.
        + replace s with (Z.succ (s - 1)) at 1 by lia.
          rewrite Z.pow_succ_r by lia. lia. }
    destruct Hev as (h & Hh & Eh). rewrite Eh.
    rewrite round_exact_even.
    + apply Hfin; [exact Hh|].
      destruct (Z.eq_dec s 0) as [S0|S0].
      * rewrite S0 in *. cbn [Z.opp Z.add Z.max Z.compare].
        replace (Z.max (- (0 + 1)) 0) with 0 by lia.
        replace (Z.max (0 + 1) 0) with 1 by lia.
        rewrite Z.pow_0_r, Z.pow_1_r in *. lia.
      * replace (Z.max (- s + 1) 0) with 0 by lia.
        replace (Z.max (- (- s + 1)) 0) with (s - 1) by lia.
        rewrite Z.pow_0_r, Z.mul_1_r.
        assert (Zpos p * 2 ^ s = 2 * (Zpos p * 2 ^ (s - 1))).
        { replace s with (Z.succ (s - 1)) at 1 by lia.
          rewrite Z.pow_succ_r by lia. lia. }
        lia.
    + exact Hh.
    + rewrite <- Eh, Hd, E54. unfold fexp, emin, prec, emax. lia.
    + unfold prec, emax. lia.
Qed.

(** ** The text of a temperature, printed and read back *)

#[local] Open Scope string_scope.

Lemma isdigit_cases (c : ascii) :
  PyStr.isdigit c = true ->
  (c = "0" \/ c = "1" \/ c = "2" \/ c = "3" \/ c = "4"
   \/ c = "5" \/ c = "6" \/ c = "7" \/ c = "8" \/ c = "9")%char.
Proof.
  destruct c as [[|] [|] [|] [|] [|] [|] [|] [|]]; cbv; intros H;
    try discriminate H; tauto.
Qed.

(** Case analysis on the first character of a run of digits. *)
Ltac first_digit H :=
  apply andb_true_iff in H as [?Hc ?Hs];
  match goal with
  | Hc : PyStr.isdigit ?c = true |- _ =>
      apply isdigit_cases in Hc;
      destruct Hc as [-> | [-> | [-> | [-> | [-> | [-> | [-> | [-> | [-> | ->]]]]]]]]]
  end.

Lemma string_of_uint_digits (d : Decimal.uint) :
  PyStr.every PyStr.isdigit (NilEmpty.string_of_uint d) = true.
Proof. induction d; cbn; auto. Qed.

Lemma append_assoc (a b c : string) : (a ++ b) ++ c = a ++ (b ++ c).
Proof. induction a as [|x a IH]; cbn; [reflexivity | now rewrite IH]. Qed.

Lemma append_empty (a : string) : a ++ EmptyString = a.
Proof. induction a as [|x a IH]; cbn; [reflexivity | now rewrite IH]. Qed.

Lemma length_app (a b : string) : length (a ++ b) = (length a + length b)%nat.
Proof. induction a as [|x a IH]; cbn; [reflexivity | now rewrite IH]. Qed.

Lemma every_app (p : ascii -> bool) (a b : string) :
  PyStr.every p (a ++ b) = PyStr.every p a && PyStr.every p b.
Proof.
  induction a as [|x a IH]; cbn [append PyStr.every]; [reflexivity|].
  rewrite IH. apply andb_assoc.
Qed.

Lemma every_impl (p q : ascii -> bool) (s : string) :
  (forall c, p c = true -> q c = true) ->
  PyStr.every p s = true -> PyStr.every q s = true.
Proof.
  intros Hpq. induction s as [|c s IH]; [reflexivity|].
  cbn [PyStr.every]. intros H. apply andb_true_iff in H as [Hc Hs].
  rewrite (Hpq c Hc), (IH Hs). reflexivity.
Qed.

(** *** Characters of ASCII and the texts made of them *)

(** A character of a number printed in ASCII: a digit, a sign, a point. *)
Lemma numeric_cases (c : ascii) :
  Text.numeric c = true ->
  PyStr.one c = true
  /\ PyStr.isspace (PyStr.byte c) = false
  /\ PyStr.Py_ISSPACE c = false
  /\ Ascii.eqb c "_" = false
  /\ Ascii.eqb c "013" = false
  /\ Ascii.eqb c ":" = false.
Proof.
  destruct c as [[|] [|] [|] [|] [|] [|] [|] [|]]; cbv; intros H;
    try discriminate H; repeat split.
Qed.

Lemma digit_is_numeric (c : ascii) : PyStr.isdigit c = true -> Text.numeric c = true.
Proof.
  intros H. unfold Text.numeric. rewrite H. reflexivity.
Qed.

Lemma one_not_continuation (c : ascii) :
  PyStr.one c = true -> PyStr.continuation c = false.
Proof.
  unfold PyStr.one, PyStr.continuation. intros H. apply N.ltb_lt in H.
  destruct (128 <=? PyStr.byte c)%N eqn:E; [|reflexivity].
  apply N.leb_le in E. lia.
Qed.

Lemma one_not_two (a b : ascii) : PyStr.one a = true -> PyStr.two a b = false.
Proof.
  unfold PyStr.one, PyStr.two. intros H. apply N.ltb_lt in H.
  destruct (194 <=? PyStr.byte a)%N eqn:E; [|reflexivity].
  apply N.leb_le in E. lia.
Qed.

Lemma one_not_three (a b c : ascii) : PyStr.one a = true -> PyStr.three a b c = false.
Proof.
  unfold PyStr.one, PyStr.three. intros H. apply N.ltb_lt in H.
  destruct (224 <=? PyStr.byte a)%N eqn:E; [|reflexivity].
  apply N.leb_le in E. lia.
Qed.

(** *** What stripping leaves alone *)

Lemma lstrip_plain (a : ascii) (t : string) :
  PyStr.one a = true -> PyStr.isspace (PyStr.byte a) = false ->
  PyStr.lstrip (String a t) = String a t.
Proof.
  intros H1 H2. cbn [PyStr.lstrip]. rewrite H1, H2. cbn [andb].
  destruct t as [|b u]; [reflexivity|]. rewrite (one_not_two a b H1). cbn [andb].
  destruct u as [|c v]; [reflexivity|]. rewrite (one_not_three a b c H1). reflexivity.
Qed.

Lemma closed_app (s t : string) :
  t <> EmptyString -> Text.closed (s ++ t) = Text.closed t.
Proof.
  intros Ht. induction s as [|a s IH]; [reflexivity|].
  cbn [append Text.closed]. destruct (s ++ t) eqn:E; [|exact IH].
  destruct s; cbn in E; [contradiction | discriminate E].
Qed.

Lemma rstrip_cons (a : ascii) (t : string) :
  Text.closed (PyStr.rstrip t) = true ->
  PyStr.rstrip (String a t) = String a (PyStr.rstrip t).
Proof.
  intros H. cbn [PyStr.rstrip].
  destruct (PyStr.rstrip t) as [|b [|c [|d r]]]; [discriminate H| | |reflexivity].
  - cbn [Text.closed] in H. apply andb_true_iff in H as [H _].
    unfold PyStr.two. rewrite (one_not_continuation b H), andb_false_r. reflexivity.
  - cbn [Text.closed] in H. apply andb_true_iff in H as [H _].
    unfold PyStr.three. rewrite (one_not_continuation c H), andb_false_r. reflexivity.
Qed.

Lemma rstrip_closed (s : string) : Text.closed s = true -> PyStr.rstrip s = s.
Proof.
  induction s as [|a t IH]; [discriminate|]. intros H. destruct t as [|b u].
  - cbn [Text.closed] in H. apply andb_true_iff in H as [H1 H2].
    apply negb_true_iff in H2. cbn [PyStr.rstrip]. rewrite H1, H2. reflexivity.
  - change (Text.closed (String b u) = true) in H.
    rewrite rstrip_cons; rewrite (IH H); [reflexivity | exact H].
Qed.

Lemma rstrip_eol (s : string) : PyStr.rstrip (s ++ Cli.eol) = PyStr.rstrip s.
Proof.
  induction s as [|c s IH]; [reflexivity|].
  cbn [append PyStr.rstrip]. rewrite IH. reflexivity.
Qed.

Lemma ascii_form_plain (s : string) :
  PyStr.every PyStr.one s = true -> PyStr.ascii_form s = s.
Proof.
  induction s as [|c s IH]; [reflexivity|].
  cbn [PyStr.every PyStr.ascii_form]. intros H. apply andb_true_iff in H as [Hc Hs].
  rewrite Hc, (IH Hs). reflexivity.
Qed.

Lemma decode_plain (s : string) :
  PyStr.every PyStr.one s = true -> PyStr.decode s = inr s.
Proof.
  intros H. unfold PyStr.decode.
  assert (E : forall pos, PyStr.decode_from pos s = None).
  { induction s as [|c s IH]; intros pos; [reflexivity|].
    cbn [PyStr.every] in H. apply andb_true_iff in H as [Hc Hs].
    cbn [PyStr.decode_from]. rewrite Hc. apply (IH Hs). }
  rewrite E. reflexivity.
Qed.

Lemma newlines_plain (s : string) :
  PyStr.every (fun c => negb (Ascii.eqb c "013")) s = true -> PyStr.newlines s = s.
Proof.
  induction s as [|c s IH]; [reflexivity|].
  cbn [PyStr.every PyStr.newlines]. intros H. apply andb_true_iff in H as [Hc Hs].
  apply negb_true_iff in Hc. rewrite Hc, (IH Hs). reflexivity.
Qed.

Lemma without_underscores_plain (s : string) :
  PyStr.every (fun c => negb (Ascii.eqb c "_")) s = true ->
  forall prev, Ascii.eqb prev "_" = false ->
               PyStr.without_underscores prev s = Some s.
Proof.
  induction s as [|c s IH]; intros H prev Hp.
  - cbn [PyStr.without_underscores]. rewrite Hp. reflexivity.
  - cbn [PyStr.every] in H. apply andb_true_iff in H as [Hc Hs].
    apply negb_true_iff in Hc. cbn [PyStr.without_underscores].
    rewrite Hc, Hp. cbn [andb]. rewrite (IH Hs c Hc). reflexivity.
Qed.

Lemma ltrim_plain (a : ascii) (t : string) :
  PyStr.Py_ISSPACE a = false -> PyStr.ltrim (String a t) = String a t.
Proof. intros H. cbn [PyStr.ltrim]. rewrite H. reflexivity. Qed.

Lemma Py_ISSPACE_isspace (c : ascii) :
  PyStr.isspace (PyStr.byte c) = false -> PyStr.Py_ISSPACE c = false.
Proof.
  destruct c as [[|] [|] [|] [|] [|] [|] [|] [|]]; cbv; intros H;
    try discriminate H; reflexivity.
Qed.

Lemma rtrim_closed (s : string) : Text.closed s = true -> PyStr.rtrim s = s.
Proof.
  induction s as [|a t IH]; [discriminate|]. intros H. destruct t as [|b u].
  - cbn [Text.closed] in H. apply andb_true_iff in H as [_ H2].
    apply negb_true_iff in H2. cbn [PyStr.rtrim].
    rewrite (Py_ISSPACE_isspace a H2). reflexivity.
  - change (Text.closed (String b u) = true) in H.
    change (PyStr.rtrim (String a (String b u)))
      with (match PyStr.rtrim (String b u) with
            | EmptyString =>
                if PyStr.Py_ISSPACE a then EmptyString else String a EmptyString
            | r => String a r
            end).
    rewrite (IH H). reflexivity.
Qed.

(** *** The pieces of a printed line *)

Lemma split_from_nonempty (sep s : string) :
  forall skip, PyStr.split_from sep skip s <> [].
Proof.
  induction s as [|c s IH]; intros skip; cbn [PyStr.split_from]; [discriminate|].
  destruct skip; [|apply IH].
  destruct (prefix sep (String c s)); [discriminate|].
  destruct (PyStr.split_from sep 0 s); discriminate.
Qed.

Lemma split_from_digits (D t : string) :
  PyStr.every PyStr.isdigit D = true ->
  PyStr.split_from ": " 0 (D ++ t)
  = match PyStr.split_from ": " 0 t with
    | piece :: pieces => (D ++ piece) :: pieces
    | [] => [D]
    end.
Proof.
  induction D as [|c D IH]; intros H.
  - cbn [append]. destruct (PyStr.split_from ": " 0 t) eqn:E; [|reflexivity].
    now apply split_from_nonempty in E.
  - cbn [PyStr.every] in H. first_digit H; cbn [append];
      cbn [PyStr.split_from prefix]; cbv beta iota;
      (destruct (ascii_dec _ _) as [Hd|_]; [discriminate Hd|]);
      rewrite (IH Hs); destruct (PyStr.split_from ": " 0 t); reflexivity.
Qed.

Lemma replace_from_digits (D t : string) :
  PyStr.every PyStr.isdigit D = true ->
  PyStr.replace_from "°C" EmptyString 0 (D ++ t) = D ++ PyStr.replace_from "°C" EmptyString 0 t.
Proof.
  induction D as [|c D IH]; intros H; [reflexivity|].
  cbn [PyStr.every] in H. first_digit H; cbn [append];
    cbn [PyStr.replace_from prefix]; cbv beta iota;
    (destruct (ascii_dec _ _) as [Hd|_]; [discriminate Hd|]);
    rewrite (IH Hs); reflexivity.
Qed.

Lemma cut_exp_digits (D t : string) :
  PyStr.every PyStr.isdigit D = true ->
  cut_exp (D ++ t) = let (a, b) := cut_exp t in (D ++ a, b).
Proof.
  induction D as [|c D IH]; intros H.
  - cbn [append]. destruct (cut_exp t); reflexivity.
  - cbn [PyStr.every] in H. first_digit H; cbn [append cut_exp];
      cbn [Ascii.eqb Bool.eqb orb]; rewrite (IH Hs);
      destruct (cut_exp t); reflexivity.
Qed.

Lemma cut_point_digits (D t : string) :
  PyStr.every PyStr.isdigit D = true ->
  cut_point (D ++ t) = let (a, b) := cut_point t in (D ++ a, b).
Proof.
  induction D as [|c D IH]; intros H.
  - cbn [append]. destruct (cut_point t); reflexivity.
  - cbn [PyStr.every] in H. first_digit H; cbn [append cut_point];
      cbn [Ascii.eqb Bool.eqb]; rewrite (IH Hs);
      destruct (cut_point t); reflexivity.
Qed.

Lemma prefix_empty (s : string) : prefix EmptyString s = true.
Proof. destruct s; reflexivity. Qed.

(** The first separator of a text whose head has no colon. *)
Lemma split_at_first_colon (s t : string) :
  PyStr.every (fun c => negb (Ascii.eqb c ":")) s = true ->
  PyStr.split ": " (s ++ ": " ++ t) = s :: PyStr.split_from ": " 0 t.
Proof.
  unfold PyStr.split. induction s as [|c s IH]; intros H.
  - cbn [append PyStr.split_from prefix]. cbv beta iota.
    destruct (ascii_dec ":" ":") as [_|N]; [|contradiction].
    destruct (ascii_dec " " " ") as [_|N]; [|contradiction].
    rewrite prefix_empty. reflexivity.
  - cbn [PyStr.every] in H. apply andb_true_iff in H as [Hc Hs].
    change (String c s ++ ": " ++ t) with (String c (s ++ ": " ++ t)).
    cbn [PyStr.split_from prefix]. cbv beta iota.
    destruct (ascii_dec ":" c) as [<-|_]; [discriminate Hc|].
    rewrite (IH Hs). reflexivity.
Qed.

(** *** The decimal text of an integer *)

(** The decimal text of an [int]: a minus sign for a negative one, then the
    digits of its absolute value, at least one. *)
Lemma of_int_shape (n : Z) :
  exists D,
    PyStr.of_int n = (if (n <? 0)%Z then "-" else EmptyString) ++ D
    /\ PyStr.every PyStr.isdigit D = true
    /\ D <> EmptyString
    /\ PyStr.digits D = Some (Z.abs n)
    /\ PyStr.of_int (Z.abs n) = D.
Proof.
  assert (Hpos : forall p,
             let D := NilEmpty.string_of_uint (Pos.to_uint p) in
             PyStr.every PyStr.isdigit D = true /\ D <> EmptyString
             /\ PyStr.digits D = Some (Zpos p)).
  { intros p D. subst D. split; [apply string_of_uint_digits|].
    assert (Hne : NilEmpty.string_of_uint (Pos.to_uint p) <> EmptyString).
    { pose proof (DecimalPos.Unsigned.to_uint_nonnil p) as Hn.
      destruct (Pos.to_uint p); try discriminate. contradiction. }
    split; [exact Hne|].
    unfold PyStr.digits.
    destruct (NilEmpty.string_of_uint (Pos.to_uint p)) eqn:E; [contradiction|].
    rewrite <- E, NilEmpty.usu. cbn [option_map]. f_equal.
    unfold Z.of_uint. rewrite DecimalPos.Unsigned.of_to. reflexivity. }
  destruct n as [|p|p].
  - exists "0". repeat split. discriminate.
  - exists (NilEmpty.string_of_uint (Pos.to_uint p)).
    destruct (Hpos p) as (H1 & H2 & H3). repeat split; assumption.
  - exists (NilEmpty.string_of_uint (Pos.to_uint p)).
    destruct (Hpos p) as (H1 & H2 & H3). repeat split; assumption.
Qed.

Lemma of_int_numeric (n : Z) : PyStr.every Text.numeric (PyStr.of_int n) = true.
Proof.
  destruct (of_int_shape n) as (D & E & Hd & _). rewrite E, every_app.
  rewrite (every_impl _ _ D digit_is_numeric Hd).
  destruct (n <? 0)%Z; reflexivity.
Qed.

Lemma of_int_closed (n : Z) : Text.closed (PyStr.of_int n) = true.
Proof.
  destruct (of_int_shape n) as (D & E & Hd & Hne & _). rewrite E.
  rewrite (closed_app _ D Hne). clear E.
  induction D as [|c D IH]; [contradiction|].
  cbn [PyStr.every] in Hd. destruct D as [|d D].
  - first_digit Hd; reflexivity.
  - apply andb_true_iff in Hd as [_ Hd]. apply IH; [exact Hd | discriminate].
Qed.

Lemma of_int_head (n : Z) :
  exists c t, PyStr.of_int n = String c t /\ Text.numeric c = true.
Proof.
  pose proof (of_int_numeric n) as H.
  destruct (of_int_shape n) as (D & E & _ & Hne & _).
  destruct (PyStr.of_int n) as [|c t] eqn:Ho.
  - destruct (n <? 0)%Z; [discriminate E|]. cbn in E. now subst D.
  - cbn [PyStr.every] in H. apply andb_true_iff in H as [Hc _]. now exists c, t.
Qed.

Lemma format_int_bounded (n : Z) :
  (length (PyStr.of_int (Z.abs n)) <= PyStr.MAX_STR_DIGITS)%nat ->
  PyStr.format_int n = Some (PyStr.of_int n).
Proof.
  intros H. unfold PyStr.format_int. apply Nat.ltb_ge in H. rewrite H. reflexivity.
Qed.

Lemma string_of_uint_length (u : Decimal.uint) :
  length (NilEmpty.string_of_uint u) = Decimal.nb_digits u.
Proof. induction u; cbn; auto. Qed.

(** The decimal text of a number is its shortest: no run of digits that
    writes it has fewer of them. *)
Lemma digits_length (D : string) (m : Z) :
  PyStr.digits D = Some m ->
  (0 <= m)%Z /\ (length (PyStr.of_int m) <= length D)%nat.
Proof.
  unfold PyStr.digits. destruct D as [|c D]; [discriminate|].
  destruct (NilEmpty.uint_of_string (String c D)) as [u|] eqn:E; [|discriminate].
  cbn [option_map]. intros [= <-].
  pose proof (NilEmpty.sus _ _ E) as Hs.
  assert (Hu : u <> Decimal.Nil) by (intros ->; discriminate Hs).
  unfold Z.of_uint. split; [apply N2Z.is_nonneg|].
  assert (Ht : Z.to_int (Z.of_N (Pos.of_uint u)) = Decimal.Pos (N.to_uint (Pos.of_uint u))).
  { destruct (Pos.of_uint u); reflexivity. }
  unfold PyStr.of_int. rewrite Ht, DecimalPos.Unsigned.to_of.
  cbn [NilEmpty.string_of_int]. rewrite string_of_uint_length.
  rewrite <- Hs, string_of_uint_length.
  apply DecimalFacts.nb_digits_unorm. exact Hu.
Qed.

(** What [int] gives, [str] takes: the limit on the digits is the same. *)
Lemma to_int_bounded (s : string) (n : Z) :
  PyStr.to_int s = Some n ->
  (length (PyStr.of_int (Z.abs n)) <= PyStr.MAX_STR_DIGITS)%nat.
Proof.
  unfold PyStr.to_int. destruct (PyStr.sign _) as [neg body].
  destruct (PyStr.without_underscores _ body) as [D|]; [|discriminate].
  destruct (PyStr.MAX_STR_DIGITS <? length D)%nat eqn:Hl; [discriminate|].
  apply Nat.ltb_ge in Hl.
  destruct (PyStr.digits D) as [m|] eqn:Hd; [|discriminate].
  cbn [option_map]. intros [= <-].
  destruct (digits_length D m Hd) as [Hm Hlen].
  replace (Z.abs (if neg then - m else m)) with m by (destruct neg; lia).
  lia.
Qed.

(** [int(str(n)) == n] up to the limit on the digits, and no further. *)
Lemma to_int_of_int (n : Z) :
  PyStr.to_int (PyStr.of_int n)
  = if (PyStr.MAX_STR_DIGITS <? length (PyStr.of_int (Z.abs n)))%nat then None
    else Some n.
Proof.
  pose proof (of_int_numeric n) as Hnum. pose proof (of_int_closed n) as Hcl.
  destruct (of_int_head n) as (c & t & Ho & Hc).
  destruct (numeric_cases c Hc) as (_ & _ & Hsp & _).
  unfold PyStr.to_int.
  rewrite ascii_form_plain
    by (apply (every_impl Text.numeric); [intros x Hx; apply (numeric_cases x Hx) | exact Hnum]).
  rewrite Ho, ltrim_plain by exact Hsp. rewrite <- Ho, rtrim_closed by exact Hcl.
  destruct (of_int_shape n) as (D & E & Hd & Hne & Ha & Habs). rewrite E, Habs.
  assert (Hsign : PyStr.sign ((if (n <? 0)%Z then "-" else EmptyString) ++ D)
                  = ((n <? 0)%Z, D)).
  { destruct (n <? 0)%Z; [reflexivity|]. cbn [append].
    destruct D as [|d D]; [contradiction|].
    cbn [PyStr.every] in Hd. first_digit Hd; reflexivity. }
  rewrite Hsign.
  rewrite without_underscores_plain; [| |reflexivity].
  - destruct (PyStr.MAX_STR_DIGITS <? length D)%nat; [reflexivity|].
    rewrite Ha. cbn [option_map]. f_equal.
    destruct (n <? 0)%Z eqn:Hn; [apply Z.ltb_lt in Hn | apply Z.ltb_ge in Hn]; lia.
  - apply (every_impl PyStr.isdigit); [|exact Hd].
    intros x Hx. apply digit_is_numeric in Hx.
    destruct (numeric_cases x Hx) as (_ & _ & _ & Hu & _). rewrite Hu. reflexivity.
Qed.

(** A text that is a number printed in ASCII, then a newline: what reading
    it in text mode and stripping give. *)
Lemma read_of_int (n : Z) :
  PyStr.decode (PyStr.of_int n ++ Cli.eol) = inr (PyStr.of_int n ++ Cli.eol)
  /\ PyStr.strip (PyStr.newlines (PyStr.of_int n ++ Cli.eol)) = PyStr.of_int n.
Proof.
  pose proof (of_int_numeric n) as Hnum.
  split.
  - apply decode_plain. rewrite every_app, andb_true_r.
    apply (every_impl Text.numeric); [intros x Hx; apply (numeric_cases x Hx) | exact Hnum].
  - rewrite newlines_plain.
    + unfold PyStr.strip. destruct (of_int_head n) as (c & t & Ho & Hc).
      destruct (numeric_cases c Hc) as (H1 & H2 & _).
      rewrite Ho. change (String c t ++ Cli.eol) with (String c (t ++ Cli.eol)).
      rewrite (lstrip_plain c _ H1 H2).
      change (String c (t ++ Cli.eol)) with (String c t ++ Cli.eol).
      rewrite rstrip_eol, <- Ho. apply rstrip_closed, of_int_closed.
    + rewrite every_app, andb_true_r.
      apply (every_impl Text.numeric); [|exact Hnum].
      intros x Hx. destruct (numeric_cases x Hx) as (_ & _ & _ & _ & Hr & _).
      rewrite Hr. reflexivity.
Qed.

(** *** The float of a printed temperature *)

Lemma significant_length (s : string) : (length (significant s) <= length s)%nat.
Proof.
  induction s as [|c s IH]; [reflexivity|].
  cbn [significant].
  destruct c as [[|] [|] [|] [|] [|] [|] [|] [|]]; cbn [length]; try lia.
Qed.

(** [float] on the text of a number of tenths ending in [.0]. *)
Lemma of_string_point_zero (neg : bool) (D : string) (a : Z) :
  PyStr.every PyStr.isdigit D = true ->
  D <> EmptyString ->
  (length D <= PyStr.MAX_STR_DIGITS)%nat ->
  PyStr.digits D = Some a ->
  of_string ((if neg then "-" else EmptyString) ++ D ++ ".0")
  = Some (of_decimal neg (a * 10 ^ 1 + 0) (0 - 1)).
Proof.
  intros Hd Hne Hlen Ha.
  pose proof (every_impl _ _ D digit_is_numeric Hd) as Hnum.
  assert (Hall : PyStr.every Text.numeric ((if neg then "-" else EmptyString) ++ D ++ ".0") = true).
  { rewrite !every_app, Hnum. destruct neg; reflexivity. }
  assert (Hhead : exists c t, (if neg then "-" else EmptyString) ++ D ++ ".0" = String c t
                              /\ Text.numeric c = true).
  { destruct neg; [exists "-"%char, (D ++ ".0"); split; reflexivity|].
    destruct D as [|c D]; [contradiction|]. exists c, (D ++ ".0").
    cbn [PyStr.every] in Hnum. apply andb_true_iff in Hnum as [Hc _].
    split; [reflexivity | exact Hc]. }
  assert (Hform : PyStr.rtrim (PyStr.ltrim (PyStr.ascii_form
                    ((if neg then "-" else EmptyString) ++ D ++ ".0")))
                  = (if neg then "-" else EmptyString) ++ D ++ ".0").
  { rewrite ascii_form_plain
      by (apply (every_impl Text.numeric); [intros x Hx; apply (numeric_cases x Hx) | exact Hall]).
    destruct Hhead as (c & t & Ho & Hc).
    destruct (numeric_cases c Hc) as (_ & _ & Hsp & _).
    rewrite Ho, ltrim_plain by exact Hsp. rewrite <- Ho.
    apply rtrim_closed. rewrite <- append_assoc, closed_app by discriminate. reflexivity. }
  assert (Hund : PyStr.without_underscores Ascii.zero
                   ((if neg then "-" else EmptyString) ++ D ++ ".0")
                 = Some ((if neg then "-" else EmptyString) ++ D ++ ".0")).
  { apply without_underscores_plain; [|reflexivity].
    apply (every_impl Text.numeric); [|exact Hall].
    intros x Hx. destruct (numeric_cases x Hx) as (_ & _ & _ & Hu & _).
    rewrite Hu. reflexivity. }
  assert (Hsign : PyStr.sign ((if neg then "-" else EmptyString) ++ D ++ ".0") = (neg, D ++ ".0")).
  { destruct neg; [reflexivity|]. cbn [append].
    destruct D as [|c D]; [contradiction|].
    cbn [PyStr.every] in Hd. first_digit Hd; reflexivity. }
  assert (Hword : forall word, (word = "inf" \/ word = "infinity" \/ word = "nan") ->
                               String.eqb (PyStr.lower (D ++ ".0")) word = false).
  { intros word Hw. destruct D as [|c D]; [contradiction|].
    cbn [PyStr.every] in Hd.
    first_digit Hd; destruct Hw as [-> | [-> | ->]]; reflexivity. }
  assert (Hlong : too_long D "0" = false).
  { unfold too_long. apply orb_false_iff. split; [|reflexivity].
    apply N.ltb_ge. pose proof (significant_length (D ++ "0")) as Hs.
    rewrite length_app in Hs. cbn [length] in Hs.
    unfold PyStr.MAX_STR_DIGITS in Hlen. unfold MAX_DIGITS. lia. }
  unfold of_string. rewrite Hform, Hund, Hsign.
  rewrite !Hword by auto. cbn [orb].
  rewrite (cut_exp_digits D ".0" Hd). cbn [cut_exp Ascii.eqb Bool.eqb orb].
  cbv beta iota.
  unfold mantissa. rewrite (cut_point_digits D ".0" Hd).
  cbn [cut_point Ascii.eqb Bool.eqb]. cbv beta iota. rewrite append_empty.
  assert (Ho : opt_digits D = Some a).
  { unfold opt_digits. destruct D; [contradiction | exact Ha]. }
  rewrite Ho, Hlong.
  destruct D; [contradiction|]. reflexivity.
Qed.

(** What the monitor reads in a line the tool printed for the integer [n]. *)
Lemma parse_printed (label : string) (n : Z) :
  PyStr.every (fun c => negb (Ascii.eqb c ":")) label = true ->
  (length (PyStr.of_int (Z.abs n)) <= PyStr.MAX_STR_DIGITS)%nat ->
  parse_temperature (label ++ ": " ++ PyStr.of_int n ++ ".0°C")
  = Some (of_decimal (n <? 0)%Z (Z.abs n * 10 ^ 1 + 0) (0 - 1)).
Proof.
  intros Hl Hlen. unfold parse_temperature.
  rewrite (split_at_first_colon _ _ Hl).
  destruct (of_int_shape n) as (D & E & Hd & Hne & Ha & Habs). rewrite E.
  rewrite Habs in Hlen.
  assert (Hsplit : PyStr.split_from ": " 0 (((if (n <? 0)%Z then "-" else EmptyString) ++ D) ++ ".0°C")
                   = [((if (n <? 0)%Z then "-" else EmptyString) ++ D) ++ ".0°C"]).
  { destruct (n <? 0)%Z.
    - change (("-" ++ D) ++ ".0°C") with (String "-" (D ++ ".0°C")).
      cbn [PyStr.split_from prefix]. cbv beta iota.
      destruct (ascii_dec ":" "-") as [Hx|_]; [discriminate Hx|].
      rewrite (split_from_digits D ".0°C" Hd). reflexivity.
    - change ((EmptyString ++ D) ++ ".0°C") with (D ++ ".0°C").
      rewrite (split_from_digits D ".0°C" Hd). reflexivity. }
  rewrite Hsplit. cbn [nth_error].
  assert (Hrep : PyStr.replace "°C" EmptyString (((if (n <? 0)%Z then "-" else EmptyString) ++ D) ++ ".0°C")
                 = (if (n <? 0)%Z then "-" else EmptyString) ++ D ++ ".0").
  { unfold PyStr.replace. destruct (n <? 0)%Z.
    - change (("-" ++ D) ++ ".0°C") with (String "-" (D ++ ".0°C")).
      cbn [PyStr.replace_from prefix]. cbv beta iota.
      destruct (ascii_dec _ "-") as [Hx|_]; [discriminate Hx|].
      rewrite (replace_from_digits D ".0°C" Hd). reflexivity.
    - change ((EmptyString ++ D) ++ ".0°C") with (D ++ ".0°C").
      rewrite (replace_from_digits D ".0°C" Hd). reflexivity. }
  rewrite Hrep. apply of_string_point_zero; assumption.
Qed.

(** The binary64 read back is the integer itself up to 2^53. *)
Lemma of_decimal_point_zero_exact (n : Z) :
  Z.abs n <= 2 ^ 53 ->
  eq_int (of_decimal (n <? 0)%Z (Z.abs n * 10 ^ 1 + 0) (0 - 1)) n = true.
Proof.
  intros Hn. destruct n as [|p|p].
  - reflexivity.
  - change (Z.abs (Zpos p) * 10 ^ 1 + 0) with (Zpos (p * 10)).
    unfold of_decimal. change (Z.to_pos (10 ^ Z.max (0 - 1) 0)) with 1%positive.
    change (Z.to_pos (10 ^ Z.max (- (0 - 1)) 0)) with 10%positive.
    rewrite Pos.mul_1_r. exact (of_ratio_exact false p 10 Hn).
  - change (Z.abs (Zneg p) * 10 ^ 1 + 0) with (Zpos (p * 10)).
    unfold of_decimal. change (Z.to_pos (10 ^ Z.max (0 - 1) 0)) with 1%positive.
    change (Z.to_pos (10 ^ Z.max (- (0 - 1)) 0)) with 10%positive.
    rewrite Pos.mul_1_r. exact (of_ratio_exact true p 10 Hn).
Qed.

(** The tool on a temperature file whose text [int] reads as [n]. *)
Lemma get_temperature_of_run (dir : string) fs (temp_raw : string) (n : Z) :
  Cli.exists_ fs Cli.base_path = true ->
  Cli._read_sysfs_file fs (Cli.join (Cli.join Cli.base_path dir) "realtime_temperature")
  = inr temp_raw ->
  PyStr.to_int temp_raw = Some n ->
  Cli.get_temperature_of dir fs = inr (PyStr.of_int n ++ ".0°C").
Proof.
  intros He Hf Hn.
  unfold Cli.get_temperature_of, Cli._check_driver_availability.
  rewrite He. cbn [negb]. cbv zeta. rewrite Hf, Hn.
  rewrite (format_int_bounded n (to_int_bounded _ _ Hn)). reflexivity.
Qed.

(** What the monitor makes of the standard output of such a run. *)
Lemma strip_printed (c : ascii) (label : string) (n : Z) :
  PyStr.one c = true ->
  PyStr.isspace (PyStr.byte c) = false ->
  PyStr.every (fun c => negb (Ascii.eqb c "013")) (String c label) = true ->
  PyStr.strip (PyStr.newlines ((String c label ++ ": " ++ PyStr.of_int n ++ ".0°C") ++ Cli.eol))
  = String c label ++ ": " ++ PyStr.of_int n ++ ".0°C".
Proof.
  intros H1 H2 Hl.
  rewrite newlines_plain.
  - unfold PyStr.strip.
    change ((String c label ++ ": " ++ PyStr.of_int n ++ ".0°C") ++ Cli.eol)
      with (String c ((label ++ ": " ++ PyStr.of_int n ++ ".0°C") ++ Cli.eol)).
    rewrite (lstrip_plain c _ H1 H2).
    change (String c ((label ++ ": " ++ PyStr.of_int n ++ ".0°C") ++ Cli.eol))
      with ((String c label ++ ": " ++ PyStr.of_int n ++ ".0°C") ++ Cli.eol).
    rewrite rstrip_eol. apply rstrip_closed.
    rewrite <- !append_assoc. apply closed_app. discriminate.
  - rewrite !every_app, Hl.
    rewrite (every_impl Text.numeric _ (PyStr.of_int n)); [reflexivity| |apply of_int_numeric].
    intros x Hx. destruct (numeric_cases x Hx) as (_ & _ & _ & _ & Hr & _).
    rewrite Hr. reflexivity.
Qed.

(** What a run of the tool for one temperature leaves. *)
Lemma run_temp (temp_type : string) fs :
  temp_type = "cpu" \/ temp_type = "gpu" ->
  Cli.run ["--" ++ temp_type ++ "-temp"] fs
  = match Cli.get_temperature_of temp_type fs with
    | inr t =>
        {| Cli.returncode := 0;
           Cli.stdout := ((if String.eqb temp_type "cpu" then "CPU" else "GPU")
                          ++ " Temperature: " ++ t) ++ Cli.eol;
           Cli.stderr := EmptyString; Cli.files := fs |}
    | inl (Cli.PermissionError m) =>
        {| Cli.returncode := 1; Cli.stdout := EmptyString;
           Cli.stderr := "Error: " ++ m ++ Cli.eol
                         ++ "Tip: Try running with sudo for write operations" ++ Cli.eol;
           Cli.files := fs |}
    | inl e =>
        {| Cli.returncode := 1; Cli.stdout := EmptyString;
           Cli.stderr := "Error: " ++ Cli.str e ++ Cli.eol; Cli.files := fs |}
    end.
Proof.
  intros [-> | ->]; cbn [append String.eqb Ascii.eqb Bool.eqb]; unfold Cli.run.
  - change (Cli.parse_args ["--cpu-temp"] Cli.no_args)
      with (Some {| Cli.cpu_temp := true; Cli.gpu_temp := false;
                    Cli.cooler_boost := None; Cli.status := false |}).
    unfold Cli.main, Cli.requests, Cli.when, Cli.try, Cli.bind, Cli.reading,
      Cli.print, Cli.ret;
      cbn [Cli.cpu_temp Cli.gpu_temp Cli.cooler_boost Cli.status];
      cbv beta iota.
    cbn [orb negb]. cbv beta iota zeta. unfold Cli.get_cpu_temperature.
    destruct (Cli.get_temperature_of "cpu" fs) as [[m|m|m|m]|t]; reflexivity.
  - change (Cli.parse_args ["--gpu-temp"] Cli.no_args)
      with (Some {| Cli.cpu_temp := false; Cli.gpu_temp := true;
                    Cli.cooler_boost := None; Cli.status := false |}).
    unfold Cli.main, Cli.requests, Cli.when, Cli.try, Cli.bind, Cli.reading,
      Cli.print, Cli.ret;
      cbn [Cli.cpu_temp Cli.gpu_temp Cli.cooler_boost Cli.status];
      cbv beta iota.
    cbn [orb negb]. cbv beta iota zeta. unfold Cli.get_gpu_temperature.
    destruct (Cli.get_temperature_of "gpu" fs) as [[m|m|m|m]|t]; reflexivity.
Qed.

(** The float the monitor reads behind a tool that printed the integer
    [n]. *)
Lemma reading_printed (temp_type : string) fs (n : Z) w self :
  temp_type = "cpu" \/ temp_type = "gpu" ->
  Cli.get_temperature_of temp_type fs = inr (PyStr.of_int n ++ ".0°C") ->
  (length (PyStr.of_int (Z.abs n)) <= PyStr.MAX_STR_DIGITS)%nat ->
  subprocess_run w = script fs ->
  get_temperature temp_type w self
  = (inr (Some (of_decimal (n <? 0)%Z (Z.abs n * 10 ^ 1 + 0) (0 - 1))), self,
     [Ran ["--" ++ temp_type ++ "-temp"]]).
Proof.
  intros Ht Hget Hlen Hw.
  pose proof (run_temp temp_type fs Ht) as Hrun. rewrite Hget in Hrun.
  assert (Hrc : Cli.returncode (Cli.run ["--" ++ temp_type ++ "-temp"] fs) = 0%Z)
    by (rewrite Hrun; reflexivity).
  destruct Ht as [-> | ->]; cbn [append String.eqb Ascii.eqb Bool.eqb] in Hrun, Hrc |- *.
  - pose proof (parse_printed "CPU Temperature" n eq_refl Hlen) as Hp.
    unfold parse_temperature in Hp.
    assert (Hst : PyStr.strip (PyStr.newlines (Cli.stdout (Cli.run ["--cpu-temp"] fs)))
                  = "CPU Temperature" ++ ": " ++ PyStr.of_int n ++ ".0°C").
    { rewrite Hrun. exact (strip_printed "C" "PU Temperature" n eq_refl eq_refl eq_refl). }
    unfold get_temperature; cbn [String.eqb Ascii.eqb Bool.eqb];
      unfold run_main_script, run_process; run_M; rewrite Hw; unfold script;
      rewrite Hrc, Hst; cbn [Z.eqb negb]; cbv beta iota.
    destruct (nth_error (PyStr.split ": " _) 1) as [temp_str|]; [|discriminate Hp].
    rewrite Hp. reflexivity.
  - pose proof (parse_printed "GPU Temperature" n eq_refl Hlen) as Hp.
    unfold parse_temperature in Hp.
    assert (Hst : PyStr.strip (PyStr.newlines (Cli.stdout (Cli.run ["--gpu-temp"] fs)))
                  = "GPU Temperature" ++ ": " ++ PyStr.of_int n ++ ".0°C").
    { rewrite Hrun. exact (strip_printed "G" "PU Temperature" n eq_refl eq_refl eq_refl). }
    unfold get_temperature; cbn [String.eqb Ascii.eqb Bool.eqb];
      unfold run_main_script, run_process; run_M; rewrite Hw; unfold script;
      rewrite Hrc, Hst; cbn [Z.eqb negb]; cbv beta iota.
    destruct (nth_error (PyStr.split ": " _) 1) as [temp_str|]; [|discriminate Hp].
    rewrite Hp. reflexivity.
Qed.

(** C9, as the code has it: the temperature text round trip.  When [int]
    reads the text of the device file of a sensor as the integer [n], [n] has
    at most 4300 digits ([int] refuses a longer text), the tool prints the
    line [CPU Temperature: <n>.0°C] (resp. [GPU]), and [get_temperature] of
    the monitor, run on that tool, returns a float: the binary64 nearest to
    [n], which is [n] itself whenever [|n| <= 2^53]. *)
Theorem temperature_text_round_trip (temp_type : string) fs (temp_raw : string) (n : Z) w self :
  temp_type = "cpu" \/ temp_type = "gpu" ->
  Cli.exists_ fs Cli.base_path = true ->
  Cli._read_sysfs_file fs (Cli.join (Cli.join Cli.base_path temp_type) "realtime_temperature")
  = inr temp_raw ->
  PyStr.to_int temp_raw = Some n ->
  subprocess_run w = script fs ->
  let label := if String.eqb temp_type "cpu" then "CPU" else "GPU" in
  (length (PyStr.of_int (Z.abs n)) <= PyStr.MAX_STR_DIGITS)%nat
  /\ Cli.stdout (Cli.run ["--" ++ temp_type ++ "-temp"] fs)
     = (label ++ " Temperature: " ++ PyStr.of_int n ++ ".0°C") ++ Cli.eol
  /\ exists x tr,
      get_temperature temp_type w self = (inr (Some x), self, tr)
      /\ x = of_decimal (n <? 0)%Z (Z.abs n * 10 ^ 1 + 0) (0 - 1)
      /\ (Z.abs n <= 2 ^ 53 -> eq_int x n = true).
Proof.
  intros Ht He Hf Hn Hw label.
  pose proof (to_int_bounded _ _ Hn) as Hlen.
  pose proof (get_temperature_of_run temp_type fs temp_raw n He Hf Hn) as Hget.
  split; [exact Hlen|]. split.
  - rewrite (run_temp temp_type fs Ht), Hget. reflexivity.
  - eexists; eexists. split; [exact (reading_printed temp_type fs n w self Ht Hget Hlen Hw)|].
    split; [reflexivity|]. apply of_decimal_point_zero_exact.
Qed.

(** A CPU at 61: the file holds [61], the tool prints 61.0 and the monitor
    reads the float 61. *)
Lemma temperature_text_round_trip_witness :
  let fs := Sample.laptop "61" "50" "off" true in
  let w := Sample.around fs (of_int 1000) in
  PyStr.to_int "61" = Some 61%Z
  /\ exists x tr,
      get_temperature "cpu" w Sample.idle = (inr (Some x), Sample.idle, tr)
      /\ eq_int x 61 = true.
Proof.
  intros fs w. split; [reflexivity|].
  destruct (temperature_text_round_trip "cpu" fs "61" 61%Z w Sample.idle
              (or_introl eq_refl) eq_refl eq_refl eq_refl eq_refl)
    as (_ & _ & x & tr & E & _ & Hx).
  exists x, tr. split; [exact E|]. apply Hx. cbn. lia.
Defined.

(** Past 2^53 the float read back is not the integer: for 2^53 + 1 in the
    device file the tool prints [9007199254740993.0], and the float the
    monitor reads is 2^53. *)
Lemma temperature_text_round_trip_counterexample :
  let fs := Sample.laptop "9007199254740993" "50" "off" true in
  let w := Sample.around fs (of_int 1000) in
  PyStr.to_int "9007199254740993" = Some 9007199254740993%Z
  /\ Cli.stdout (Cli.run ["--cpu-temp"] fs)
     = "CPU Temperature: 9007199254740993.0°C" ++ Cli.eol
  /\ fst (fst (get_temperature "cpu" w Sample.idle))
     = inr (Some (S754_finite false 4503599627370496 1))
  /\ eq_int (S754_finite false 4503599627370496 1) 9007199254740993 = false
  /\ eq_int (S754_finite false 4503599627370496 1) 9007199254740992 = true.
Proof. vm_compute. repeat split. Qed.

(** ** The cooler boost status *)

(** C10, as the code has it: when the driver directory is there and the
    cooler boost file can be opened for reading, [get_cooler_boost_status]
    returns [True] if and only if the text of the file, stripped, is exactly
    [on], and [False] for any other text; bytes that are no text make it
    raise [Exception]. *)
Theorem cooler_boost_status_reads_on fs f :
  Cli.exists_ fs Cli.base_path = true ->
  fs (Cli.join Cli.base_path "cooler_boost") = Cli.File f ->
  Cli.for_reading f = Cli.Granted ->
  match PyStr.decode (Cli.content f) with
  | inr text =>
      exists b,
        Cli.get_cooler_boost_status fs = inr b
        /\ (b = true <-> PyStr.strip (PyStr.newlines text) = "on")
        /\ (PyStr.strip (PyStr.newlines text) <> "on" -> b = false)
  | inl e =>
      Cli.get_cooler_boost_status fs
      = inl (Cli.Exception ("Error reading " ++ Cli.join Cli.base_path "cooler_boost"
                            ++ ": " ++ PyStr.str_error e))
  end.
Proof.
  intros He Hf Hg.
  unfold Cli.get_cooler_boost_status, Cli._check_driver_availability,
    Cli._read_sysfs_file.
  rewrite He, Hf, Hg. cbn [negb]. cbv zeta.
  destruct (PyStr.decode (Cli.content f)) as [e|text]; [reflexivity|].
  exists (String.eqb (PyStr.strip (PyStr.newlines text)) "on"). split; [|split].
  - reflexivity.
  - apply String.eqb_eq.
  - intros Hne. apply String.eqb_neq. exact Hne.
Qed.

(** The file holding [on], [on] between a no-break space and a carriage
    return, [off], [ON] and something else. *)
Lemma cooler_boost_status_reads_on_witness :
  Cli.get_cooler_boost_status (Sample.laptop "45" "40" "on" true) = inr true
  /\ Cli.get_cooler_boost_status
       (Sample.laptop "45" "40" (String "194" (String "160" ("on" ++ String "013" EmptyString))) true)
     = inr true
  /\ Cli.get_cooler_boost_status (Sample.laptop "45" "40" "off" true) = inr false
  /\ Cli.get_cooler_boost_status (Sample.laptop "45" "40" "ON" true) = inr false
  /\ Cli.get_cooler_boost_status (Sample.laptop "45" "40" "o n?" true) = inr false.
Proof.
  assert (H : forall bytes text,
             PyStr.decode (bytes ++ Cli.eol) = inr text ->
             exists b,
               Cli.get_cooler_boost_status (Sample.laptop "45" "40" bytes true) = inr b
               /\ (b = true <-> PyStr.strip (PyStr.newlines text) = "on")
               /\ (PyStr.strip (PyStr.newlines text) <> "on" -> b = false)).
  { intros bytes text Hd.
    pose proof (cooler_boost_status_reads_on (Sample.laptop "45" "40" bytes true)
                  {| Cli.for_reading := Cli.Granted; Cli.for_writing := Cli.Granted;
                     Cli.content := bytes ++ Cli.eol |}
                  eq_refl eq_refl eq_refl) as Hc.
    cbn [Cli.content] in Hc. rewrite Hd in Hc. exact Hc. }
  split; [|split; [|split; [|split]]].
  - destruct (H "on" _ eq_refl) as (b & E & [_ Hb] & _). rewrite E, (Hb eq_refl). reflexivity.
  - destruct (H (String "194" (String "160" ("on" ++ String "013" EmptyString))) _ eq_refl)
      as (b & E & [_ Hb] & _).
    rewrite E, (Hb eq_refl). reflexivity.
  - destruct (H "off" _ eq_refl) as (b & E & _ & Hb). rewrite E, Hb; [reflexivity|discriminate].
  - destruct (H "ON" _ eq_refl) as (b & E & _ & Hb). rewrite E, Hb; [reflexivity|discriminate].
  - destruct (H "o n?" _ eq_refl) as (b & E & _ & Hb). rewrite E, Hb; [reflexivity|discriminate].
Defined.

(** Readable content that yields an error: the cooler boost file holds the
    byte 0xFF, which no UTF-8 text has, and [get_cooler_boost_status] raises
    the [Exception] of [_read_sysfs_file] rather than returning [False]. *)
Lemma cooler_boost_status_reads_on_counterexample :
  let fs := Sample.laptop "45" "40" (String "255" EmptyString) true in
  Cli.exists_ fs Cli.base_path = true
  /\ (exists f, fs (Cli.join Cli.base_path "cooler_boost") = Cli.File f
                /\ Cli.for_reading f = Cli.Granted)
  /\ Cli.get_cooler_boost_status fs
     = inl (Cli.Exception
              ("Error reading /sys/devices/platform/msi-ec/cooler_boost: "
               ++ "'utf-8' codec can't decode byte 0xff in position 0: invalid start byte")).
Proof.
  intros fs. split; [reflexivity|]. split; [|reflexivity].
  eexists. split; reflexivity.
Qed.

(** * Further properties of the two scripts *)

#[local] Open Scope list_scope.

(** ** The monitor's gateway methods *)

(** [run_main_script] contains every failure of the subprocess.  It never
    raises and never touches the object; it runs one process; it returns the
    stripped standard output when the process exits with status 0 and [None],
    with one error logged, when the status is not 0, when the timeout
    expires and when [subprocess.run] raises. *)
Theorem run_main_script_contains_failures (args : list string) w self :
  exists o tr,
    run_main_script args w self = (inr o, self, Ran args :: tr)
    /\ (forall out err,
           subprocess_run w args = Completed 0%Z out err ->
           o = Some (PyStr.strip out) /\ tr = [])
    /\ (forall rc out err,
           subprocess_run w args = Completed rc out err -> rc <> 0%Z ->
           o = None /\ tr = [Logged ERROR (MainScriptFailed err)])
    /\ (subprocess_run w args = TimedOut ->
        o = None /\ tr = [Logged ERROR MainScriptTimedOut])
    /\ (forall why,
           subprocess_run w args = Crashed why ->
           o = None /\ tr = [Logged ERROR (ErrorRunningMainScript (Other why))]).
Proof.
  unfold run_main_script, run_process. run_M.
  destruct (subprocess_run w args) as [rc out err | | why]; cbn [app].
  - destruct (rc =? 0)%Z eqn:Hrc; cbn [negb]; eexists; eexists;
      (split; [reflexivity|]); (split; [|split; [|split]]).
    + intros out' err' H. injection H as _ <- _. split; reflexivity.
    + intros rc' out' err' H Hne. injection H as <- _ _.
      apply Z.eqb_eq in Hrc. contradiction.
    + discriminate.
    + discriminate.
    + intros out' err' H. injection H as -> _ _. discriminate Hrc.
    + intros rc' out' err' H _. injection H as _ _ <-. split; reflexivity.
    + discriminate.
    + discriminate.
  - eexists; eexists; (split; [reflexivity|]); (split; [|split; [|split]]);
      try discriminate. intros _. split; reflexivity.
  - eexists; eexists; (split; [reflexivity|]); (split; [|split; [|split]]);
      try discriminate. intros why' H. injection H as <-. split; reflexivity.
Qed.

(** [get_temperature] never raises, never touches the object and asks for
    no cooler boost write; for a [temp_type] that is neither [cpu] nor [gpu] it
    returns [None] without running anything. *)
Theorem get_temperature_is_harmless (temp_type : string) w self :
  exists x tr,
    get_temperature temp_type w self = (inr x, self, tr)
    /\ boost_writes tr = []
    /\ (temp_type <> "cpu"%string -> temp_type <> "gpu"%string -> x = None /\ tr = []).
Proof.
  destruct (get_temperature_run temp_type w self) as (tr & E & Hw & _).
  exists (reading w temp_type), tr. split; [exact E|]. split; [exact Hw|].
  intros Hc Hg. revert E. unfold get_temperature, reading.
  apply String.eqb_neq in Hc, Hg. rewrite Hc, Hg. run_M.
  intros [= <-]. split; reflexivity.
Qed.

Lemma get_temperature_is_harmless_witness :
  get_temperature "fan" (Sample.silent (S754_zero false)) Sample.idle
  = (inr None, Sample.idle, []).
Proof.
  destruct (get_temperature_is_harmless "fan" (Sample.silent (S754_zero false))
              Sample.idle) as (x & tr & E & _ & H).
  destruct H as [-> ->]; [discriminate | discriminate | exact E].
Defined.

Lemma split_without_colon (s : string) :
  PyStr.every (fun c => negb (Ascii.eqb c ":")) s = true ->
  PyStr.split ": " s = [s].
Proof.
  unfold PyStr.split. induction s as [|c s IH]; intros H; [reflexivity|].
  cbn [PyStr.every] in H. apply andb_true_iff in H as [Hc Hs].
  cbn [PyStr.split_from prefix]. cbv beta iota.
  destruct (ascii_dec ":" c) as [<-|_]; [discriminate Hc|].
  rewrite (IH Hs). reflexivity.
Qed.

(** An output of the main script without a colon in it (an empty one too)
    is an absent reading: the [IndexError] of [split(": ")[1]] is caught,
    the failure is logged and [get_temperature] returns [None]. *)
Theorem output_without_colon_is_absent (temp_type : string) w self out err :
  temp_type = "cpu"%string \/ temp_type = "gpu"%string ->
  subprocess_run w [("--" ++ temp_type ++ "-temp")%string] = Completed 0 out err ->
  PyStr.every (fun c => negb (Ascii.eqb c ":")) (PyStr.strip out) = true ->
  get_temperature temp_type w self
  = (inr None, self,
     [Ran [("--" ++ temp_type ++ "-temp")%string];
      Logged ERROR (FailedToParse (PyStr.strip out))]).
Proof.
  intros Ht Hrun Hc.
  destruct Ht as [-> | ->]; cbn [append] in Hrun |- *;
    unfold get_temperature; cbn [String.eqb Ascii.eqb Bool.eqb];
    unfold run_main_script, run_process; run_M; rewrite Hrun;
    cbn [Z.eqb negb app]; cbv beta iota;
    rewrite (split_without_colon _ Hc); reflexivity.
Qed.

Lemma output_without_colon_is_absent_witness :
  let w := {| getcwd := "/opt/msi"%string;
              script_exists := true;
              script_readable := true;
              subprocess_run := fun _ => Completed 0 "45.0"%string EmptyString;
              time_time := S754_zero false;
              fault := None |} in
  get_temperature "cpu" w Sample.idle
  = (inr None, Sample.idle,
     [Ran ["--cpu-temp"%string]; Logged ERROR (FailedToParse "45.0"%string)]).
Proof.
  intros w.
  exact (output_without_colon_is_absent "cpu" w Sample.idle "45.0"%string EmptyString
           (or_introl eq_refl) eq_refl eq_refl).
Defined.

(** ** The poll cycle *)

(** A poll cycle to which the world brings a fault. *)
Lemma check_temperatures_fault w self e :
  fault w = Some e -> check_temperatures w self = (inl (Exc e), self, []).
Proof. intros Hf. unfold check_temperatures. run_M. rewrite Hf. reflexivity. Qed.

Lemma asked_is_a_change w self (b : bool) :
  asked w self = Some b -> b = negb (cooler_boost_enabled self).
Proof.
  unfold asked.
  destruct (reading w "cpu"), (reading w "gpu"); try discriminate;
    destruct (cooler_boost_enabled self);
    rewrite ?andb_false_r, ?andb_true_r; cbn [negb andb];
    try (destruct (should_enable w _)); cbn [negb andb];
    try (destruct (long_enough w _)); intros [= <-]; reflexivity.
Qed.

(** The write discipline of a poll cycle, whatever the world (a fault
    too): it asks for at most one cooler boost write, and only for the state
    the flag does not have; it never sleeps; and it leaves [running],
    [main_script_path] and [monitor_thread] alone. *)
Theorem cycle_writes_only_changes w self :
  forall r self' tr,
    check_temperatures w self = (r, self', tr) ->
    (boost_writes tr = [] \/ boost_writes tr = [negb (cooler_boost_enabled self)])
    /\ naps tr = 0%nat
    /\ running self' = running self
    /\ main_script_path self' = main_script_path self
    /\ monitor_thread self' = monitor_thread self.
Proof.
  intros r self' tr E.
  destruct (fault w) as [e|] eqn:Hf.
  - rewrite (check_temperatures_fault w self e Hf) in E.
    injection E as <- <- <-. repeat split. left. reflexivity.
  - destruct (check_temperatures_run w self Hf) as (tr0 & E0 & W0 & N0).
    rewrite E0 in E. injection E as <- <- <-.
    split; [|split; [exact N0|]].
    + rewrite W0. destruct (asked w self) as [b|] eqn:Ha; [right | left; reflexivity].
      f_equal. exact (asked_is_a_change w self b Ha).
    + unfold after. destruct (asked w self) as [[|]|];
        try destruct (write_succeeds w _); repeat split.
Qed.

Lemma cooler_boost_enabled_after w self (b : bool) :
  asked w self = Some b ->
  write_succeeds w b = true ->
  cooler_boost_enabled (after w self) = b.
Proof. intros Ha Hs. unfold after. rewrite Ha. destruct b; rewrite Hs; reflexivity. Qed.

(** A confirmed write is not asked again: after a cycle whose write
    succeeded, a cycle on the same readings asks for no write, whatever the
    clock. *)
Theorem confirmed_write_is_not_repeated w self (b : bool) :
  fault w = None ->
  write_succeeds w b = true ->
  forall r self' tr,
    check_temperatures w self = (r, self', tr) ->
    boost_writes tr = [b] ->
    cooler_boost_enabled self' = b
    /\ forall w2,
        fault w2 = None ->
        reading w2 "cpu" = reading w "cpu" ->
        reading w2 "gpu" = reading w "gpu" ->
        forall r2 self2 tr2,
          check_temperatures w2 self' = (r2, self2, tr2) ->
          boost_writes tr2 = [] /\ self2 = self'.
Proof.
  intros Hf Hs r self' tr E Hw.
  destruct (check_temperatures_run w self Hf) as (tr0 & E0 & W0 & _).
  rewrite E0 in E. injection E as <- <- <-.
  pose proof (asked_of_writes _ _ _ _ W0 Hw) as Ha.
  pose proof (cooler_boost_enabled_after w self b Ha Hs) as Hen.
  split; [exact Hen|].
  intros w2 Hf2 Rc Rg r2 self2 tr2 E2.
  destruct (check_temperatures_run w2 (after w self) Hf2) as (tr3 & E3 & W3 & _).
  rewrite E3 in E2. injection E2 as <- <- <-.
  assert (Ha2 : forall s2, cooler_boost_enabled s2 = b -> asked w2 s2 = None).
  { intros s2 Hs2.
    pose proof (asked_is_a_change w self b Ha) as Hb.
    revert Ha. unfold asked, should_enable. rewrite Rc, Rg, Hs2. clear Hs2 Hen.
    destruct (reading w "cpu"), (reading w "gpu"); try discriminate;
      destruct (cooler_boost_enabled self); cbn [negb] in Hb; subst b;
      cbn [negb andb orb]; rewrite ?andb_false_r, ?orb_false_r, ?andb_true_r;
      cbn [negb andb orb];
      repeat match goal with
        | |- context [above ?x ?t] => destruct (above x t); cbn [negb andb orb]
        | |- context [safe ?x ?t] => destruct (safe x t); cbn [negb andb orb]
        | |- context [long_enough ?x ?t] => destruct (long_enough x t); cbn [negb andb orb]
        end; try discriminate; reflexivity. }
  rewrite W3, (Ha2 _ Hen). split; [reflexivity|].
  unfold after at 1. rewrite (Ha2 _ Hen). reflexivity.
Qed.

(** CPU at 61 enables the boost; the next cycle, CPU still at 61, asks
    nothing. *)
Lemma confirmed_write_is_not_repeated_witness :
  let w := Sample.around (Sample.laptop "61" "50" "off" true) (of_int 1000) in
  let w2 := Sample.around (Sample.laptop "61" "50" "on" true) (of_int 1003) in
  let self' := snd (fst (check_temperatures w Sample.idle)) in
  write_succeeds w true = true
  /\ cooler_boost_enabled self' = true
  /\ boost_writes (snd (check_temperatures w2 self')) = [].
Proof.
  intros w w2 self'. split; [reflexivity|].
  destruct (confirmed_write_is_not_repeated w Sample.idle true eq_refl eq_refl
              _ _ _ (triple_eta (check_temperatures w Sample.idle)) eq_refl)
    as [Hen Hnext].
  split; [exact Hen|].
  exact (proj1 (Hnext w2 eq_refl eq_refl eq_refl _ _ _
                  (triple_eta (check_temperatures w2 self')))).
Defined.

(** ** The loop, its stamp and its end *)

(** The object a turn of the loop leaves: the one the cycle leaves, or the
    one it found when the cycle raised. *)
Lemma poll_state w self :
  exists tr,
    poll w self
    = (inr tt, match fault w with Some _ => self | None => after w self end, tr).
Proof.
  destruct (fault w) as [e|] eqn:Hf.
  - eexists. unfold poll. run_M.
    change (check_temperatures w self) with (check_temperatures w self).
    rewrite (check_temperatures_fault w self e Hf). reflexivity.
  - destruct (check_temperatures_run w self Hf) as (tr & E & _).
    eexists. unfold poll. run_M. rewrite E. reflexivity.
Qed.

Lemma stamped_more (seen more : list turn) self :
  History.stamped seen self -> History.stamped (seen ++ more) self.
Proof.
  intros H En. destruct (H En) as (t & Hin & Ht). exists t. split; [|exact Ht].
  apply in_or_app. left. exact Hin.
Qed.

Lemma stamped_after (seen : list turn) (t : turn) self :
  fault (outside t) = None ->
  History.stamped seen self ->
  History.stamped (seen ++ [t]) (after (outside t) self).
Proof.
  intros Hf H. unfold after.
  destruct (asked (outside t) self) as [[|]|] eqn:Ha.
  - intros En. exists t. split; [apply in_or_app; right; left; reflexivity|].
    split; [exact Hf|]. split; [|reflexivity].
    destruct (write_succeeds (outside t) true); [reflexivity|].
    cbn in En. apply asked_is_a_change in Ha. cbn in Ha.
    rewrite En in Ha. discriminate Ha.
  - destruct (write_succeeds (outside t) false).
    + intros En. discriminate En.
    + apply stamped_more. exact H.
  - apply stamped_more. exact H.
Qed.

Lemma while_running_stamps (turns : list turn) :
  forall seen self p self' tr,
    while_running turns self = (p, self', tr) ->
    History.stamped seen self ->
    History.stamped (seen ++ turns) self'.
Proof.
  induction turns as [|t rest IH]; intros seen self p self' tr; cbn [while_running].
  - intros [= _ <- _] H. apply stamped_more. exact H.
  - set (s0 := if stopped t then set_running false self else self).
    assert (H0 : History.stamped seen self -> History.stamped seen s0).
    { subst s0. destruct (stopped t); auto. }
    destruct (running s0).
    + destruct (poll_state (outside t) s0) as (tr1 & E1). rewrite E1.
      destruct (while_running rest _) as [[p2 s2] tr2] eqn:E2.
      intros [= _ <- _] H.
      replace (seen ++ t :: rest) with ((seen ++ [t]) ++ rest)
        by (rewrite <- app_assoc; reflexivity).
      apply (IH _ _ _ _ _ E2).
      destruct (fault (outside t)) eqn:Hf.
      * apply stamped_more. apply H0. exact H.
      * apply stamped_after; [exact Hf | apply H0; exact H].
    + intros [= _ <- _] H. apply stamped_more. apply H0. exact H.
Qed.

(** The stamp of the monitor loop.  Started with the boost off, the loop
    has the boost on only by a cycle that ran and whose write [on] succeeded,
    and [last_coolerboost_enabled_at] is then the clock of such a cycle: the
    time margin is never measured from a failed attempt. *)
Theorem loop_stamps_confirmed_enabling (turns : list turn) self :
  cooler_boost_enabled self = false ->
  forall p self' tr,
    monitor_loop turns self = (p, self', tr) ->
    History.stamped turns self'.
Proof.
  intros Hoff p self' tr. unfold monitor_loop.
  destruct (while_running turns self) as [[p0 s0] tr0] eqn:E.
  intros [= _ <- _].
  apply (while_running_stamps turns [] self p0 s0 tr0 E).
  intros En. rewrite Hoff in En. discriminate En.
Qed.

(** A failed attempt at 1000, a confirmed one at 1003: the stamp is 1003. *)
Lemma loop_stamps_confirmed_enabling_witness :
  let refused := Sample.around (Sample.laptop "61" "50" "off" false) (of_int 1000) in
  let granted := Sample.around (Sample.laptop "61" "50" "off" true) (of_int 1003) in
  let turns := [ {| stopped := false; outside := refused |};
                 {| stopped := false; outside := granted |} ] in
  History.stamped turns (snd (fst (monitor_loop turns Sample.idle))).
Proof.
  intros refused granted turns.
  exact (loop_stamps_confirmed_enabling turns Sample.idle eq_refl _ _ _
           (triple_eta (monitor_loop turns Sample.idle))).
Defined.

Lemma while_running_app (pre rest : list turn) :
  forall self,
    running self = true ->
    Forall unstopped pre ->
    exists s1 tr1,
      while_running pre self = (Looping, s1, tr1)
      /\ running s1 = true
      /\ forall p s2 tr2,
          while_running rest s1 = (p, s2, tr2) ->
          while_running (pre ++ rest) self = (p, s2, tr1 ++ tr2).
Proof.
  induction pre as [|t pre IH]; intros self Rn Hu.
  - exists self, []. cbn [while_running app]. rewrite Rn. repeat split. auto.
  - inversion Hu as [|t' pre' St Hpre]; subst. unfold unstopped in St.
    cbn [while_running app]. rewrite St, Rn.
    destruct (poll_run (outside t) self) as (s0 & tr0 & E0 & R0 & _).
    rewrite E0.
    destruct (IH s0 (eq_trans R0 Rn) Hpre) as (s1 & tr1 & E1 & R1 & Hrest).
    rewrite E1. eexists; eexists. split; [reflexivity|]. split; [exact R1|].
    intros p s2 tr2 E2. change ((t :: pre) ++ rest) with (t :: (pre ++ rest)).
    cbn [while_running]. rewrite St, Rn, E0, (Hrest p s2 tr2 E2).
    rewrite app_assoc. reflexivity.
Qed.

(** The end of the loop.  When [stop] clears [running], the loop returns
    at its next test: the turns before have each run and slept once, the
    turns after are never run, and [running] is false at the end. *)
Theorem loop_returns_at_stop (pre post : list turn) (t : turn) self :
  running self = true ->
  Forall unstopped pre ->
  stopped t = true ->
  exists self' tr,
    monitor_loop (pre ++ t :: post) self = (Returned, self', tr)
    /\ running self' = false
    /\ naps tr = List.length pre
    /\ monitor_loop (pre ++ [t]) self = (Returned, self', tr).
Proof.
  intros Rn Hu St.
  destruct (while_running_goes_on pre self Rn Hu) as (s1 & tr1 & E1 & R1 & N1 & _).
  destruct (while_running_app pre (t :: post) self Rn Hu) as (s1' & tr1' & E1' & _ & Hpost).
  destruct (while_running_app pre [t] self Rn Hu) as (s1'' & tr1'' & E1'' & _ & Hone).
  rewrite E1 in E1', E1''. injection E1' as <- <-. injection E1'' as <- <-.
  assert (Hend : forall rest, while_running (t :: rest) s1
                              = (Returned, set_running false s1, [])).
  { intros rest. cbn [while_running]. rewrite St. reflexivity. }
  exists (set_running false s1), ([Logged INFO StartingMonitoring; Logged INFO Thresholds;
                                   Logged INFO Intervals] ++ tr1 ++ []).
  unfold monitor_loop.
  rewrite (Hpost _ _ _ (Hend post)), (Hone _ _ _ (Hend [])).
  repeat split. rewrite app_nil_r. exact N1.
Qed.

Lemma loop_returns_at_stop_witness :
  let calm := Sample.around (Sample.laptop "45" "40" "off" true) (of_int 1000) in
  let pre := [ {| stopped := false; outside := calm |} ] in
  let t := {| stopped := true; outside := calm |} in
  fst (fst (monitor_loop (pre ++ t :: pre) Sample.idle)) = Returned
  /\ naps (snd (monitor_loop (pre ++ t :: pre) Sample.idle)) = 1%nat.
Proof.
  intros calm pre t.
  assert (Hu : Forall unstopped pre) by (repeat constructor).
  destruct (loop_returns_at_stop pre pre t Sample.idle eq_refl Hu eq_refl)
    as (s & tr & E & _ & N & _).
  rewrite E. split; [reflexivity | exact N].
Defined.

(** [stop].  On a monitor that is not running it does nothing and returns
    (it does not exit).  On a running one it clears [running], waits for the
    thread if there is one, asks for no cooler boost write
    ([DISABLE_COOLER_BOOST_ON_EXIT] is off) and raises [SystemExit(0)]; the
    monitor loop then returns at its next test whatever the turns, and a
    second [stop] does nothing. *)
Theorem stop_ends_the_monitor w self :
  (running self = false -> stop w self = (inr tt, self, []))
  /\ (running self = true ->
      exists self' tr,
        stop w self = (inl (SystemExit 0), self', tr)
        /\ self' = set_running false self
        /\ boost_writes tr = []
        /\ (In (ThreadJoined 5) tr <-> monitor_thread self = true)
        /\ (forall turns, while_running turns self' = (Returned, self', []))
        /\ (forall w2, stop w2 self' = (inr tt, self', []))).
Proof.
  split.
  - intros Rn. unfold stop. run_M. rewrite Rn. reflexivity.
  - intros Rn. exists (set_running false self).
    exists ([Logged INFO StoppingMonitor]
            ++ (if monitor_thread self then [ThreadJoined 5] else [])
            ++ [Logged INFO MonitorStopped]).
    split; [|split; [reflexivity|]].
    + unfold stop, DISABLE_COOLER_BOOST_ON_EXIT. run_M. rewrite Rn. cbn [negb].
      destruct (monitor_thread self); reflexivity.
    + assert (Hloop : forall turns,
                 while_running turns (set_running false self)
                 = (Returned, set_running false self, [])).
      { intros turns.
        destruct turns as [|t rest]; cbn [while_running set_running running];
          [reflexivity|]. destruct (stopped t); reflexivity. }
      assert (Hagain : forall w2,
                 stop w2 (set_running false self) = (inr tt, set_running false self, [])).
      { intros w2. unfold stop. run_M. reflexivity. }
      destruct (monitor_thread self) eqn:Th; cbn [app];
        (split; [reflexivity|]); (split; [|split; [exact Hloop | exact Hagain]]).
      * split; [reflexivity|]. intros _. right. left. reflexivity.
      * split; [|discriminate]. intros [H|[H|[]]]; discriminate H.
Qed.

Lemma stop_ends_the_monitor_witness :
  fst (fst (stop (Sample.silent (S754_zero false)) Sample.idle)) = inl (SystemExit 0)
  /\ stop (Sample.silent (S754_zero false)) (init "/opt/msi")
     = (inr tt, init "/opt/msi", []).
Proof.
  split.
  - destruct (proj2 (stop_ends_the_monitor (Sample.silent (S754_zero false)) Sample.idle)
                eq_refl) as (s & tr & E & _).
    rewrite E. reflexivity.
  - exact (proj1 (stop_ends_the_monitor (Sample.silent (S754_zero false))
                    (init "/opt/msi")) eq_refl).
Defined.

(** ** The tool: the cooler boost file *)

#[local] Open Scope string_scope.

Lemma set_cooler_boost_inv fs (enable : bool) (msg : string) fs' :
  Cli.set_cooler_boost fs enable = inr (msg, fs') ->
  Cli.exists_ fs Cli.base_path = true
  /\ exists f,
      fs (Cli.join Cli.base_path "cooler_boost") = Cli.File f
      /\ Cli.for_writing f = Cli.Granted
      /\ fs' = Cli.store fs (Cli.join Cli.base_path "cooler_boost")
                 (Cli.File {| Cli.for_reading := Cli.for_reading f;
                              Cli.for_writing := Cli.for_writing f;
                              Cli.content := if enable then "on" else "off" |}).
Proof.
  unfold Cli.set_cooler_boost, Cli._check_driver_availability, Cli._write_sysfs_file.
  destruct (Cli.exists_ fs Cli.base_path); cbn [negb]; [|discriminate].
  destruct (fs (Cli.join Cli.base_path "cooler_boost")) as [| |f] eqn:Hf; try discriminate.
  destruct (Cli.for_writing f) eqn:Hw; try discriminate.
  intros [= _ <-]. split; [reflexivity|]. exists f. rewrite Hw. repeat split.
Qed.

(** Write, then read: after [set_cooler_boost(enable)] succeeds on a file
    that can be read, [get_cooler_boost_status] returns [enable]. *)
Theorem boost_status_reads_back fs (enable : bool) (msg : string) fs' :
  Cli.set_cooler_boost fs enable = inr (msg, fs') ->
  (forall f, fs (Cli.join Cli.base_path "cooler_boost") = Cli.File f ->
             Cli.for_reading f = Cli.Granted) ->
  Cli.get_cooler_boost_status fs' = inr enable.
Proof.
  intros Hset Hread.
  destruct (set_cooler_boost_inv fs enable msg fs' Hset) as (He & f & Hf & Hw & ->).
  unfold Cli.get_cooler_boost_status, Cli._check_driver_availability,
    Cli._read_sysfs_file, Cli.exists_, Cli.store.
  change (String.eqb Cli.base_path (Cli.join Cli.base_path "cooler_boost")) with false.
  cbv beta iota. unfold Cli.exists_ in He. rewrite He. cbn [negb].
  rewrite String.eqb_refl. cbn [Cli.for_reading Cli.content].
  rewrite (Hread f Hf). destruct enable; reflexivity.
Qed.

Lemma boost_status_reads_back_witness :
  let fs := Sample.laptop "45" "40" "off" true in
  exists msg fs',
    Cli.set_cooler_boost fs true = inr (msg, fs')
    /\ Cli.get_cooler_boost_status fs = inr false
    /\ Cli.get_cooler_boost_status fs' = inr true.
Proof.
  intros fs.
  destruct (Cli.set_cooler_boost fs true) as [e|[msg fs']] eqn:E; [discriminate E|].
  exists msg, fs'. split; [reflexivity|]. split; [reflexivity|].
  apply (boost_status_reads_back fs true msg fs' E).
  intros f Hf. cbv in Hf. injection Hf as <-. reflexivity.
Defined.

(** The one file a write touches: [set_cooler_boost] that succeeds changes
    the content of the cooler boost file to [on] or [off], keeps its
    permissions and leaves every other path as it was. *)
Theorem boost_write_touches_one_file fs (enable : bool) (msg : string) fs' :
  Cli.set_cooler_boost fs enable = inr (msg, fs') ->
  (forall path, path <> Cli.join Cli.base_path "cooler_boost" -> fs' path = fs path)
  /\ exists f f',
      fs (Cli.join Cli.base_path "cooler_boost") = Cli.File f
      /\ fs' (Cli.join Cli.base_path "cooler_boost") = Cli.File f'
      /\ Cli.for_reading f' = Cli.for_reading f
      /\ Cli.for_writing f' = Cli.for_writing f
      /\ Cli.content f' = (if enable then "on" else "off")
      /\ msg = "Cooler boost " ++ (if enable then "enabled" else "disabled").
Proof.
  intros Hset.
  destruct (set_cooler_boost_inv fs enable msg fs' Hset) as (He & f & Hf & Hw & ->).
  split.
  - intros path Hne. unfold Cli.store. apply String.eqb_neq in Hne. rewrite Hne. reflexivity.
  - exists f. eexists. split; [exact Hf|]. split.
    + unfold Cli.store. rewrite String.eqb_refl. reflexivity.
    + repeat split.
      revert Hset. unfold Cli.set_cooler_boost, Cli._check_driver_availability.
      rewrite He. cbn [negb].
      destruct (Cli._write_sysfs_file _ _ _); [discriminate|]. intros [= <- _]. reflexivity.
Qed.

Lemma boost_write_touches_one_file_witness :
  let fs := Sample.laptop "45" "40" "off" true in
  exists msg fs',
    Cli.set_cooler_boost fs true = inr (msg, fs')
    /\ fs' "/sys/devices/platform/msi-ec/cpu/realtime_temperature"
       = fs "/sys/devices/platform/msi-ec/cpu/realtime_temperature".
Proof.
  intros fs.
  destruct (Cli.set_cooler_boost fs true) as [e|[msg fs']] eqn:E; [discriminate E|].
  exists msg, fs'. split; [reflexivity|].
  apply (proj1 (boost_write_touches_one_file fs true msg fs' E)). discriminate.
Defined.

(** Without the driver directory nothing works and nothing is written:
    the four operations raise the same [FileNotFoundError], and [main] on any
    arguments but [--status] exits with status 1 and leaves every file as it
    is. *)
Theorem missing_driver_fails_everything fs :
  Cli.exists_ fs Cli.base_path = false ->
  (exists msg,
      Cli.get_cpu_temperature fs = inl (Cli.FileNotFoundError msg)
      /\ Cli.get_gpu_temperature fs = inl (Cli.FileNotFoundError msg)
      /\ Cli.get_cooler_boost_status fs = inl (Cli.FileNotFoundError msg)
      /\ forall enable, Cli.set_cooler_boost fs enable = inl (Cli.FileNotFoundError msg))
  /\ forall args,
      Cli.status args = false ->
      Cli.returncode (Cli.main args fs) = 1%Z /\ Cli.files (Cli.main args fs) = fs.
Proof.
  intros He. split.
  - eexists. unfold Cli.get_cpu_temperature, Cli.get_gpu_temperature,
      Cli.get_temperature_of, Cli.get_cooler_boost_status, Cli.set_cooler_boost,
      Cli._check_driver_availability.
    rewrite He. cbn [negb]. repeat split.
  - intros [c g b s] Hs. cbn [Cli.status] in Hs. subst s.
    unfold Cli.main, Cli.requests, Cli.when, Cli.bind, Cli.reading, Cli.print, Cli.ret.
    cbn [Cli.cpu_temp Cli.gpu_temp Cli.cooler_boost Cli.status].
    unfold Cli.get_cpu_temperature, Cli.get_gpu_temperature,
      Cli.get_temperature_of, Cli.set_cooler_boost, Cli._check_driver_availability.
    destruct c, g, b as [v|]; cbn [orb negb]; cbv beta iota;
      rewrite ?He; cbn [negb]; try (split; reflexivity);
      destruct (String.eqb v EmptyString); cbn [negb]; cbv beta iota;
      rewrite ?He; split; reflexivity.
Qed.

Lemma missing_driver_fails_everything_witness :
  Cli.returncode (Cli.run ["--cpu-temp"] (fun _ => Cli.NoEntry)) = 1%Z
  /\ Cli.returncode (Cli.run ["--cooler-boost"; "on"] (fun _ => Cli.NoEntry)) = 1%Z.
Proof.
  pose proof (proj2 (missing_driver_fails_everything (fun _ => Cli.NoEntry) eq_refl)) as H.
  split.
  - exact (proj1 (H {| Cli.cpu_temp := true; Cli.gpu_temp := false;
                       Cli.cooler_boost := None; Cli.status := false |} eq_refl)).
  - exact (proj1 (H {| Cli.cpu_temp := false; Cli.gpu_temp := false;
                       Cli.cooler_boost := Some "on"; Cli.status := false |} eq_refl)).
Defined.

(** ** The tool: what [main] does to the files and how it exits *)

(** Unfolding the steps of the tool. *)
Ltac run_cli :=
  unfold Cli.main, Cli.requests, Cli.when, Cli.try, Cli.bind, Cli.reading,
    Cli.print, Cli.ret;
  cbn [Cli.cpu_temp Cli.gpu_temp Cli.cooler_boost Cli.status];
  cbv beta iota.

(** Case analysis on every reading the goal still waits for. *)
Ltac settle_readings :=
  repeat match goal with
    | |- context [match Cli.get_cpu_temperature ?fs with _ => _ end] =>
        destruct (Cli.get_cpu_temperature fs) as [?e|?t]; cbv beta iota
    | |- context [match Cli.get_gpu_temperature ?fs with _ => _ end] =>
        destruct (Cli.get_gpu_temperature fs) as [?e|?t]; cbv beta iota
    | |- context [match Cli.get_cooler_boost_status ?fs with _ => _ end] =>
        destruct (Cli.get_cooler_boost_status fs) as [?e|?b]; cbv beta iota
    end.

(** [--status] never fails: on any file system, the driver missing too, it
    exits with status 0, writes nothing on the standard error, changes no
    file, and prints the heading, then one line each for the CPU, the GPU and
    the cooler boost: the temperature the controller returned, [Enabled] or
    [Disabled] for the status it returned, or [Error - ] and the message of
    the exception it raised. *)
Theorem status_never_fails fs :
  let c := Cli.run ["--status"] fs in
  Cli.returncode c = 0%Z
  /\ Cli.stderr c = EmptyString
  /\ Cli.files c = fs
  /\ Cli.stdout c
     = ("=== MSI EC Status ===" ++ Cli.eol)
       ++ ("CPU Temperature: "
           ++ match Cli.get_cpu_temperature fs with
              | inr cpu_temp => cpu_temp
              | inl e => "Error - " ++ Cli.str e
              end ++ Cli.eol)
       ++ ("GPU Temperature: "
           ++ match Cli.get_gpu_temperature fs with
              | inr gpu_temp => gpu_temp
              | inl e => "Error - " ++ Cli.str e
              end ++ Cli.eol)
       ++ ("Cooler Boost: "
           ++ match Cli.get_cooler_boost_status fs with
              | inr true => "Enabled"
              | inr false => "Disabled"
              | inl e => "Error - " ++ Cli.str e
              end ++ Cli.eol).
Proof.
  intros c. subst c. unfold Cli.run.
  change (Cli.parse_args ["--status"] Cli.no_args)
    with (Some {| Cli.cpu_temp := false; Cli.gpu_temp := false;
                  Cli.cooler_boost := None; Cli.status := true |}).
  run_cli. cbn [orb negb].
  destruct (Cli.get_cpu_temperature fs) as [e1|t1];
    destruct (Cli.get_gpu_temperature fs) as [e2|t2];
    destruct (Cli.get_cooler_boost_status fs) as [e3|[|]];
    cbv beta iota; cbn [Cli.returncode Cli.stderr Cli.files Cli.stdout];
    (split; [reflexivity|]); (split; [reflexivity|]); (split; [reflexivity|]);
    rewrite !append_assoc; reflexivity.
Qed.

(** Requests that only read leave the file system alone: without
    [--cooler-boost], whatever else is asked and however it ends, the files
    after [main] are the files before. *)
Theorem reading_changes_no_file (args : Cli.Namespace) fs :
  Cli.cooler_boost args = None ->
  Cli.files (Cli.main args fs) = fs.
Proof.
  destruct args as [c g b s]. cbn [Cli.cooler_boost]. intros ->.
  run_cli.
  destruct c, g, s; cbn [orb negb]; cbv beta iota zeta;
    repeat match goal with
      | |- context [match Cli.get_cpu_temperature fs with _ => _ end] =>
          destruct (Cli.get_cpu_temperature fs) as [[?|?|?|?]|?]; cbv beta iota zeta
      | |- context [match Cli.get_gpu_temperature fs with _ => _ end] =>
          destruct (Cli.get_gpu_temperature fs) as [[?|?|?|?]|?]; cbv beta iota zeta
      | |- context [match Cli.get_cooler_boost_status fs with _ => _ end] =>
          destruct (Cli.get_cooler_boost_status fs) as [[?|?|?|?]|?]; cbv beta iota zeta
      end; reflexivity.
Qed.

Lemma reading_changes_no_file_witness :
  let fs := Sample.laptop "45" "4x" "on" true in
  Cli.files (Cli.run ["--cpu-temp"; "--gpu-temp"; "--status"] fs) = fs.
Proof.
  intros fs.
  exact (reading_changes_no_file
           {| Cli.cpu_temp := true; Cli.gpu_temp := true;
              Cli.cooler_boost := None; Cli.status := true |} fs eq_refl).
Defined.

(** A failed reading stops the run before the write: when a temperature
    that was asked for cannot be read, [main] exits with status 1 and the
    cooler boost file is not written, [--cooler-boost] given or not. *)
Theorem failed_reading_prevents_the_write (args : Cli.Namespace) fs :
  (Cli.cpu_temp args = true /\ exists e, Cli.get_cpu_temperature fs = inl e)
  \/ (Cli.gpu_temp args = true /\ exists e, Cli.get_gpu_temperature fs = inl e) ->
  Cli.returncode (Cli.main args fs) = 1%Z
  /\ Cli.files (Cli.main args fs) = fs.
Proof.
  destruct args as [c g b s]. cbn [Cli.cpu_temp Cli.gpu_temp].
  intros [[-> [e He]] | [-> [e He]]]; run_cli.
  - cbn [orb negb]. cbv beta iota zeta. rewrite He. destruct e; split; reflexivity.
  - destruct c; cbn [orb negb]; cbv beta iota zeta;
      [destruct (Cli.get_cpu_temperature fs) as [[?|?|?|?]|?]; cbv beta iota zeta|];
      rewrite ?He; destruct e; split; reflexivity.
Qed.

(** The CPU file holds no number: [--cpu-temp --cooler-boost on] leaves the
    boost off. *)
Lemma failed_reading_prevents_the_write_witness :
  let fs := Sample.laptop "hot" "40" "off" true in
  Cli.returncode (Cli.run ["--cpu-temp"; "--cooler-boost"; "on"] fs) = 1%Z
  /\ Cli.get_cooler_boost_status
       (Cli.files (Cli.run ["--cpu-temp"; "--cooler-boost"; "on"] fs)) = inr false.
Proof.
  intros fs.
  destruct (failed_reading_prevents_the_write
              {| Cli.cpu_temp := true; Cli.gpu_temp := false;
                 Cli.cooler_boost := Some "on"; Cli.status := false |} fs) as [Hr Hf].
  - left. split; [reflexivity|]. eexists. reflexivity.
  - split; [exact Hr|]. change (Cli.run ["--cpu-temp"; "--cooler-boost"; "on"] fs)
      with (Cli.main {| Cli.cpu_temp := true; Cli.gpu_temp := false;
                        Cli.cooler_boost := Some "on"; Cli.status := false |} fs).
    rewrite Hf. reflexivity.
Defined.

(** ** The monitor on the tool *)

Lemma run_cooler_boost fs (enable : bool) :
  Cli.run ["--cooler-boost"; if enable then "on" else "off"] fs
  = match Cli.set_cooler_boost fs enable with
    | inr (msg, fs') =>
        {| Cli.returncode := 0; Cli.stdout := msg ++ Cli.eol;
           Cli.stderr := EmptyString; Cli.files := fs' |}
    | inl (Cli.PermissionError m) =>
        {| Cli.returncode := 1; Cli.stdout := EmptyString;
           Cli.stderr := "Error: " ++ m ++ Cli.eol
                         ++ "Tip: Try running with sudo for write operations" ++ Cli.eol;
           Cli.files := fs |}
    | inl e =>
        {| Cli.returncode := 1; Cli.stdout := EmptyString;
           Cli.stderr := "Error: " ++ Cli.str e ++ Cli.eol; Cli.files := fs |}
    end.
Proof.
  unfold Cli.run.
  destruct enable.
  - change (Cli.parse_args ["--cooler-boost"; "on"] Cli.no_args)
      with (Some {| Cli.cpu_temp := false; Cli.gpu_temp := false;
                    Cli.cooler_boost := Some "on"; Cli.status := false |}).
    run_cli. cbn [String.eqb Ascii.eqb Bool.eqb orb negb]. cbv beta iota zeta.
    destruct (Cli.set_cooler_boost fs true) as [[m|m|m|m]|[msg fs']]; reflexivity.
  - change (Cli.parse_args ["--cooler-boost"; "off"] Cli.no_args)
      with (Some {| Cli.cpu_temp := false; Cli.gpu_temp := false;
                    Cli.cooler_boost := Some "off"; Cli.status := false |}).
    run_cli. cbn [String.eqb Ascii.eqb Bool.eqb orb negb]. cbv beta iota zeta.
    destruct (Cli.set_cooler_boost fs false) as [[m|m|m|m]|[msg fs']]; reflexivity.
Qed.

(** The flag follows the file.  With the tool behind [subprocess.run], the
    monitor's [set_cooler_boost] returns [True] and sets
    [cooler_boost_enabled] exactly when the tool's [set_cooler_boost] wrote the
    file, and the files the run leaves are the written ones; when the tool
    raised, the monitor returns [False], the flag is as it was and no file has
    changed. *)
Theorem flag_follows_the_file fs (enable : bool) w self :
  subprocess_run w = script fs ->
  let c := Cli.run ["--cooler-boost"; if enable then "on" else "off"] fs in
  match Cli.set_cooler_boost fs enable with
  | inr (msg, fs') =>
      Cli.files c = fs'
      /\ exists tr,
          Manager.set_cooler_boost enable w self
          = (inr true, set_cooler_boost_enabled enable self, tr)
  | inl e =>
      Cli.files c = fs
      /\ exists tr, Manager.set_cooler_boost enable w self = (inr false, self, tr)
  end.
Proof.
  intros Hw c. subst c.
  destruct (set_cooler_boost_run enable w self) as (tr & E & _).
  assert (Hs : write_succeeds w enable
               = match Cli.set_cooler_boost fs enable with
                 | inr _ => true | inl _ => false end).
  { unfold write_succeeds, output_of. rewrite Hw. unfold script.
    rewrite (run_cooler_boost fs enable).
    destruct (Cli.set_cooler_boost fs enable) as [[m|m|m|m]|[msg fs']]; reflexivity. }
  rewrite (run_cooler_boost fs enable).
  destruct (Cli.set_cooler_boost fs enable) as [e|[msg fs']].
  - rewrite Hs in E. split; [destruct e; reflexivity|]. exists tr. exact E.
  - rewrite Hs in E. split; [reflexivity|]. exists tr. exact E.
Qed.

(** With the rights to write the monitor's flag goes on and the file reads
    [on]; without them the flag stays off and the file stays [off]. *)
Lemma flag_follows_the_file_witness :
  let granted := Sample.laptop "61" "50" "off" true in
  let refused := Sample.laptop "61" "50" "off" false in
  (exists tr,
      Manager.set_cooler_boost true (Sample.around granted (of_int 1000)) Sample.idle
      = (inr true, set_cooler_boost_enabled true Sample.idle, tr))
  /\ (exists tr,
         Manager.set_cooler_boost true (Sample.around refused (of_int 1000)) Sample.idle
         = (inr false, Sample.idle, tr)).
Proof.
  intros granted refused. split.
  - pose proof (flag_follows_the_file granted true
                  (Sample.around granted (of_int 1000)) Sample.idle eq_refl) as H.
    cbv zeta in H.
    destruct (Cli.set_cooler_boost granted true) as [e|[msg fs']] eqn:E;
      [discriminate E|]. exact (proj2 H).
  - pose proof (flag_follows_the_file refused true
                  (Sample.around refused (of_int 1000)) Sample.idle eq_refl) as H.
    cbv zeta in H.
    destruct (Cli.set_cooler_boost refused true) as [e|[msg fs']] eqn:E;
      [|discriminate E]. exact (proj2 H).
Defined.

(** What the tool returns for a temperature is always the decimal text of
    an integer of at most 4300 digits followed by [.0°C]. *)
Lemma temperature_text_shape (dir : string) fs (t : string) :
  Cli.get_temperature_of dir fs = inr t ->
  exists n : Z,
    t = PyStr.of_int n ++ ".0°C"
    /\ (length (PyStr.of_int (Z.abs n)) <= PyStr.MAX_STR_DIGITS)%nat.
Proof.
  unfold Cli.get_temperature_of.
  destruct (Cli._check_driver_availability fs); [discriminate|].
  cbv zeta.
  destruct (Cli._read_sysfs_file fs _) as [e|raw]; [discriminate|].
  destruct (PyStr.to_int raw) as [n|]; [|discriminate].
  unfold PyStr.format_int.
  destruct (PyStr.MAX_STR_DIGITS <? length (PyStr.of_int (Z.abs n)))%nat eqn:E;
    [discriminate|].
  intros [= <-]. exists n. split; [reflexivity|]. apply Nat.ltb_ge. exact E.
Qed.

(** The monitor never misreads the tool.  With the tool behind
    [subprocess.run], [get_temperature] returns a float exactly when the tool
    could read the sensor, and [None], after the one error log of the failed
    run, exactly when the tool raised; what the tool prints is always parsed,
    so no parse failure is ever logged. *)
Theorem monitor_reads_what_the_tool_prints (temp_type : string) fs w self :
  temp_type = "cpu" \/ temp_type = "gpu" ->
  subprocess_run w = script fs ->
  let flag := "--" ++ temp_type ++ "-temp" in
  match Cli.get_temperature_of temp_type fs with
  | inr t =>
      exists x,
        get_temperature temp_type w self = (inr (Some x), self, [Ran [flag]])
  | inl e =>
      get_temperature temp_type w self
      = (inr None, self,
         [Ran [flag];
          Logged ERROR (MainScriptFailed (PyStr.newlines (Cli.stderr (Cli.run [flag] fs))))])
  end.
Proof.
  intros Ht Hw flag. subst flag.
  pose proof (run_temp temp_type fs Ht) as Hrun.
  destruct (Cli.get_temperature_of temp_type fs) as [e|t] eqn:Hget.
  - assert (Hrc : Cli.returncode (Cli.run ["--" ++ temp_type ++ "-temp"] fs) = 1%Z).
    { rewrite Hrun. destruct e; reflexivity. }
    destruct Ht as [-> | ->]; cbn [append] in Hrc |- *;
      unfold get_temperature; cbn [String.eqb Ascii.eqb Bool.eqb];
      unfold run_main_script, run_process; run_M; rewrite Hw; unfold script;
      rewrite Hrc; reflexivity.
  - destruct (temperature_text_shape temp_type fs t Hget) as (n & -> & Hlen).
    exists (of_decimal (n <? 0)%Z (Z.abs n * 10 ^ 1 + 0) (0 - 1)).
    exact (reading_printed temp_type fs n w self Ht Hget Hlen Hw).
Qed.

(** A GPU file that holds no number: the tool raises, the monitor has no
    reading; the CPU file holds 45 and is read. *)
Lemma monitor_reads_what_the_tool_prints_witness :
  let fs := Sample.laptop "45" "n/a" "off" true in
  let w := Sample.around fs (of_int 1000) in
  fst (fst (get_temperature "gpu" w Sample.idle)) = inr None
  /\ exists x, get_temperature "cpu" w Sample.idle = (inr (Some x), Sample.idle, [Ran ["--cpu-temp"]]).
Proof.
  intros fs w. split.
  - pose proof (monitor_reads_what_the_tool_prints "gpu" fs w Sample.idle
                  (or_intror eq_refl) eq_refl) as H.
    cbv zeta in H.
    destruct (Cli.get_temperature_of "gpu" fs) as [e|t] eqn:E; [|discriminate E].
    rewrite H. reflexivity.
  - pose proof (monitor_reads_what_the_tool_prints "cpu" fs w Sample.idle
                  (or_introl eq_refl) eq_refl) as H.
    cbv zeta in H.
    destruct (Cli.get_temperature_of "cpu" fs) as [e|t] eqn:E; [discriminate E|].
    exact H.
Defined.

(** ** The tool: the text of a temperature file *)

(** Decimal text in, degrees out: when a temperature file that can be read
    holds the decimal text of the integer [n] and a newline, and [n] has at
    most 4300 digits, the tool returns that same text followed by [.0°C]. *)
Theorem decimal_text_in_degrees_out (dir : string) fs f (n : Z) :
  Cli.exists_ fs Cli.base_path = true ->
  fs (Cli.join (Cli.join Cli.base_path dir) "realtime_temperature") = Cli.File f ->
  Cli.for_reading f = Cli.Granted ->
  Cli.content f = PyStr.of_int n ++ Cli.eol ->
  (length (PyStr.of_int (Z.abs n)) <= PyStr.MAX_STR_DIGITS)%nat ->
  Cli.get_temperature_of dir fs = inr (PyStr.of_int n ++ ".0°C").
Proof.
  intros He Hf Hg Hc Hlen.
  apply (get_temperature_of_run dir fs (PyStr.of_int n) n He).
  - unfold Cli._read_sysfs_file. rewrite Hf, Hg, Hc.
    destruct (read_of_int n) as [-> ->]. reflexivity.
  - rewrite to_int_of_int. apply Nat.ltb_ge in Hlen. rewrite Hlen. reflexivity.
Qed.

Lemma decimal_text_in_degrees_out_witness :
  Cli.get_cpu_temperature (Sample.laptop "-7" "40" "off" true) = inr "-7.0°C".
Proof.
  refine (decimal_text_in_degrees_out "cpu" (Sample.laptop "-7" "40" "off" true)
            {| Cli.for_reading := Cli.Granted; Cli.for_writing := Cli.Refused;
               Cli.content := "-7" ++ Cli.eol |}
            (-7)%Z eq_refl eq_refl eq_refl eq_refl _).
  apply Nat.leb_le. reflexivity.
Defined.

(** A text of ASCII digits, as [strip] and [int] take it. *)
Lemma digits_text (D : string) :
  PyStr.every PyStr.isdigit D = true ->
  D <> EmptyString ->
  PyStr.decode (D ++ Cli.eol) = inr (D ++ Cli.eol)
  /\ PyStr.strip (PyStr.newlines (D ++ Cli.eol)) = D
  /\ PyStr.to_int D
     = if (PyStr.MAX_STR_DIGITS <? length D)%nat then None else PyStr.digits D.
Proof.
  intros Hd Hne.
  pose proof (every_impl _ _ D digit_is_numeric Hd) as Hnum.
  assert (Hone : PyStr.every PyStr.one D = true)
    by (apply (every_impl Text.numeric); [intros x Hx; apply (numeric_cases x Hx) | exact Hnum]).
  assert (Hcl : Text.closed D = true).
  { clear Hnum Hone. induction D as [|c D IH]; [contradiction|].
    cbn [PyStr.every] in Hd. destruct D as [|d D].
    - first_digit Hd; reflexivity.
    - apply andb_true_iff in Hd as [_ Hd]. apply IH; [exact Hd | discriminate]. }
  destruct D as [|c t] eqn:ED; [contradiction|]. rewrite <- ED in *.
  assert (Hc : Text.numeric c = true).
  { rewrite ED in Hnum. cbn [PyStr.every] in Hnum.
    apply andb_true_iff in Hnum as [Hc _]. exact Hc. }
  destruct (numeric_cases c Hc) as (H1 & H2 & Hsp & _).
  split; [|split].
  - apply decode_plain. rewrite every_app, Hone. reflexivity.
  - rewrite newlines_plain.
    + unfold PyStr.strip. rewrite ED.
      change (String c t ++ Cli.eol) with (String c (t ++ Cli.eol)).
      rewrite (lstrip_plain c _ H1 H2).
      change (String c (t ++ Cli.eol)) with (String c t ++ Cli.eol).
      rewrite rstrip_eol, <- ED. apply rstrip_closed, Hcl.
    + rewrite every_app, andb_true_r.
      apply (every_impl Text.numeric); [|exact Hnum].
      intros x Hx. destruct (numeric_cases x Hx) as (_ & _ & _ & _ & Hr & _).
      rewrite Hr. reflexivity.
  - unfold PyStr.to_int. rewrite (ascii_form_plain D Hone).
    rewrite ED, (ltrim_plain c t Hsp), <- ED, (rtrim_closed D Hcl).
    assert (Hsign : PyStr.sign D = (false, D)).
    { rewrite ED in Hd |- *. cbn [PyStr.every] in Hd. first_digit Hd; reflexivity. }
    rewrite Hsign, without_underscores_plain; [| |reflexivity].
    + destruct (PyStr.MAX_STR_DIGITS <? length D)%nat; [reflexivity|].
      destruct (PyStr.digits D); reflexivity.
    + apply (every_impl Text.numeric); [|exact Hnum].
      intros x Hx. destruct (numeric_cases x Hx) as (_ & _ & _ & Hu & _).
      rewrite Hu. reflexivity.
Qed.

(** Too many digits: when a temperature file that can be read holds more
    than 4300 ASCII digits and a newline, [int] refuses them, the tool raises
    [ValueError] with the digits in its message and exits with status 1, and
    the monitor behind [subprocess.run] has no reading. *)
Theorem long_decimal_text_is_refused (temp_type : string) fs f (D : string) w self :
  temp_type = "cpu" \/ temp_type = "gpu" ->
  Cli.exists_ fs Cli.base_path = true ->
  fs (Cli.join (Cli.join Cli.base_path temp_type) "realtime_temperature") = Cli.File f ->
  Cli.for_reading f = Cli.Granted ->
  Cli.content f = D ++ Cli.eol ->
  PyStr.every PyStr.isdigit D = true ->
  (PyStr.MAX_STR_DIGITS < length D)%nat ->
  subprocess_run w = script fs ->
  Cli.get_temperature_of temp_type fs
  = inl (Cli.ValueError ("Invalid temperature value: " ++ D))
  /\ Cli.returncode (Cli.run ["--" ++ temp_type ++ "-temp"] fs) = 1%Z
  /\ exists tr, get_temperature temp_type w self = (inr None, self, tr).
Proof.
  intros Ht He Hf Hg Hc Hd Hlen Hw.
  assert (Hne : D <> EmptyString).
  { intros ->. cbn [length] in Hlen. inversion Hlen. }
  assert (Hget : Cli.get_temperature_of temp_type fs
                 = inl (Cli.ValueError ("Invalid temperature value: " ++ D))).
  { unfold Cli.get_temperature_of, Cli._check_driver_availability, Cli._read_sysfs_file.
    rewrite He. cbn [negb]. cbv zeta. rewrite Hf, Hg, Hc.
    destruct (digits_text D Hd Hne) as (-> & -> & ->).
    apply Nat.ltb_lt in Hlen. rewrite Hlen. reflexivity. }
  assert (Hrc : Cli.returncode (Cli.run ["--" ++ temp_type ++ "-temp"] fs) = 1%Z).
  { rewrite (run_temp temp_type fs Ht), Hget. reflexivity. }
  split; [exact Hget|]. split; [exact Hrc|].
  destruct Ht as [-> | ->]; cbn [append] in Hrc |- *; eexists;
    unfold get_temperature; cbn [String.eqb Ascii.eqb Bool.eqb];
    unfold run_main_script, run_process; run_M; rewrite Hw; unfold script;
    rewrite Hrc; reflexivity.
Qed.

(** A CPU file of 4301 digits. *)
Lemma long_decimal_text_is_refused_witness :
  let D := Text.copies 4301 "1" in
  let fs := Sample.laptop D "40" "off" true in
  let w := Sample.around fs (of_int 1000) in
  Cli.returncode (Cli.run ["--cpu-temp"] fs) = 1%Z
  /\ exists tr, get_temperature "cpu" w Sample.idle = (inr None, Sample.idle, tr).
Proof.
  intros D fs w.
  refine (proj2 (long_decimal_text_is_refused "cpu" fs
                   {| Cli.for_reading := Cli.Granted; Cli.for_writing := Cli.Refused;
                      Cli.content := D ++ Cli.eol |}
                   D w Sample.idle (or_introl eq_refl) eq_refl eq_refl eq_refl eq_refl
                   _ _ eq_refl)).
  - vm_compute. reflexivity.
  - apply Nat.ltb_lt. vm_compute. reflexivity.
Defined.

(** Bytes that are no text: when a temperature file that can be opened
    holds bytes that do not decode, the tool raises the [Exception] of
    [_read_sysfs_file], whose message carries that of the codec, and exits
    with status 1, and the monitor behind [subprocess.run] has no reading. *)
Theorem undecodable_file_is_an_error (temp_type : string) fs f e w self :
  temp_type = "cpu" \/ temp_type = "gpu" ->
  Cli.exists_ fs Cli.base_path = true ->
  fs (Cli.join (Cli.join Cli.base_path temp_type) "realtime_temperature") = Cli.File f ->
  Cli.for_reading f = Cli.Granted ->
  PyStr.decode (Cli.content f) = inl e ->
  subprocess_run w = script fs ->
  Cli.get_temperature_of temp_type fs
  = inl (Cli.Exception
           ("Error reading "
            ++ Cli.join (Cli.join Cli.base_path temp_type) "realtime_temperature"
            ++ ": " ++ PyStr.str_error e))
  /\ Cli.returncode (Cli.run ["--" ++ temp_type ++ "-temp"] fs) = 1%Z
  /\ exists tr, get_temperature temp_type w self = (inr None, self, tr).
Proof.
  intros Ht He Hf Hg Hd Hw.
  assert (Hget : Cli.get_temperature_of temp_type fs
                 = inl (Cli.Exception
                          ("Error reading "
                           ++ Cli.join (Cli.join Cli.base_path temp_type) "realtime_temperature"
                           ++ ": " ++ PyStr.str_error e))).
  { unfold Cli.get_temperature_of, Cli._check_driver_availability, Cli._read_sysfs_file.
    rewrite He. cbn [negb]. cbv zeta. rewrite Hf, Hg, Hd. reflexivity. }
  assert (Hrc : Cli.returncode (Cli.run ["--" ++ temp_type ++ "-temp"] fs) = 1%Z).
  { rewrite (run_temp temp_type fs Ht), Hget. reflexivity. }
  split; [exact Hget|]. split; [exact Hrc|].
  destruct Ht as [-> | ->]; cbn [append] in Hrc |- *; eexists;
    unfold get_temperature; cbn [String.eqb Ascii.eqb Bool.eqb];
    unfold run_main_script, run_process; run_M; rewrite Hw; unfold script;
    rewrite Hrc; reflexivity.
Qed.

(** A GPU file cut in the middle of a character: the first two bytes of the
    three of U+2003. *)
Lemma undecodable_file_is_an_error_witness :
  let fs := Sample.laptop "45" (String "226" (String "128" EmptyString)) "off" true in
  let w := Sample.around fs (of_int 1000) in
  Cli.get_gpu_temperature fs
  = inl (Cli.Exception
           ("Error reading /sys/devices/platform/msi-ec/gpu/realtime_temperature: "
            ++ "'utf-8' codec can't decode bytes in position 0-1: invalid continuation byte"))
  /\ exists tr, get_temperature "gpu" w Sample.idle = (inr None, Sample.idle, tr).
Proof.
  intros fs w.
  destruct (undecodable_file_is_an_error "gpu" fs
              {| Cli.for_reading := Cli.Granted; Cli.for_writing := Cli.Refused;
                 Cli.content := String "226" (String "128" Cli.eol) |}
              {| PyStr.object := "226"; PyStr.start := 0; PyStr.last := 1;
                 PyStr.why := PyStr.InvalidContinuation |}
              w Sample.idle (or_intror eq_refl) eq_refl eq_refl eq_refl eq_refl eq_refl)
    as (Hget & _ & Htr).
  split; [exact Hget | exact Htr].
Defined.

(** ** More on the poll cycle *)

#[local] Open Scope Z_scope.

(** The flag is what the gateway confirmed: in any poll cycle, a faulty one
    too, [cooler_boost_enabled] changes only when the cycle asked for a write
    and that write succeeded, and it then is the state written. *)
Theorem flag_tracks_confirmed_writes w self :
  forall r self' tr,
    check_temperatures w self = (r, self', tr) ->
    cooler_boost_enabled self' <> cooler_boost_enabled self ->
    boost_writes tr = [cooler_boost_enabled self']
    /\ write_succeeds w (cooler_boost_enabled self') = true.
Proof.
  intros r self' tr E Hch.
  destruct (fault w) as [e|] eqn:Hf.
  - rewrite (check_temperatures_fault w self e Hf) in E.
    injection E as <- <- <-. contradiction.
  - destruct (check_temperatures_run w self Hf) as (tr0 & E0 & W0 & _).
    rewrite E0 in E. injection E as <- <- <-.
    revert Hch. rewrite W0. unfold after.
    destruct (asked w self) as [[|]|].
    + destruct (write_succeeds w true) eqn:Hs; cbn; intros Hch;
        [split; [reflexivity | exact Hs] | contradiction].
    + destruct (write_succeeds w false) eqn:Hs; cbn; intros Hch;
        [split; [reflexivity | exact Hs] | contradiction].
    + intros Hch. contradiction.
Qed.

Lemma flag_tracks_confirmed_writes_witness :
  let w := Sample.around (Sample.laptop "61" "50" "off" true) (of_int 1000) in
  boost_writes (snd (check_temperatures w Sample.idle)) = [true]
  /\ write_succeeds w true = true.
Proof.
  intros w.
  apply (flag_tracks_confirmed_writes w Sample.idle _ _ _
           (triple_eta (check_temperatures w Sample.idle))).
  discriminate.
Defined.

Lemma lt_int_below (x : float) (a b : Z) :
  lt_int x a = true -> a <= b -> lt_int x b = true /\ gt_int x b = false.
Proof.
  unfold lt_int, gt_int, compare_int. intros H Hab.
  assert (Hlt : forall v a' b', (v ?= a') = Lt -> a' <= b' -> (v ?= b') = Lt).
  { intros v a' b' Hv Hle. apply Z.compare_lt_iff.
    pose proof (proj1 (Z.compare_lt_iff v a') Hv). lia. }
  destruct x as [s|s| |s m e]; try discriminate H.
  - destruct (0 ?= a) eqn:Ha; try discriminate H.
    rewrite (Hlt _ _ _ Ha Hab). split; reflexivity.
  - destruct s; [split; reflexivity | discriminate H].
  - destruct (0 <=? e).
    + destruct (cond_Zopp s (Zpos m) * 2 ^ e ?= a) eqn:Ha; try discriminate H.
      rewrite (Hlt _ _ _ Ha Hab). split; reflexivity.
    + destruct (cond_Zopp s (Zpos m) ?= a * 2 ^ (- e)) eqn:Ha; try discriminate H.
      assert (Hle : a * 2 ^ (- e) <= b * 2 ^ (- e)).
      { apply Z.mul_le_mono_nonneg_r; [apply Z.pow_nonneg; lia | exact Hab]. }
      rewrite (Hlt _ _ _ Ha Hle). split; reflexivity.
Qed.

(** An absent sensor counts as a cool one, as long as the other is read:
    a cycle in which the CPU read failed asks for the same write as a cycle
    in which the CPU reads a value below its threshold less
    [TEMP_OSCILLATION_FIX], the GPU reading, the clock and the object being
    the same; and likewise with the sensors exchanged. *)
Theorem absent_sensor_counts_as_cool w1 w2 self (cool other : float) :
  fault w1 = None ->
  fault w2 = None ->
  time_time w1 = time_time w2 ->
  (reading w1 "cpu" = None /\ reading w2 "cpu" = Some cool
   /\ lt_int cool (CPU_TEMP_THRESHOLD - TEMP_OSCILLATION_FIX) = true
   /\ reading w1 "gpu" = Some other /\ reading w2 "gpu" = Some other)
  \/ (reading w1 "gpu" = None /\ reading w2 "gpu" = Some cool
      /\ lt_int cool (GPU_TEMP_THRESHOLD - TEMP_OSCILLATION_FIX) = true
      /\ reading w1 "cpu" = Some other /\ reading w2 "cpu" = Some other) ->
  forall r1 s1 tr1 r2 s2 tr2,
    check_temperatures w1 self = (r1, s1, tr1) ->
    check_temperatures w2 self = (r2, s2, tr2) ->
    boost_writes tr1 = boost_writes tr2.
Proof.
  intros Hf1 Hf2 Ht H r1 s1 tr1 r2 s2 tr2 E1 E2.
  destruct (check_temperatures_run w1 self Hf1) as (t1 & E1' & W1 & _).
  destruct (check_temperatures_run w2 self Hf2) as (t2 & E2' & W2 & _).
  rewrite E1' in E1. rewrite E2' in E2.
  injection E1 as <- <- <-. injection E2 as <- <- <-.
  rewrite W1, W2.
  assert (Ha : asked w1 self = asked w2 self); [|rewrite Ha; reflexivity].
  unfold asked, should_enable, long_enough. rewrite Ht.
  destruct H as [(C1 & C2 & Hc & G1 & G2) | (G1 & G2 & Hc & C1 & C2)];
    rewrite C1, C2, G1, G2; cbn [above safe];
    destruct (lt_int_below cool _ 60 Hc ltac:(cbv; discriminate)) as [_ Hgt];
    rewrite Hc;
    change CPU_TEMP_THRESHOLD with 60; change GPU_TEMP_THRESHOLD with 60;
    rewrite Hgt; reflexivity.
Qed.

(** The boost on since long, the GPU at 50: with the CPU unread or at 40 the
    cycle asks for the write [off] alike. *)
Lemma absent_sensor_counts_as_cool_witness :
  let w1 := Sample.around (Sample.laptop "n/a" "50" "on" true) (of_int 1000) in
  let w2 := Sample.around (Sample.laptop "40" "50" "on" true) (of_int 1000) in
  let on := Sample.boosting (of_int 10) in
  boost_writes (snd (check_temperatures w1 on)) = boost_writes (snd (check_temperatures w2 on))
  /\ boost_writes (snd (check_temperatures w2 on)) = [false].
Proof.
  intros w1 w2 on. split; [|reflexivity].
  apply (absent_sensor_counts_as_cool w1 w2 on
           (S754_finite false 5629499534213120 (-47))
           (S754_finite false 7036874417766400 (-47))
           eq_refl eq_refl eq_refl
           (or_introl (conj eq_refl (conj eq_refl (conj eq_refl (conj eq_refl eq_refl)))))
           _ _ _ _ _ _
           (triple_eta (check_temperatures w1 on))
           (triple_eta (check_temperatures w2 on))).
Defined.

(** A cycle that enables and a cycle that raises. *)
Lemma cycle_writes_only_changes_witness :
  let hot := Sample.around (Sample.laptop "61" "50" "off" true) (of_int 1000) in
  boost_writes (snd (check_temperatures hot Sample.idle)) = [true]
  /\ running (snd (fst (check_temperatures hot Sample.idle))) = true
  /\ naps (snd (check_temperatures (Sample.faulty (Other "boom")) Sample.idle)) = 0%nat.
Proof.
  intros hot.
  destruct (cycle_writes_only_changes hot Sample.idle _ _ _
              (triple_eta (check_temperatures hot Sample.idle)))
    as (_ & _ & Hr & _).
  destruct (cycle_writes_only_changes (Sample.faulty (Other "boom")) Sample.idle _ _ _
              (triple_eta (check_temperatures (Sample.faulty (Other "boom")) Sample.idle)))
    as (_ & Hn & _).
  split; [reflexivity|]. split; [exact Hr | exact Hn].
Defined.
